(** * retinanet_pet_detector: the Lightning wrapper of the RetinaNet model

    A shallow embedding of [references/lightning.py]: the [DetectionModel]
    Lightning module (optimizer wiring, data staging, the three data
    loaders, the train / validation / test steps, the end of the test
    epoch) and the [LogCallback] hooks, followed by the properties of the
    training / evaluation lifecycle that are checked against it.

    Python objects are mutable and their methods may raise: the module
    instance [self] is an explicit state, every method is a computation in
    a state-and-exception monad, and the object bound to
    [self.test_evaluator] lives in a store of evaluator instances so that
    its identity is visible. *)

From Stdlib Require Import List String ZArith QArith Bool Lia Floats.
From Stdlib Require Import Permutation.
Import ListNotations.

#[local] Set Warnings "-inexact-float".
#[local] Open Scope string_scope.
#[local] Open Scope Z_scope.
#[local] Open Scope list_scope.

(* ================================================================== *)
(** ** Python values, exceptions, dictionaries *)
(* ================================================================== *)

Module Py.

(** Exceptions.  The first group is what the Python runtime and the
    libraries called by the source raise; the second group is the error
    taxonomy named by the specification. *)
Inductive exn : Type :=
| AttributeError (attr : string)
| KeyError (key : string)
| TypeError (msg : string)
| ValueError (msg : string)
| OSError (path : string)
| ImportError (name : string)
| ConfigurationError
| BatchShapeError
| DuplicateImageError (image_id : Z)
| OptimizationError.

(** Values of a configuration mapping ([DictConfig] entries forwarded as
    keyword arguments). *)
Inductive value : Type :=
| PyNone
| PyBool (b : bool)
| PyInt (z : Z)
| PyNum (q : Q)
| PyStr (s : string)
| PyObj (name : string).

(** Python truthiness. *)
Definition truthy (v : value) : bool :=
  match v with
  | PyNone => false
  | PyBool b => b
  | PyInt z => negb (z =? 0)
  | PyNum q => negb (Qeq_bool q 0)
  | PyStr s => negb (String.eqb s "")
  | PyObj _ => true
  end.

Definition is_None (v : value) : bool :=
  match v with PyNone => true | _ => false end.

(** A [dict] is an association list in insertion order with unique keys:
    assigning to a key that is present replaces its value in place,
    assigning to a new key appends. *)
Section Dict.
Context {K V : Type} (eqb : K -> K -> bool).

Fixpoint dict_get (d : list (K * V)) (k : K) : option V :=
  match d with
  | [] => None
  | (k', v) :: d' => if eqb k k' then Some v else dict_get d' k
  end.

Fixpoint dict_set (d : list (K * V)) (k : K) (v : V) : list (K * V) :=
  match d with
  | [] => [(k, v)]
  | (k', v') :: d' =>
      if eqb k k' then (k', v) :: d' else (k', v') :: dict_set d' k v
  end.

Definition dict_mem (d : list (K * V)) (k : K) : bool :=
  match dict_get d k with Some _ => true | None => false end.

(** [{k: v for k, v in pairs}]: the pairs are inserted left to right. *)
Definition dict_of (pairs : list (K * V)) : list (K * V) :=
  fold_left (fun d kv => dict_set d (fst kv) (snd kv)) pairs [].
End Dict.

Definition keys {K V : Type} (d : list (K * V)) : list K := map fst d.
Definition values {K V : Type} (d : list (K * V)) : list V := map snd d.

(** [zip(xs, ys)] stops at the shorter argument. *)
Fixpoint zip {A B : Type} (xs : list A) (ys : list B) : list (A * B) :=
  match xs, ys with
  | x :: xs', y :: ys' => (x, y) :: zip xs' ys'
  | _, _ => []
  end.

(** Keyword arguments. *)
Definition kwargs : Type := list (string * value).
Definition kw_get (kw : kwargs) (k : string) : option value :=
  dict_get String.eqb kw k.
Definition kw_mem (kw : kwargs) (k : string) : bool :=
  dict_mem String.eqb kw k.

End Py.
Export Py.

(** Scalars that losses are made of.  The source adds them with Python's
    [sum], which starts from [0] and adds from left to right. *)
Class Scalar (T : Type) : Type := { szero : T; sadd : T -> T -> T }.

#[export] Instance Scalar_Q : Scalar Q := {| szero := 0%Q; sadd := Qplus |}.
#[export] Instance Scalar_float : Scalar float :=
  {| szero := 0%float; sadd := PrimFloat.add |}.

Definition py_sum {T : Type} `{Scalar T} (xs : list T) : T :=
  fold_left sadd xs szero.

(* ================================================================== *)
(** ** State and exceptions *)
(* ================================================================== *)

Module Eff.

(** The result of running a method: it returns or it raises, and in both
    cases the mutations done so far stay. *)
Inductive outcome (S A : Type) : Type :=
| Return (a : A) (s : S)
| Raise (e : exn) (s : S).
Arguments Return {S A} a s.
Arguments Raise {S A} e s.

Definition M (S A : Type) : Type := S -> outcome S A.

Definition ret {S A : Type} (a : A) : M S A := fun s => Return a s.

Definition bind {S A B : Type} (c : M S A) (k : A -> M S B) : M S B :=
  fun s => match c s with
           | Return a s' => k a s'
           | Raise e s' => Raise e s'
           end.

Definition raise {S A : Type} (e : exn) : M S A := fun s => Raise e s.
Definition get {S : Type} : M S S := fun s => Return s s.
Definition gets {S A : Type} (f : S -> A) : M S A := fun s => Return (f s) s.
Definition modify {S : Type} (f : S -> S) : M S unit :=
  fun s => Return tt (f s).

(** A library call that does not touch [self]. *)
Definition lift {S A : Type} (r : exn + A) : M S A :=
  match r with inl e => raise e | inr a => ret a end.

(** Reading an attribute that may not have been assigned yet. *)
Definition getattr {S A : Type} (name : string) (f : S -> option A) : M S A :=
  fun s => match f s with
           | Some a => Return a s
           | None => Raise (AttributeError name) s
           end.

(** A library call that only succeeds or raises. *)
Definition check {S : Type} (o : option exn) : M S unit :=
  match o with Some e => raise e | None => ret tt end.

Definition final_state {S A : Type} (o : outcome S A) : S :=
  match o with Return _ s => s | Raise _ s => s end.

Definition raised {S A : Type} (o : outcome S A) : option exn :=
  match o with Return _ _ => None | Raise e _ => Some e end.

Definition returned {S A : Type} (o : outcome S A) : option A :=
  match o with Return a _ => Some a | Raise _ _ => None end.

End Eff.
Export Eff.

Declare Scope eff_scope.
Delimit Scope eff_scope with eff.
Notation "x <- c ;; k" := (bind c (fun x => k))
  (at level 61, c at next level, right associativity) : eff_scope.
Notation "c ;; k" := (bind c (fun _ => k))
  (at level 61, right associativity) : eff_scope.
#[local] Open Scope eff_scope.

(* ================================================================== *)
(** ** Data model *)
(* ================================================================== *)

(** Ground truth of one image: the dictionary with keys [boxes], [labels]
    and [image_id] that the dataset yields. *)
Record Target : Type := {
  image_id : Z;
  boxes : list (Z * Z * Z * Z);
  labels : list Z
}.

(** A tensor registered as a parameter of the network. *)
Record ParamTensor : Type := {
  p_name : string;
  p_data : list Q;
  p_grad : option (list Q);
  requires_grad : bool
}.

(** The configuration ([hparams], a [DictConfig]). *)
Record OptimizerConf : Type := {
  class_name : string;
  params : kwargs
}.

Record SchedulerConf : Type := {
  sched_class_name : string;
  sched_params : kwargs;
  interval : string;
  frequency : Z
}.

Record HParams : Type := {
  hp_optimizer : OptimizerConf;
  hp_scheduler : SchedulerConf;
  train_csv : string;
  valid_csv : string;
  test_csv : string;
  train_batch_size : Z;
  valid_batch_size : Z;
  test_batch_size : Z;
  dataloader : kwargs;
  iou_types : string
}.

(** Objects built by [configure_optimizers].  An object made by calling a
    dynamically loaded class is represented by that call: the class and
    the arguments it was given. *)
Record Optimizer : Type := {
  optimizer_class : string;
  param_groups : list ParamTensor;
  optimizer_kwargs : kwargs
}.

Record LRScheduler : Type := {
  scheduler_class : string;
  scheduler_optimizer : Optimizer;
  scheduler_kwargs : kwargs
}.

Record SchedulerDict : Type := {
  sd_scheduler : LRScheduler;
  sd_interval : string;
  sd_frequency : Z
}.

(** An augmentation pipeline, by the class names of its transforms. *)
Record Compose : Type := { transforms : list string }.

(** A record source once read: one row per image. *)
Record Row : Type := {
  filename : string;
  row_target : Target
}.
Definition DataFrame : Type := list Row.

Record DetectionDataset : Type := {
  ds_frame : DataFrame;
  ds_tfms : Compose
}.

(** Modelled from the spec: the dataset class is not part of the source
    files; a record source has one row per image, so the length of a
    dataset is its number of rows. *)
Definition dataset_len (ds : DetectionDataset) : nat := List.length (ds_frame ds).

(** The batch loader: the arguments it was constructed with.  [options]
    are the keyword arguments forwarded from [hparams.dataloader]. *)
Record DataLoader : Type := {
  dataset : DetectionDataset;
  batch_size : Z;
  shuffle : bool;
  options : kwargs
}.

(** What the source writes to [fancy_logger], one constructor per message. *)
Inductive LogRecord : Type :=
| LogOptimizer (cls : string)
| LogScheduler (cls : string)
| LogAugmentations (names : list string)
| LogSerialized (split : string) (path : string)
| LogDatasetSize (bytes : Z)
| LogEvaluationResults
| LogTrainingOn (n : nat)
| LogTrainingFrom (global_step : Z)
| LogInferenceOn (n : nat).

Record Trainer : Type := { global_step : Z }.

Section Model.
Context {scalar image detection : Type}.

(** The wrapped network: its parameters, its loss-mode call
    [model(images, targets)] and its [predict(images)]. *)
Record nnModule : Type := {
  parameters : list ParamTensor;
  call : list image -> list Target -> list (string * scalar);
  predict : list image -> list detection
}.

(** A batch as the loader yields it: images, targets, and a third
    component that every step ignores. *)
Definition Batch : Type := (list image * list Target * list Z)%type.

(** Modelled from the spec: the evaluator class bound to
    [self.test_evaluator] is not part of the source files.  Its state is
    created at test-stage entry, populated by repeated [update] calls and
    finalized by [accumulate] and [summarize]; an instance is represented
    by its constructor arguments and by the method calls made on it so
    far, in order, from which the collected results and the finalization
    state can be read. *)
Inductive EvCall : Type :=
| CallUpdate (res : list (Z * detection))
| CallAccumulate
| CallSummarize.

Record CocoEvaluator : Type := {
  coco_gt : DetectionDataset;
  ev_iou_types : list string;
  calls : list EvCall
}.

Definition is_accumulate (c : EvCall) : bool :=
  match c with CallAccumulate => true | _ => false end.

Definition is_summarize (c : EvCall) : bool :=
  match c with CallSummarize => true | _ => false end.

(** The flags of the evaluator state, read from its history: whether the
    collected results have been accumulated, and summarized. *)
Definition accumulated (ev : CocoEvaluator) : bool :=
  existsb is_accumulate (calls ev).

Definition summarized (ev : CocoEvaluator) : bool :=
  existsb is_summarize (calls ev).

(** Image identifiers submitted so far to an evaluator. *)
Definition submitted_ids (ev : CocoEvaluator) : list Z :=
  flat_map (fun c => match c with CallUpdate res => keys res | _ => [] end)
           (calls ev).

(** Return values of the steps. *)
Record TrainOutput : Type := {
  loss : scalar;
  log : list (string * scalar);
  progress_bar : list (string * scalar)
}.

Record LoggedMetric : Type := {
  metric_name : string;
  metric_value : scalar;
  on_step : bool;
  on_epoch : bool;
  prog_bar : bool;
  logger : bool
}.

Record EvalResult : Type := { logged : list LoggedMetric }.

Record TestEpochOutput : Type := {
  AP : scalar;
  ap_log : list (string * scalar);
  ap_progress_bar : list (string * scalar)
}.

(** The module instance [self], together with the store in which the
    evaluator objects live: [test_evaluator] is a reference into [heap]. *)
Record DetectionModel : Type := {
  model : nnModule;
  hparams : HParams;
  fancy_logger : list LogRecord;
  optimizer : option Optimizer;
  scheduler : option SchedulerDict;
  tfms : option (list (string * Compose));
  trn_df : option DataFrame;
  val_df : option DataFrame;
  test_df : option DataFrame;
  test_evaluator : option nat;
  heap : list CocoEvaluator
}.

(** Code of the repository and libraries that the module calls and that
    are outside the source files: [load_obj] resolves a class path to a
    class; [optimizer_init] and [scheduler_init] are the calls of the
    loaded optimizer and scheduler classes on their arguments, which
    construct the object or raise; [get_tfms] builds the pipelines of the
    three stages; [read_csv] and [getsize] are the reader and the file
    size; [stats0] is the headline metric [coco_eval["bbox"].stats[0]] of
    an evaluator; [reaccumulate] is what the evaluator does when it is
    asked to accumulate again, nothing or an error. *)
Record Externals : Type := {
  load_obj : string -> exn + string;
  optimizer_init : string -> list ParamTensor -> kwargs -> option exn;
  scheduler_init : string -> Optimizer -> kwargs -> option exn;
  get_tfms : HParams -> exn + list (string * Compose);
  read_csv : string -> exn + DataFrame;
  getsize : string -> exn + Z;
  stats0 : CocoEvaluator -> scalar;
  reaccumulate : option exn
}.

Definition set_model (m : nnModule) (s : DetectionModel) : DetectionModel :=
  {| model := m; hparams := hparams s; fancy_logger := fancy_logger s;
     optimizer := optimizer s; scheduler := scheduler s; tfms := tfms s;
     trn_df := trn_df s; val_df := val_df s; test_df := test_df s;
     test_evaluator := test_evaluator s; heap := heap s |}.

Definition set_fancy_logger (l : list LogRecord) (s : DetectionModel)
  : DetectionModel :=
  {| model := model s; hparams := hparams s; fancy_logger := l;
     optimizer := optimizer s; scheduler := scheduler s; tfms := tfms s;
     trn_df := trn_df s; val_df := val_df s; test_df := test_df s;
     test_evaluator := test_evaluator s; heap := heap s |}.

Definition set_optimizer (o : Optimizer) (s : DetectionModel) : DetectionModel :=
  {| model := model s; hparams := hparams s; fancy_logger := fancy_logger s;
     optimizer := Some o; scheduler := scheduler s; tfms := tfms s;
     trn_df := trn_df s; val_df := val_df s; test_df := test_df s;
     test_evaluator := test_evaluator s; heap := heap s |}.

Definition set_scheduler (d : SchedulerDict) (s : DetectionModel)
  : DetectionModel :=
  {| model := model s; hparams := hparams s; fancy_logger := fancy_logger s;
     optimizer := optimizer s; scheduler := Some d; tfms := tfms s;
     trn_df := trn_df s; val_df := val_df s; test_df := test_df s;
     test_evaluator := test_evaluator s; heap := heap s |}.

Definition set_tfms (t : list (string * Compose)) (s : DetectionModel)
  : DetectionModel :=
  {| model := model s; hparams := hparams s; fancy_logger := fancy_logger s;
     optimizer := optimizer s; scheduler := scheduler s; tfms := Some t;
     trn_df := trn_df s; val_df := val_df s; test_df := test_df s;
     test_evaluator := test_evaluator s; heap := heap s |}.

Definition set_trn_df (d : DataFrame) (s : DetectionModel) : DetectionModel :=
  {| model := model s; hparams := hparams s; fancy_logger := fancy_logger s;
     optimizer := optimizer s; scheduler := scheduler s; tfms := tfms s;
     trn_df := Some d; val_df := val_df s; test_df := test_df s;
     test_evaluator := test_evaluator s; heap := heap s |}.

Definition set_val_df (d : DataFrame) (s : DetectionModel) : DetectionModel :=
  {| model := model s; hparams := hparams s; fancy_logger := fancy_logger s;
     optimizer := optimizer s; scheduler := scheduler s; tfms := tfms s;
     trn_df := trn_df s; val_df := Some d; test_df := test_df s;
     test_evaluator := test_evaluator s; heap := heap s |}.

Definition set_test_df (d : DataFrame) (s : DetectionModel) : DetectionModel :=
  {| model := model s; hparams := hparams s; fancy_logger := fancy_logger s;
     optimizer := optimizer s; scheduler := scheduler s; tfms := tfms s;
     trn_df := trn_df s; val_df := val_df s; test_df := Some d;
     test_evaluator := test_evaluator s; heap := heap s |}.

Definition set_test_evaluator (r : nat) (s : DetectionModel) : DetectionModel :=
  {| model := model s; hparams := hparams s; fancy_logger := fancy_logger s;
     optimizer := optimizer s; scheduler := scheduler s; tfms := tfms s;
     trn_df := trn_df s; val_df := val_df s; test_df := test_df s;
     test_evaluator := Some r; heap := heap s |}.

Definition set_heap (h : list CocoEvaluator) (s : DetectionModel)
  : DetectionModel :=
  {| model := model s; hparams := hparams s; fancy_logger := fancy_logger s;
     optimizer := optimizer s; scheduler := scheduler s; tfms := tfms s;
     trn_df := trn_df s; val_df := val_df s; test_df := test_df s;
     test_evaluator := test_evaluator s; heap := h |}.

End Model.

Arguments nnModule : clear implicits.
Arguments CocoEvaluator : clear implicits.
Arguments EvCall : clear implicits.
Arguments TrainOutput : clear implicits.
Arguments LoggedMetric : clear implicits.
Arguments EvalResult : clear implicits.
Arguments TestEpochOutput : clear implicits.
Arguments DetectionModel : clear implicits.
Arguments Externals : clear implicits.
Arguments Batch : clear implicits.

(* ================================================================== *)
(** ** Library classes used by the module *)
(* ================================================================== *)

(** An option given and not [None]. *)
Definition kw_opt (kw : kwargs) (k : string) : option value :=
  match kw_get kw k with
  | Some v => if is_None v then None else Some v
  | None => None
  end.

(** A boolean option, [False] when absent. *)
Definition kw_flag (kw : kwargs) (k : string) : bool :=
  match kw_get kw k with
  | Some v => truthy v
  | None => false
  end.

Definition is_some {A : Type} (o : option A) : bool :=
  match o with Some _ => true | None => false end.

(** Modelled from the spec: the batch loader class is a library class, not
    part of the source files.  The call is
    [DataLoader(dataset, batch_size, [shuffle,] collate_fn=collate_fn, **kw)]:
    [shuffle_arg] is the third positional argument when the caller gives
    one.  A name bound both by the caller and by [kw] is a [TypeError];
    without a positional [shuffle] the flag is the one in [kw], [False] by
    default; shuffling excludes a sampler, a batch sampler excludes
    everything else, and a batch size must be positive. *)
Definition DataLoader_new (ds : DetectionDataset) (bs : Z)
    (shuffle_arg : option bool) (kw : kwargs) : exn + DataLoader :=
  if kw_mem kw "dataset" || kw_mem kw "batch_size" || kw_mem kw "collate_fn"
     || (is_some shuffle_arg && kw_mem kw "shuffle")
  then inl (TypeError "got multiple values for argument")
  else
    let sh := match shuffle_arg with
              | Some b => b
              | None => kw_flag kw "shuffle"
              end in
    let dl := {| dataset := ds; batch_size := bs; shuffle := sh;
                 options := kw |} in
    match kw_opt kw "batch_sampler", kw_opt kw "sampler" with
    | Some _, smp =>
        if negb (bs =? 1) || sh || is_some smp || kw_flag kw "drop_last"
        then inl (ValueError "batch_sampler option is mutually exclusive")
        else inr dl
    | None, Some _ =>
        if sh
        then inl (ValueError "sampler option is mutually exclusive with shuffle")
        else if bs <=? 0
        then inl (ValueError "batch_size should be a positive integer value")
        else inr dl
    | None, None =>
        if bs <=? 0
        then inl (ValueError "batch_size should be a positive integer value")
        else inr dl
    end.

(** Consecutive groups of [n] indices; the last group may be shorter, and
    is left out when [drop_last] is set. *)
Fixpoint chunks (fuel n : nat) (drop_last : bool) (l : list nat)
  : list (list nat) :=
  match fuel with
  | O => []
  | S fuel' =>
      match l with
      | [] => []
      | _ :: _ =>
          if drop_last && (List.length l <? n)%nat then []
          else firstn n l :: chunks fuel' n drop_last (skipn n l)
      end
  end.

(** Modelled from the spec: the dataset indices of the batches of one pass
    over a loader.  Batches are consumed in submission order; without
    shuffling the indices are [0 .. n-1] in order, with shuffling they are
    the permutation [rng n] drawn from the random source, and a sampler
    object configured through the options decides the batches by itself
    ([custom]). *)
Definition batches (rng : nat -> list nat)
    (custom : value -> nat -> list (list nat)) (dl : DataLoader)
  : list (list nat) :=
  let n := dataset_len (dataset dl) in
  match kw_opt (options dl) "batch_sampler", kw_opt (options dl) "sampler" with
  | Some v, _ => custom v n
  | None, Some v => custom v n
  | None, None =>
      let order := if shuffle dl then rng n else seq 0 n in
      chunks (List.length order) (Z.to_nat (batch_size dl))
             (kw_flag (options dl) "drop_last") order
  end.

(** Modelled from the spec: the collation function is not part of the
    source files.  Given a sequence of individually sampled items it
    returns one batch: the images, the targets kept as an ordered sequence
    aligned by index to the images, and the identifier list. *)
Definition collate_fn {image : Type} (samples : list (image * Target * Z))
  : Batch image :=
  (map (fun x => fst (fst x)) samples,
   map (fun x => snd (fst x)) samples,
   map snd samples).

Fixpoint update_nth {A : Type} (i : nat) (x : A) (l : list A) : list A :=
  match l, i with
  | [], _ => []
  | _ :: l', O => x :: l'
  | y :: l', S i' => y :: update_nth i' x l'
  end.

Section Evaluator.
Context {detection : Type}.

Definition CocoEvaluator_new (coco : DetectionDataset) (iou : list string)
  : CocoEvaluator detection :=
  {| coco_gt := coco; ev_iou_types := iou; calls := [] |}.

Definition record_call (c : EvCall detection) (ev : CocoEvaluator detection)
  : CocoEvaluator detection :=
  {| coco_gt := coco_gt ev; ev_iou_types := ev_iou_types ev;
     calls := calls ev ++ [c] |}.

(** Modelled from the spec: the evaluator class is not part of the source
    files.  [update(results)] merges new per-image results into the
    running state and must be called at most once per image identifier
    across a test pass: a duplicate identifier is a
    [DuplicateImageError]. *)
Definition CocoEvaluator_update (res : list (Z * detection))
    (ev : CocoEvaluator detection) : exn + CocoEvaluator detection :=
  match find (fun k => existsb (Z.eqb k) (submitted_ids ev)) (keys res) with
  | Some k => inl (DuplicateImageError k)
  | None => inr (record_call (CallUpdate res) ev)
  end.

(** Modelled from the spec: [accumulate()] performs the one-time
    conversion of the collected results and sets the accumulated flag.
    Calling it a second time is a no-op or an error, as the evaluator
    decides ([again]); in neither case is anything counted twice. *)
Definition CocoEvaluator_accumulate (again : option exn)
    (ev : CocoEvaluator detection) : exn + CocoEvaluator detection :=
  if accumulated ev then
    match again with
    | Some e => inl e
    | None => inr ev
    end
  else inr (record_call CallAccumulate ev).

(** Modelled from the spec: [summarize()] computes the summary of the
    accumulated statistics; the evaluator is finalized once, and
    summarizing a summarized evaluator changes nothing. *)
Definition CocoEvaluator_summarize (ev : CocoEvaluator detection)
  : CocoEvaluator detection :=
  if summarized ev then ev else record_call CallSummarize ev.

(** Modelled from the spec: the ground-truth API object is built from the
    dataset of the loader; it is represented by that dataset. *)
Definition get_coco_api_from_dataset (ds : DetectionDataset)
  : DetectionDataset := ds.

End Evaluator.

(* ================================================================== *)
(** ** [DetectionModel] and [LogCallback] *)
(* ================================================================== *)

Section Lightning.
Context {scalar image detection : Type} `{Scalar scalar}.
Variable ext : Externals scalar detection.

#[local] Abbreviation Self := (DetectionModel scalar image detection).

(** [self.fancy_logger.info(...)] *)
Definition info (r : LogRecord) : M Self unit :=
  modify (fun s => set_fancy_logger (fancy_logger s ++ [r]) s).

(** [d[k]] on a dictionary of pipelines. *)
Definition getitem (d : list (string * Compose)) (k : string) : exn + Compose :=
  match dict_get String.eqb d k with
  | Some v => inr v
  | None => inl (KeyError k)
  end.

(** Evaluator objects are reached through a reference. *)
Definition deref (r : nat) : M Self (CocoEvaluator detection) :=
  fun s => match nth_error (heap s) r with
           | Some ev => Return ev s
           | None => Raise (AttributeError "test_evaluator") s
           end.

Definition store (r : nat) (ev : CocoEvaluator detection) : M Self unit :=
  modify (fun s => set_heap (update_nth r ev (heap s)) s).

(** Constructing an object puts a new instance into the store. *)
Definition alloc (ev : CocoEvaluator detection) : M Self nat :=
  fun s => Return (List.length (heap s)) (set_heap (heap s ++ [ev]) s).

(** *** Optimizer and scheduler *)

Definition configure_optimizers
  : M Self (list Optimizer * list SchedulerDict) :=
  m <- gets model ;;
  let trainable := filter requires_grad (parameters m) in
  hp <- gets hparams ;;
  ocls <- lift (load_obj ext (class_name (hp_optimizer hp))) ;;
  check (optimizer_init ext ocls trainable (params (hp_optimizer hp))) ;;
  let opt := {| optimizer_class := ocls; param_groups := trainable;
                optimizer_kwargs := params (hp_optimizer hp) |} in
  modify (set_optimizer opt) ;;
  scls <- lift (load_obj ext (sched_class_name (hp_scheduler hp))) ;;
  check (scheduler_init ext scls opt (sched_params (hp_scheduler hp))) ;;
  let sch := {| scheduler_class := scls; scheduler_optimizer := opt;
                scheduler_kwargs := sched_params (hp_scheduler hp) |} in
  let sd := {| sd_scheduler := sch;
               sd_interval := interval (hp_scheduler hp);
               sd_frequency := frequency (hp_scheduler hp) |} in
  modify (set_scheduler sd) ;;
  info (LogOptimizer ocls) ;;
  info (LogScheduler scls) ;;
  ret ([opt], [sd]).

(** *** Getting the data ready *)

Definition prepare_data : M Self unit :=
  hp <- gets hparams ;;
  t <- lift (get_tfms ext hp) ;;
  modify (set_tfms t) ;;
  augs <- lift (getitem t "train") ;;
  info (LogAugmentations (transforms augs)) ;;
  trn <- lift (read_csv ext (train_csv hp)) ;;
  modify (set_trn_df trn) ;;
  info (LogSerialized "train" (train_csv hp)) ;;
  sz <- lift (getsize ext (train_csv hp)) ;;
  info (LogDatasetSize sz) ;;
  val <- lift (read_csv ext (valid_csv hp)) ;;
  modify (set_val_df val) ;;
  info (LogSerialized "validation" (valid_csv hp)) ;;
  sz <- lift (getsize ext (valid_csv hp)) ;;
  info (LogDatasetSize sz) ;;
  tst <- lift (read_csv ext (test_csv hp)) ;;
  modify (set_test_df tst) ;;
  info (LogSerialized "test" (test_csv hp)) ;;
  sz <- lift (getsize ext (test_csv hp)) ;;
  info (LogDatasetSize sz).

(** *** Training *)

Definition train_dataloader : M Self DataLoader :=
  df <- getattr "trn_df" trn_df ;;
  t <- getattr "tfms" tfms ;;
  tf <- lift (getitem t "train") ;;
  let train_ds := {| ds_frame := df; ds_tfms := tf |} in
  hp <- gets hparams ;;
  lift (DataLoader_new train_ds (train_batch_size hp) (Some true)
                       (dataloader hp)).

(** [{k: v for k, v in t.items()}] is a copy of the target. *)
Definition unpack (t : Target) : Target :=
  {| image_id := image_id t; boxes := boxes t; labels := labels t |}.

Definition training_step (batch : Batch image) (batch_idx : Z)
  : M Self (TrainOutput scalar) :=
  let '(images, targets, _) := batch in
  let targets := map unpack targets in
  m <- gets model ;;
  let loss_dict := call m images targets in
  let losses := py_sum (values loss_dict) in
  ret {| loss := losses; log := loss_dict; progress_bar := loss_dict |}.

(** *** Validation *)

Definition val_dataloader : M Self DataLoader :=
  df <- getattr "val_df" val_df ;;
  t <- getattr "tfms" tfms ;;
  tf <- lift (getitem t "valid") ;;
  let val_ds := {| ds_frame := df; ds_tfms := tf |} in
  hp <- gets hparams ;;
  lift (DataLoader_new val_ds (valid_batch_size hp) None (dataloader hp)).

Definition validation_step (batch : Batch image) (batch_idx : Z)
  : M Self (EvalResult scalar) :=
  let '(images, targets, _) := batch in
  let targets := map unpack targets in
  m <- gets model ;;
  let loss_dict := call m images targets in
  let loss := py_sum (values loss_dict) in
  let result := {| logged := [] |} in
  let result :=
    {| logged := logged result ++
         [ {| metric_name := "val_loss"; metric_value := loss;
              on_step := false; on_epoch := true;
              prog_bar := true; logger := true |} ] |} in
  ret result.

(** *** Test *)

Definition test_dataloader : M Self DataLoader :=
  df <- getattr "test_df" test_df ;;
  t <- getattr "tfms" tfms ;;
  tf <- lift (getitem t "test") ;;
  let test_ds := {| ds_frame := df; ds_tfms := tf |} in
  hp <- gets hparams ;;
  loader <- lift (DataLoader_new test_ds (test_batch_size hp) None
                                 (dataloader hp)) ;;
  let coco := get_coco_api_from_dataset (dataset loader) in
  r <- alloc (CocoEvaluator_new coco [iou_types hp]) ;;
  modify (set_test_evaluator r) ;;
  ret loader.

(** The mapping from image identifier to output built by [test_step]. *)
Definition test_results (targets : list Target) (outputs : list detection)
  : list (Z * detection) :=
  dict_of Z.eqb (map (fun to => (image_id (fst to), snd to))
                     (zip targets outputs)).

Definition test_step (batch : Batch image) (batch_idx : Z)
  : M Self (list (string * scalar)) :=
  let '(images, targets, _) := batch in
  let targets := map unpack targets in
  m <- gets model ;;
  let outputs := predict m images in
  let res := test_results targets outputs in
  r <- getattr "test_evaluator" test_evaluator ;;
  ev <- deref r ;;
  ev' <- lift (CocoEvaluator_update res ev) ;;
  store r ev' ;;
  ret [].

Definition test_epoch_end (outputs : list (list (string * scalar)))
  : M Self (TestEpochOutput scalar) :=
  info LogEvaluationResults ;;
  r <- getattr "test_evaluator" test_evaluator ;;
  ev <- deref r ;;
  ev' <- lift (CocoEvaluator_accumulate (reaccumulate ext) ev) ;;
  store r ev' ;;
  r <- getattr "test_evaluator" test_evaluator ;;
  ev <- deref r ;;
  store r (CocoEvaluator_summarize ev) ;;
  r <- getattr "test_evaluator" test_evaluator ;;
  ev <- deref r ;;
  if existsb (String.eqb "bbox") (ev_iou_types ev) then
    let metric := stats0 ext ev in
    let logs := [("AP", metric)] in
    ret {| AP := metric; ap_log := logs; ap_progress_bar := logs |}
  else raise (KeyError "bbox").

(** *** [LogCallback] *)

Definition on_train_start (trainer : Trainer) : M Self unit :=
  dl <- train_dataloader ;;
  info (LogTrainingOn (dataset_len (dataset dl))) ;;
  info (LogTrainingFrom (global_step trainer)).

Definition on_test_start (trainer : Trainer) : M Self unit :=
  dl <- test_dataloader ;;
  info (LogInferenceOn (dataset_len (dataset dl))).

(** *** A test pass *)

Fixpoint test_steps (bs : list (Batch image)) (batch_idx : Z) : M Self unit :=
  match bs with
  | [] => ret tt
  | b :: bs' => test_step b batch_idx ;; test_steps bs' (batch_idx + 1)
  end.

(** Modelled from the spec: the trainer that drives the module is a
    library, not part of the source files.  On entry into the test stage
    it fetches the test loader and fires the start-of-test hook once; it
    then calls the test step on every batch in order, and the end of the
    test epoch closes the stage. *)
Definition test_pass (trainer : Trainer) (bs : list (Batch image))
  : M Self (TestEpochOutput scalar) :=
  test_dataloader ;;
  on_test_start trainer ;;
  test_steps bs 0 ;;
  test_epoch_end [].

End Lightning.

Arguments test_step {scalar image detection} batch batch_idx _.
Arguments test_steps {scalar image detection} bs batch_idx _.
Arguments test_dataloader {scalar image detection} _.
Arguments train_dataloader {scalar image detection} _.
Arguments val_dataloader {scalar image detection} _.
Arguments on_train_start {scalar image detection} trainer _.
Arguments on_test_start {scalar image detection} trainer _.

(** [__init__]: the model and the configuration are stored, the logger is
    created, nothing else is assigned yet. *)
Definition DetectionModel_init {scalar image detection : Type}
    (m : nnModule scalar image detection) (hp : HParams)
  : DetectionModel scalar image detection :=
  {| model := m; hparams := hp; fancy_logger := [];
     optimizer := None; scheduler := None; tfms := None;
     trn_df := None; val_df := None; test_df := None;
     test_evaluator := None; heap := [] |}.

(** The same network with another loss-mode call. *)
Definition with_call {scalar image detection : Type}
    (f : list image -> list Target -> list (string * scalar))
    (m : nnModule scalar image detection) : nnModule scalar image detection :=
  {| parameters := parameters m; call := f; predict := predict m |}.

(** The named entries recorded in an evaluation result. *)
Definition entries {scalar : Type} (r : EvalResult scalar)
  : list (string * scalar) :=
  map (fun m => (metric_name m, metric_value m)) (logged r).

(** The results that a test step builds from a batch. *)
Definition batch_results {scalar image detection : Type}
    (m : nnModule scalar image detection) (b : Batch image)
  : list (Z * detection) :=
  test_results (map unpack (snd (fst b))) (predict m (fst (fst b))).

(** The [update] calls of a pass over the batches [bs]. *)
Definition update_calls {scalar image detection : Type}
    (m : nnModule scalar image detection) (bs : list (Batch image))
  : list (EvCall detection) :=
  map (fun b => CallUpdate (batch_results m b)) bs.

(** The error of a library call, if it raised. *)
Definition err {A : Type} (r : exn + A) : option exn :=
  match r with inl e => Some e | inr _ => None end.

Fixpoint first_error (l : list (option exn)) : option exn :=
  match l with
  | [] => None
  | Some e :: _ => Some e
  | None :: l' => first_error l'
  end.

(** The calls that [prepare_data] makes outside the module, in order. *)
Definition staging_calls {scalar detection : Type}
    (ext : Externals scalar detection) (hp : HParams) : list (option exn) :=
  [ err (get_tfms ext hp);
    match get_tfms ext hp with
    | inr t => err (getitem t "train")
    | inl _ => None
    end;
    err (read_csv ext (train_csv hp)); err (getsize ext (train_csv hp));
    err (read_csv ext (valid_csv hp)); err (getsize ext (valid_csv hp));
    err (read_csv ext (test_csv hp)); err (getsize ext (test_csv hp)) ].

(* ================================================================== *)
(** ** Concrete instances *)
(* ================================================================== *)

(** Predicted boxes, labels and confidence scores of one image. *)
Record Detection : Type := {
  det_boxes : list (Z * Z * Z * Z);
  det_labels : list Z;
  det_scores : list Q
}.

Definition Image : Type := list Z.

Definition w_backbone : ParamTensor :=
  {| p_name := "backbone.weight"; p_data := [1 # 2]%Q; p_grad := None;
     requires_grad := false |}.

Definition w_head : ParamTensor :=
  {| p_name := "head.weight"; p_data := [1 # 4]%Q; p_grad := None;
     requires_grad := true |}.

Definition detect (img : Image) : Detection :=
  {| det_boxes := [(0, 0, 1, 1)]; det_labels := img; det_scores := [9 # 10]%Q |}.

(** A model stub with the fixed loss [{cls: 0.3, reg: 0.2}], over exact
    rationals and over binary64 floating-point numbers. *)
Definition stub_model : nnModule Q Image Detection :=
  {| parameters := [w_backbone; w_head];
     call := fun _ _ => [("cls", 3 # 10); ("reg", 2 # 10)]%Q;
     predict := map detect |}.

Definition stub_model_float : nnModule float Image Detection :=
  {| parameters := [w_backbone; w_head];
     call := fun _ _ => [("cls", 0.3%float); ("reg", 0.2%float)];
     predict := map detect |}.

Definition demo_hparams : HParams :=
  {| hp_optimizer :=
       {| class_name := "torch.optim.SGD";
          params := [("lr", PyNum (1 # 100))] |};
     hp_scheduler :=
       {| sched_class_name := "torch.optim.lr_scheduler.StepLR";
          sched_params := [("step_size", PyInt 5)];
          interval := "epoch"; frequency := 1 |};
     train_csv := "train.csv"; valid_csv := "valid.csv";
     test_csv := "test.csv";
     train_batch_size := 2; valid_batch_size := 2; test_batch_size := 2;
     dataloader := [("num_workers", PyInt 0); ("pin_memory", PyBool true)];
     iou_types := "bbox" |}.

(** The same configuration with other data-loading options. *)
Definition with_dataloader (kw : kwargs) (hp : HParams) : HParams :=
  {| hp_optimizer := hp_optimizer hp; hp_scheduler := hp_scheduler hp;
     train_csv := train_csv hp; valid_csv := valid_csv hp;
     test_csv := test_csv hp;
     train_batch_size := train_batch_size hp;
     valid_batch_size := valid_batch_size hp;
     test_batch_size := test_batch_size hp;
     dataloader := kw; iou_types := iou_types hp |}.

Definition target_of (id : Z) : Target :=
  {| image_id := id; boxes := [(0, 0, 10, 10)]; labels := [1] |}.

Definition row (name : string) (id : Z) : Row :=
  {| filename := name; row_target := target_of id |}.

(** A file system: the record sources that can be read, by path. *)
Definition demo_files : list (string * DataFrame) :=
  [ ("train.csv", [row "a.jpg" 1; row "b.jpg" 2; row "c.jpg" 3; row "d.jpg" 4]);
    ("valid.csv", [row "e.jpg" 5; row "f.jpg" 6]);
    ("test.csv", [row "g.jpg" 7; row "h.jpg" 8]) ].

(** The test source has a header and no rows. *)
Definition files_empty_test : list (string * DataFrame) :=
  [ ("train.csv", [row "a.jpg" 1; row "b.jpg" 2]);
    ("valid.csv", [row "e.jpg" 5]);
    ("test.csv", []) ].

(** The validation source is missing. *)
Definition files_no_valid : list (string * DataFrame) :=
  [ ("train.csv", [row "a.jpg" 1; row "b.jpg" 2]);
    ("test.csv", [row "g.jpg" 7]) ].

Definition demo_tfms : list (string * Compose) :=
  [ ("train", {| transforms := ["HorizontalFlip"; "ToTensor"] |});
    ("valid", {| transforms := ["ToTensor"] |});
    ("test", {| transforms := ["ToTensor"] |}) ].

(** Externals over a file system: every class path resolves, reading a
    path that is not there raises the reader's own error. *)
Definition files_ext {scalar : Type} (zero : scalar)
    (files : list (string * DataFrame)) : Externals scalar Detection :=
  {| load_obj := fun path => inr path;
     optimizer_init := fun _ ps _ =>
       match ps with
       | [] => Some (ValueError "optimizer got an empty parameter list")
       | _ :: _ => None
       end;
     scheduler_init := fun _ _ _ => None;
     get_tfms := fun _ => inr demo_tfms;
     read_csv := fun path =>
       match dict_get String.eqb files path with
       | Some df => inr df
       | None => inl (OSError path)
       end;
     getsize := fun path =>
       match dict_get String.eqb files path with
       | Some df => inr (64 * Z.of_nat (List.length df))
       | None => inl (OSError path)
       end;
     stats0 := fun _ => zero;
     reaccumulate := None |}.

Definition demo_ext : Externals Q Detection := files_ext 0%Q demo_files.

Definition demo_init : DetectionModel Q Image Detection :=
  DetectionModel_init stub_model demo_hparams.

(** The module after the data have been staged. *)
Definition demo_prepared : DetectionModel Q Image Detection :=
  final_state (prepare_data demo_ext demo_init).

(** The module at the first test step: the trainer has fetched the
    test loader. *)
Definition demo_testing : DetectionModel Q Image Detection :=
  final_state (test_dataloader demo_prepared).

Definition demo_trainer : Trainer := {| global_step := 0 |}.

Definition img7 : Image := [7].
Definition img8 : Image := [8].
Definition img9 : Image := [9].

(** Two test batches over distinct images, a batch that repeats an image
    of the first one, and a batch that holds the same identifier twice. *)
Definition batch_78 : Batch Image :=
  ([img7; img8], [target_of 7; target_of 8], [0; 1]).
Definition batch_9 : Batch Image := ([img9], [target_of 9], [2]).
Definition batch_8_again : Batch Image :=
  ([img8; img9], [target_of 8; target_of 9], [1; 2]).
Definition batch_77 : Batch Image :=
  ([img7; img8], [target_of 7; target_of 7], [0; 0]).

(** The module after the first test step on [batch_78]. *)
Definition demo_after_step : DetectionModel Q Image Detection :=
  final_state (test_step (scalar := Q) batch_78 0 demo_testing).

(** The items sampled for the first test batch. *)
Definition samples_78 : list (Image * Target * Z) :=
  [ (img7, target_of 7, 0); (img8, target_of 8, 1) ].

Definition demo_ext_empty_test : Externals Q Detection :=
  files_ext 0%Q files_empty_test.

Definition demo_ext_no_valid : Externals Q Detection :=
  files_ext 0%Q files_no_valid.

(** A configuration whose data-loading options ask for shuffling, and the
    module staged under it. *)
Definition shuffle_hparams : HParams :=
  with_dataloader [("shuffle", PyBool true)] demo_hparams.

Definition shuffle_prepared : DetectionModel Q Image Detection :=
  final_state (prepare_data demo_ext
                 (DetectionModel_init stub_model shuffle_hparams)).

(** Two random sources and a sampler interpretation for the examples. *)
Definition in_order (n : nat) : list nat := seq 0 n.
Definition reversed (n : nat) : list nat := rev (seq 0 n).
Definition no_custom (v : value) (n : nat) : list (list nat) := [].

(** The validation loader of the staged module. *)
Definition demo_val_loader : DataLoader :=
  {| dataset := {| ds_frame := [row "e.jpg" 5; row "f.jpg" 6];
                   ds_tfms := {| transforms := ["ToTensor"] |} |};
     batch_size := 2; shuffle := false;
     options := dataloader demo_hparams |}.

(* ================================================================== *)
(** ** [initialize_trainer] *)
(* ================================================================== *)

(** The trainer configuration ([trainer_conf]): the keyword arguments of
    the early-stopping, checkpoint and learning-rate callbacks, the class
    and arguments of the experiment logger, and the trainer flags.  The
    checkpoint arguments carry [filepath], which the source also reads on
    its own. *)
Record CheckpointParams : Type := {
  filepath : string;
  checkpoint_kwargs : kwargs
}.

Record LoggerConf : Type := {
  logger_class_name : string;
  logger_params : kwargs
}.

Record TrainerConf : Type := {
  early_stopping_params : kwargs;
  model_checkpoint_params : CheckpointParams;
  learning_rate_monitor_params : kwargs;
  logger_conf : LoggerConf;
  flags : kwargs
}.

(** The objects that the function constructs, each represented by the
    arguments of the call that constructs it. *)
Record EarlyStopping : Type := { early_stopping_kwargs : kwargs }.

Record ModelCheckpoint : Type := {
  checkpoint_filepath : string;
  model_checkpoint_kwargs : kwargs
}.

Inductive Callback : Type :=
| LearningRateLogger (kw : kwargs)
| LogCallback.

Record ExperimentLogger : Type := {
  experiment_logger_class : string;
  experiment_logger_kwargs : kwargs
}.

(** The call [pl.Trainer(logger=.., checkpoint_callback=..,
    early_stop_callback=.., callbacks=.., **flags, **kwargs)]: the
    arguments it is given.  The trainer that the function returns is the
    object this call constructs; what the library makes of the arguments
    inside the object is not described here. *)
Record TrainerCall : Type := {
  trainer_logger : list ExperimentLogger;
  checkpoint_callback : ModelCheckpoint;
  early_stop_callback : EarlyStopping;
  callbacks : list Callback;
  trainer_flags : kwargs
}.

(** The library calls of the function, over a file system [FS]: each
    constructor constructs or raises, [os_makedirs] is
    [os.makedirs(path, exist_ok=True)], and [logger_load_obj] resolves the
    class of the experiment logger. *)
Record TrainerLib (FS : Type) : Type := {
  EarlyStopping_init : kwargs -> option exn;
  os_makedirs : string -> FS -> exn + FS;
  ModelCheckpoint_init : string -> kwargs -> option exn;
  LearningRateLogger_init : kwargs -> option exn;
  logger_load_obj : string -> exn + string;
  logger_init : string -> kwargs -> option exn;
  Trainer_init : TrainerCall -> option exn
}.
Arguments EarlyStopping_init {FS} _ _.
Arguments os_makedirs {FS} _ _ _.
Arguments ModelCheckpoint_init {FS} _ _ _.
Arguments LearningRateLogger_init {FS} _ _.
Arguments logger_load_obj {FS} _ _.
Arguments logger_init {FS} _ _ _.
Arguments Trainer_init {FS} _ _.

(** A call that changes the file system or raises. *)
Definition on_fs {FS : Type} (f : FS -> exn + FS) : M FS unit :=
  fun fs => match f fs with
            | inl e => Raise e fs
            | inr fs' => Return tt fs'
            end.

(** The names that the call of the trainer binds itself. *)
Definition trainer_keywords : list string :=
  ["logger"; "checkpoint_callback"; "early_stop_callback"; "callbacks"].

(** [f(k1=.., .., **kw1, **kw2)]: a name bound twice is a [TypeError]. *)
Definition merge_kwargs (explicit : list string) (kw1 kw2 : kwargs)
  : exn + kwargs :=
  if existsb (fun k => existsb (String.eqb k) explicit || kw_mem kw2 k)
             (keys kw1)
     || existsb (fun k => existsb (String.eqb k) explicit) (keys kw2)
  then inl (TypeError "got multiple values for keyword argument")
  else inr (kw1 ++ kw2).

Definition initialize_trainer {FS : Type} (lib : TrainerLib FS)
    (trainer_conf : TrainerConf) (kw : kwargs) : M FS TrainerCall :=
  check (EarlyStopping_init lib (early_stopping_params trainer_conf)) ;;
  let early_stopping :=
    {| early_stopping_kwargs := early_stopping_params trainer_conf |} in
  on_fs (os_makedirs lib (filepath (model_checkpoint_params trainer_conf))) ;;
  check (ModelCheckpoint_init lib
           (filepath (model_checkpoint_params trainer_conf))
           (checkpoint_kwargs (model_checkpoint_params trainer_conf))) ;;
  let model_checkpoint :=
    {| checkpoint_filepath := filepath (model_checkpoint_params trainer_conf);
       model_checkpoint_kwargs :=
         checkpoint_kwargs (model_checkpoint_params trainer_conf) |} in
  check (LearningRateLogger_init lib
           (learning_rate_monitor_params trainer_conf)) ;;
  let lr_logger :=
    LearningRateLogger (learning_rate_monitor_params trainer_conf) in
  cls <- lift (logger_load_obj lib
                 (logger_class_name (logger_conf trainer_conf))) ;;
  check (logger_init lib cls (logger_params (logger_conf trainer_conf))) ;;
  let logger :=
    {| experiment_logger_class := cls;
       experiment_logger_kwargs := logger_params (logger_conf trainer_conf) |} in
  let log_cb := LogCallback in
  let callbacks := [lr_logger; log_cb] in
  let logger := [logger] in
  all_flags <- lift (merge_kwargs trainer_keywords (flags trainer_conf) kw) ;;
  let trainer :=
    {| trainer_logger := logger;
       checkpoint_callback := model_checkpoint;
       early_stop_callback := early_stopping;
       callbacks := callbacks;
       trainer_flags := all_flags |} in
  check (Trainer_init lib trainer) ;;
  ret trainer.

(* ================================================================== *)
(** ** More concrete instances *)
(* ================================================================== *)

(** Externals with another class loader, pipeline builder or file size. *)
Definition with_load_obj {scalar detection : Type}
    (f : string -> exn + string) (ext : Externals scalar detection)
  : Externals scalar detection :=
  {| load_obj := f; optimizer_init := optimizer_init ext;
     scheduler_init := scheduler_init ext;
     get_tfms := get_tfms ext; read_csv := read_csv ext;
     getsize := getsize ext; stats0 := stats0 ext;
     reaccumulate := reaccumulate ext |}.

Definition with_get_tfms {scalar detection : Type}
    (g : HParams -> exn + list (string * Compose))
    (ext : Externals scalar detection) : Externals scalar detection :=
  {| load_obj := load_obj ext; optimizer_init := optimizer_init ext;
     scheduler_init := scheduler_init ext;
     get_tfms := g; read_csv := read_csv ext;
     getsize := getsize ext; stats0 := stats0 ext;
     reaccumulate := reaccumulate ext |}.

Definition with_getsize {scalar detection : Type}
    (g : string -> exn + Z) (ext : Externals scalar detection)
  : Externals scalar detection :=
  {| load_obj := load_obj ext; optimizer_init := optimizer_init ext;
     scheduler_init := scheduler_init ext;
     get_tfms := get_tfms ext;
     read_csv := read_csv ext; getsize := g; stats0 := stats0 ext;
     reaccumulate := reaccumulate ext |}.

(** A class loader that only knows the optimizer. *)
Definition only_sgd (path : string) : exn + string :=
  if String.eqb path "torch.optim.SGD" then inr path
  else inl (ImportError path).

Definition demo_ext_only_sgd : Externals Q Detection :=
  with_load_obj only_sgd demo_ext.

(** Pipelines for the train stage only. *)
Definition demo_ext_train_tfms : Externals Q Detection :=
  with_get_tfms
    (fun _ => inr [("train", {| transforms := ["ToTensor"] |})]) demo_ext.

(** A file size that cannot be taken. *)
Definition demo_ext_no_size : Externals Q Detection :=
  with_getsize (fun path => inl (OSError path)) demo_ext.

(** The same configuration with another IoU type. *)
Definition with_iou_types (iou : string) (hp : HParams) : HParams :=
  {| hp_optimizer := hp_optimizer hp; hp_scheduler := hp_scheduler hp;
     train_csv := train_csv hp; valid_csv := valid_csv hp;
     test_csv := test_csv hp;
     train_batch_size := train_batch_size hp;
     valid_batch_size := valid_batch_size hp;
     test_batch_size := test_batch_size hp;
     dataloader := dataloader hp; iou_types := iou |}.

Definition segm_prepared : DetectionModel Q Image Detection :=
  final_state (prepare_data demo_ext
                 (DetectionModel_init stub_model
                    (with_iou_types "segm" demo_hparams))).

(** A model that returns an output for the first image only. *)
Definition first_only_model : nnModule Q Image Detection :=
  {| parameters := [w_head];
     call := fun _ _ => [("cls", 3 # 10); ("reg", 2 # 10)]%Q;
     predict := fun images => map detect (firstn 1 images) |}.


(** An example library over a file system given by its directory names:
    every constructor constructs except an early stopping with a
    negative patience and a trainer asked for GPUs, the class of the
    logger always resolves, and a directory is made unless its name is
    empty (the paths of the examples have a single component, so that no
    parent directory is missing). *)
Definition demo_lib : TrainerLib (list string) :=
  {| EarlyStopping_init := fun kw =>
       match kw_get kw "patience" with
       | Some (PyInt z) =>
           if z <? 0 then Some (ValueError "patience") else None
       | _ => None
       end;
     os_makedirs := fun path dirs =>
       if String.eqb path "" then inl (OSError path)
       else if existsb (String.eqb path) dirs then inr dirs
       else inr (dirs ++ [path]);
     ModelCheckpoint_init := fun _ _ => None;
     LearningRateLogger_init := fun _ => None;
     logger_load_obj := fun path => inr path;
     logger_init := fun _ _ => None;
     Trainer_init := fun call =>
       match kw_get (trainer_flags call) "gpus" with
       | Some (PyInt z) =>
           if 0 <? z then Some (ValueError "no GPU available") else None
       | _ => None
       end |}.

(** A trainer configuration for the CPU, and one whose early stopping
    cannot be constructed. *)
Definition cpu_trainer_conf : TrainerConf :=
  {| early_stopping_params := [("monitor", PyStr "val_loss");
                               ("patience", PyInt 5)];
     model_checkpoint_params :=
       {| filepath := "checkpoints";
          checkpoint_kwargs := [("monitor", PyStr "val_loss")] |};
     learning_rate_monitor_params := [("logging_interval", PyStr "step")];
     logger_conf :=
       {| logger_class_name := "pytorch_lightning.loggers.TensorBoardLogger";
          logger_params := [("save_dir", PyStr "logs")] |};
     flags := [("max_epochs", PyInt 30)] |}.


(** A network whose parameters are all frozen. *)
Definition frozen_model : nnModule Q Image Detection :=
  {| parameters := [w_backbone];
     call := fun _ _ => [("cls", 3 # 10); ("reg", 2 # 10)]%Q;
     predict := map detect |}.

(** An evaluator that refuses to accumulate twice. *)
Definition strict_ext : Externals Q Detection :=
  {| load_obj := load_obj demo_ext; optimizer_init := optimizer_init demo_ext;
     scheduler_init := scheduler_init demo_ext;
     get_tfms := get_tfms demo_ext; read_csv := read_csv demo_ext;
     getsize := getsize demo_ext; stats0 := stats0 demo_ext;
     reaccumulate := Some (ValueError "already accumulated") |}.

(** The stub model listing its loss components in the other order. *)
Definition stub_model_swapped : nnModule Q Image Detection :=
  with_call (fun _ _ => [("reg", 2 # 10); ("cls", 3 # 10)]%Q) stub_model.

(** Trainer arguments that repeat a configured flag. *)
Definition clashing_kwargs : kwargs := [("max_epochs", PyInt 1)].

(* ================================================================== *)
(** ** Properties *)
(* ================================================================== *)

(** Unfolds the monadic plumbing of a method body. *)
Ltac run_eff :=
  unfold bind, ret, gets, get, modify, raise, getattr, lift, info,
    deref, store, alloc, check in *;
  cbn beta iota in *.

(** *** Train step *)

Section TrainStep.
Context {scalar image detection : Type} `{Scalar scalar}.
Implicit Types (s : DetectionModel scalar image detection).

(** The train step reads the model and leaves the module as it was. *)
Lemma training_step_eq s (images : list image) targets ids batch_idx :
  training_step (images, targets, ids) batch_idx s =
  Return {| loss := py_sum (values (call (model s) images (map unpack targets)));
            log := call (model s) images (map unpack targets);
            progress_bar := call (model s) images (map unpack targets) |} s.
Proof. reflexivity. Qed.

Lemma validation_step_eq s (images : list image) targets ids batch_idx :
  validation_step (images, targets, ids) batch_idx s =
  Return {| logged :=
              [ {| metric_name := "val_loss";
                   metric_value :=
                     py_sum (values (call (model s) images (map unpack targets)));
                   on_step := false; on_epoch := true;
                   prog_bar := true; logger := true |} ] |} s.
Proof. reflexivity. Qed.

End TrainStep.

(** C1. For every train step the scalar loss that the step returns is the
    sum of all the named components of the loss dictionary produced by
    the model on that batch (which the step returns next to it); for the
    model stub with the fixed components [cls = 0.3] and [reg = 0.2],
    every train step reports the total loss [0.5], over the rationals and
    over binary64 floating-point numbers alike. *)
Theorem training_step_loss_is_sum :
  (forall (scalar image detection : Type) (S : Scalar scalar)
          (s : DetectionModel scalar image detection)
          (batch : Batch image) (batch_idx : Z),
      exists out,
        training_step batch batch_idx s = Return out s /\
        log out = call (model s) (fst (fst batch))
                       (map unpack (snd (fst batch))) /\
        loss out = py_sum (values (log out)))
  /\ (forall (s : DetectionModel Q Image Detection)
             (batch : Batch Image) (batch_idx : Z),
         exists out,
           training_step batch batch_idx (set_model stub_model s)
             = Return out (set_model stub_model s) /\
           (loss out == 1 # 2)%Q)
  /\ (forall (s : DetectionModel float Image Detection)
             (batch : Batch Image) (batch_idx : Z),
         exists out,
           training_step batch batch_idx (set_model stub_model_float s)
             = Return out (set_model stub_model_float s) /\
           loss out = 0.5%float).
Proof.
  split; [| split].
  - intros scalar image detection S s [[images targets] ids] batch_idx.
    eexists. rewrite training_step_eq. split; [reflexivity |].
    split; reflexivity.
  - intros s [[images targets] ids] batch_idx.
    eexists. rewrite training_step_eq. split; [reflexivity |].
    vm_compute. reflexivity.
  - intros s [[images targets] ids] batch_idx.
    eexists. rewrite training_step_eq. split; [reflexivity |].
    vm_compute. reflexivity.
Qed.

(** *** Validation step *)

(** C5 (as the code has it). For every batch the validation step returns
    and leaves the whole module as it was: the model with its parameters
    and their gradients, the optimizer and the scheduler, the evaluator
    store.  What it returns is an evaluation result with the single entry
    [val_loss], the sum of the components of the model's loss dictionary,
    logged per epoch and not per step; the components themselves are not
    returned. *)
Theorem validation_step_pure_read :
  forall (scalar image detection : Type) (S : Scalar scalar)
         (s : DetectionModel scalar image detection)
         (batch : Batch image) (batch_idx : Z),
    exists result,
      validation_step batch batch_idx s = Return result s /\
      parameters (model (final_state (validation_step batch batch_idx s)))
        = parameters (model s) /\
      optimizer (final_state (validation_step batch batch_idx s))
        = optimizer s /\
      entries result =
        [("val_loss",
          py_sum (values (call (model s) (fst (fst batch))
                               (map unpack (snd (fst batch))))))] /\
      map on_step (logged result) = [false] /\
      map on_epoch (logged result) = [true].
Proof.
  intros scalar image detection S s [[images targets] ids] batch_idx.
  eexists. rewrite validation_step_eq.
  repeat split; reflexivity.
Qed.

(** C5, the claim as stated fails: with the stub model the validation
    step returns the single entry [val_loss], not the loss breakdown
    [{cls, reg}] that the model produced. *)
Lemma validation_step_drops_breakdown :
  exists result,
    validation_step batch_78 0 demo_init = Return result demo_init /\
    keys (entries result) = ["val_loss"] /\
    keys (call (model demo_init) (fst (fst batch_78))
               (map unpack (snd (fst batch_78)))) = ["cls"; "reg"] /\
    entries result <>
      call (model demo_init) (fst (fst batch_78))
           (map unpack (snd (fst batch_78))).
Proof.
  unfold batch_78. rewrite validation_step_eq.
  eexists. split; [reflexivity |].
  split; [reflexivity |]. split; [reflexivity |].
  intro E. apply (f_equal (@List.length _)) in E. discriminate E.
Qed.

(** *** Optimizer *)

Section Optimizers.
Context {scalar image detection : Type}.
Variable ext : Externals scalar detection.
Implicit Types (s : DetectionModel scalar image detection).

(** When both classes resolve, [configure_optimizers] returns; the
    optimizer holds the parameters that pass the [requires_grad] test. *)
Lemma configure_optimizers_inv s opts scheds s' :
  configure_optimizers ext s = Return (opts, scheds) s' ->
  exists ocls scls,
    load_obj ext (class_name (hp_optimizer (hparams s))) = inr ocls /\
    load_obj ext (sched_class_name (hp_scheduler (hparams s))) = inr scls /\
    opts = [ {| optimizer_class := ocls;
                param_groups := filter requires_grad (parameters (model s));
                optimizer_kwargs := params (hp_optimizer (hparams s)) |} ] /\
    optimizer s' = nth_error opts 0 /\
    scheduler s' = nth_error scheds 0 /\
    map (fun d => scheduler_optimizer (sd_scheduler d)) scheds = opts /\
    model s' = model s.
Proof.
  unfold configure_optimizers. run_eff.
  destruct (load_obj ext (class_name (hp_optimizer (hparams s))))
    as [e | ocls] eqn:Eo; cbn; [discriminate |].
  destruct (optimizer_init ext ocls _ _) as [e |]; cbn; [discriminate |].
  destruct (load_obj ext (sched_class_name (hp_scheduler (hparams s))))
    as [e | scls] eqn:Es; cbn; [discriminate |].
  destruct (scheduler_init ext scls _ _) as [e |]; cbn; [discriminate |].
  intros E. injection E as <- <- <-.
  exists ocls, scls. repeat split; reflexivity.
Qed.

End Optimizers.

(** C4. For every model, the optimizer that [configure_optimizers]
    constructs is bound to exactly the parameters of the model whose
    [requires_grad] flag is true: a parameter is in the optimizer's
    parameter list if and only if it is a parameter of the model and is
    trainable, so every frozen parameter is left out and every trainable
    one is included (in the order of the model).  The scheduler wraps
    that optimizer. *)
Theorem configure_optimizers_binds_trainable :
  forall (scalar image detection : Type) (ext : Externals scalar detection)
         (s s' : DetectionModel scalar image detection) opts scheds,
    configure_optimizers ext s = Return (opts, scheds) s' ->
    exists opt,
      opts = [opt] /\
      optimizer s' = Some opt /\
      param_groups opt = filter requires_grad (parameters (model s)) /\
      (forall p, In p (param_groups opt) <->
                 In p (parameters (model s)) /\ requires_grad p = true) /\
      (forall p, In p (parameters (model s)) -> requires_grad p = false ->
                 ~ In p (param_groups opt)) /\
      map (fun d => scheduler_optimizer (sd_scheduler d)) scheds = [opt].
Proof.
  intros scalar image detection ext s s' opts scheds E.
  destruct (configure_optimizers_inv ext s opts scheds s' E)
    as (ocls & scls & _ & _ & Hopts & Hopt & _ & Hsch & _).
  eexists. split; [exact Hopts |].
  split; [rewrite Hopt, Hopts; reflexivity |].
  split; [reflexivity |].
  split; [intro p; cbn; apply filter_In |].
  split.
  - intros p _ Hf Hin. cbn in Hin. apply filter_In in Hin.
    destruct Hin as [_ Ht]. congruence.
  - rewrite Hsch. exact Hopts.
Qed.

(** C4 at the stub model: the frozen backbone weight is left out, the
    trainable head weight is bound. *)
Lemma configure_optimizers_binds_trainable_witness :
  exists opt,
    fst (match returned (configure_optimizers demo_ext demo_init) with
         | Some r => r
         | None => ([], [])
         end) = [opt] /\
    param_groups opt = [w_head].
Proof.
  destruct (configure_optimizers_binds_trainable Q Image Detection demo_ext
              demo_init
              (final_state (configure_optimizers demo_ext demo_init))
              _ _ eq_refl)
    as (opt & Ho & _ & Hp & _).
  exists opt. split; [exact Ho | exact Hp].
Defined.

(** *** Dictionaries keyed by image identifier *)

Lemma dict_get_set {V : Type} (d : list (Z * V)) k v k' :
  dict_get Z.eqb (dict_set Z.eqb d k v) k' =
  if k' =? k then Some v else dict_get Z.eqb d k'.
Proof.
  induction d as [| [k0 v0] d IH]; cbn.
  - reflexivity.
  - destruct (Z.eqb_spec k k0) as [-> | Hk]; cbn.
    + destruct (k' =? k0); reflexivity.
    + destruct (Z.eqb_spec k' k0) as [-> | Hk'].
      * destruct (Z.eqb_spec k0 k); [congruence | reflexivity].
      * exact IH.
Qed.

Lemma dict_set_fresh {V : Type} (d : list (Z * V)) k v :
  ~ In k (keys d) -> dict_set Z.eqb d k v = d ++ [(k, v)].
Proof.
  induction d as [| [k0 v0] d IH]; cbn; intros Hn.
  - reflexivity.
  - destruct (Z.eqb_spec k k0) as [-> | Hk].
    + exfalso. apply Hn. left. reflexivity.
    + f_equal. apply IH. intro Hin. apply Hn. right. exact Hin.
Qed.

Lemma dict_set_keys_present {V : Type} (d : list (Z * V)) k v :
  In k (keys d) -> keys (dict_set Z.eqb d k v) = keys d.
Proof.
  induction d as [| [k0 v0] d IH]; cbn; intros Hin.
  - contradiction.
  - destruct (Z.eqb_spec k k0) as [-> | Hk]; cbn.
    + reflexivity.
    + f_equal. apply IH. destruct Hin as [E | Hin]; [congruence | exact Hin].
Qed.

Lemma dict_set_keys_NoDup {V : Type} (d : list (Z * V)) k v :
  NoDup (keys d) -> NoDup (keys (dict_set Z.eqb d k v)).
Proof.
  intros Hd. destruct (in_dec Z.eq_dec k (keys d)) as [Hin | Hn].
  - rewrite dict_set_keys_present by exact Hin. exact Hd.
  - rewrite dict_set_fresh by exact Hn. unfold keys in *.
    rewrite map_app. cbn.
    apply NoDup_app; [exact Hd | constructor; [intros [] | constructor] |].
    intros x Hx [<- | []]. exact (Hn Hx).
Qed.

Lemma dict_set_keys_In {V : Type} (d : list (Z * V)) k v x :
  In x (keys (dict_set Z.eqb d k v)) <-> x = k \/ In x (keys d).
Proof.
  destruct (in_dec Z.eq_dec k (keys d)) as [Hin | Hn].
  - rewrite dict_set_keys_present by exact Hin.
    split; [auto | intros [-> | H]; assumption].
  - rewrite dict_set_fresh by exact Hn. unfold keys. rewrite map_app, in_app_iff.
    cbn. split; [intros [H | [<- | []]]; auto | intros [-> | H]; auto].
Qed.

Section DictOf.
Context {V : Type}.
Implicit Types (pairs acc : list (Z * V)).

Let ins := fun (d : list (Z * V)) (kv : Z * V) =>
             dict_set Z.eqb d (fst kv) (snd kv).

Lemma fold_dict_set_NoDup pairs acc :
  NoDup (keys acc) -> NoDup (keys (fold_left ins pairs acc)).
Proof.
  revert acc. induction pairs as [| [k v] pairs IH]; cbn [fold_left];
    intros acc Hacc.
  - exact Hacc.
  - apply IH. apply dict_set_keys_NoDup. exact Hacc.
Qed.

Lemma fold_dict_set_keys pairs acc x :
  In x (keys (fold_left ins pairs acc)) <->
  In x (keys acc) \/ In x (map fst pairs).
Proof.
  revert acc. induction pairs as [| [k v] pairs IH]; cbn [fold_left map fst];
    intros acc.
  - cbn. tauto.
  - rewrite IH. unfold ins. cbn [fst snd]. rewrite dict_set_keys_In.
    cbn [In]. split; [intros [[-> | H] | H] | intros [H | [<- | H]]]; auto.
Qed.

Lemma dict_get_app (l1 l2 : list (Z * V)) k :
  dict_get Z.eqb (l1 ++ l2) k =
  match dict_get Z.eqb l1 k with
  | Some v => Some v
  | None => dict_get Z.eqb l2 k
  end.
Proof.
  induction l1 as [| [a b] l1 IH1]; cbn; [reflexivity |].
  destruct (k =? a); [reflexivity | apply IH1].
Qed.

Lemma fold_dict_set_get pairs acc k :
  dict_get Z.eqb (fold_left ins pairs acc) k =
  match dict_get Z.eqb (rev pairs) k with
  | Some v => Some v
  | None => dict_get Z.eqb acc k
  end.
Proof.
  revert acc. induction pairs as [| [k0 v0] pairs IH]; cbn [fold_left rev];
    intros acc.
  - reflexivity.
  - rewrite IH. unfold ins. cbn [fst snd]. rewrite dict_get_set.
    rewrite dict_get_app.
    destruct (dict_get Z.eqb (rev pairs) k); [reflexivity |].
    cbn. destruct (k =? k0); reflexivity.
Qed.

Lemma fold_dict_set_distinct pairs acc :
  NoDup (keys acc ++ map fst pairs) -> fold_left ins pairs acc = acc ++ pairs.
Proof.
  revert acc. induction pairs as [| [k v] pairs IH]; cbn [fold_left map fst];
    intros acc Hnd.
  - rewrite app_nil_r. reflexivity.
  - assert (Hk : ~ In k (keys acc)).
    { intro Hin. apply NoDup_remove_2 in Hnd. apply Hnd.
      apply in_or_app. left. exact Hin. }
    rewrite IH.
    + unfold ins. cbn [fst snd]. rewrite dict_set_fresh by exact Hk.
      rewrite <- app_assoc. reflexivity.
    + unfold ins. cbn [fst snd]. rewrite dict_set_fresh by exact Hk.
      unfold keys in *. rewrite map_app, <- app_assoc. exact Hnd.
Qed.

(** A dictionary comprehension has pairwise distinct keys, the keys of
    the pairs it was built from, and for each key the value of the last
    pair that carries it. *)
Lemma dict_of_NoDup pairs : NoDup (keys (dict_of Z.eqb pairs)).
Proof. apply fold_dict_set_NoDup. constructor. Qed.

Lemma dict_of_keys pairs x :
  In x (keys (dict_of Z.eqb pairs)) <-> In x (map fst pairs).
Proof.
  unfold dict_of. pose proof (fold_dict_set_keys pairs [] x) as H.
  unfold ins in H. cbn [keys map In] in H. tauto.
Qed.

Lemma dict_of_get pairs k :
  dict_get Z.eqb (dict_of Z.eqb pairs) k = dict_get Z.eqb (rev pairs) k.
Proof.
  unfold dict_of. pose proof (fold_dict_set_get pairs [] k) as H.
  unfold ins in H. rewrite H. cbn [dict_get].
  destruct (dict_get Z.eqb (rev pairs) k); reflexivity.
Qed.

Lemma dict_of_distinct pairs :
  NoDup (map fst pairs) -> dict_of Z.eqb pairs = pairs.
Proof. intros H. apply (fold_dict_set_distinct pairs []). exact H. Qed.

End DictOf.

(** *** The evaluator store *)


Lemma nth_error_update_nth_eq {A : Type} (l : list A) i x y :
  nth_error l i = Some y -> nth_error (update_nth i x l) i = Some x.
Proof.
  revert i. induction l as [| z l IH]; intros [| i]; cbn; try discriminate.
  - reflexivity.
  - apply IH.
Qed.


Section EvaluatorFacts.
Context {detection : Type}.
Implicit Types (ev : CocoEvaluator detection) (res : list (Z * detection)).

Lemma submitted_ids_record_update res ev :
  submitted_ids (record_call (CallUpdate res) ev) = submitted_ids ev ++ keys res.
Proof.
  unfold submitted_ids, record_call. cbn. rewrite flat_map_app. cbn.
  rewrite app_nil_r. reflexivity.
Qed.

(** [update] raises exactly when one of the identifiers was submitted
    before, and then with the first such identifier. *)
Lemma update_raises res ev k :
  In k (keys res) -> In k (submitted_ids ev) ->
  exists k', In k' (keys res) /\ In k' (submitted_ids ev) /\
             CocoEvaluator_update res ev = inl (DuplicateImageError k').
Proof.
  intros Hk Hs. unfold CocoEvaluator_update.
  destruct (find (fun k0 => existsb (Z.eqb k0) (submitted_ids ev)) (keys res))
    as [k' |] eqn:F.
  - apply find_some in F. destruct F as [Hin Hex].
    apply existsb_exists in Hex. destruct Hex as (y & Hy & Hey).
    apply Z.eqb_eq in Hey. subst y. exists k'. auto.
  - exfalso. apply (find_none _ _ F) in Hk.
    assert (existsb (Z.eqb k) (submitted_ids ev) = true) as Ht.
    { apply existsb_exists. exists k. split; [exact Hs | apply Z.eqb_refl]. }
    congruence.
Qed.

Lemma update_accepts res ev :
  (forall k, In k (keys res) -> ~ In k (submitted_ids ev)) ->
  CocoEvaluator_update res ev = inr (record_call (CallUpdate res) ev).
Proof.
  intros Hfresh. unfold CocoEvaluator_update.
  destruct (find (fun k0 => existsb (Z.eqb k0) (submitted_ids ev)) (keys res))
    as [k' |] eqn:F; [| reflexivity].
  exfalso. apply find_some in F. destruct F as [Hin Hex].
  apply existsb_exists in Hex. destruct Hex as (y & Hy & Hey).
  apply Z.eqb_eq in Hey. subst y. exact (Hfresh k' Hin Hy).
Qed.

Lemma update_inv res ev r :
  CocoEvaluator_update res ev = r ->
  match r with
  | inl e => exists k, e = DuplicateImageError k /\ In k (keys res) /\
                       In k (submitted_ids ev)
  | inr ev' => ev' = record_call (CallUpdate res) ev /\
               forall k, In k (keys res) -> ~ In k (submitted_ids ev)
  end.
Proof.
  intros <-. unfold CocoEvaluator_update.
  destruct (find (fun k0 => existsb (Z.eqb k0) (submitted_ids ev)) (keys res))
    as [k' |] eqn:F.
  - apply find_some in F. destruct F as [Hin Hex].
    apply existsb_exists in Hex. destruct Hex as (y & Hy & Hey).
    apply Z.eqb_eq in Hey. subst y. exists k'. auto.
  - split; [reflexivity |]. intros k Hk Hs.
    apply (find_none _ _ F) in Hk.
    assert (existsb (Z.eqb k) (submitted_ids ev) = true) as Ht.
    { apply existsb_exists. exists k. split; [exact Hs | apply Z.eqb_refl]. }
    congruence.
Qed.

Lemma accumulated_record_call c ev :
  accumulated (record_call c ev) = (accumulated ev || is_accumulate c)%bool.
Proof.
  unfold accumulated, record_call. cbn. rewrite existsb_app. cbn.
  rewrite orb_false_r. reflexivity.
Qed.

Lemma summarized_record_call c ev :
  summarized (record_call c ev) = (summarized ev || is_summarize c)%bool.
Proof.
  unfold summarized, record_call. cbn. rewrite existsb_app. cbn.
  rewrite orb_false_r. reflexivity.
Qed.

(** The first [accumulate] is recorded. *)
Lemma accumulate_first again ev :
  accumulated ev = false ->
  CocoEvaluator_accumulate again ev = inr (record_call CallAccumulate ev).
Proof. unfold CocoEvaluator_accumulate. intros ->. reflexivity. Qed.

(** A later [accumulate] is the evaluator's own affair: its error, or
    nothing. *)
Lemma accumulate_again again ev :
  accumulated ev = true ->
  CocoEvaluator_accumulate again ev
  = match again with Some e => inl e | None => inr ev end.
Proof. unfold CocoEvaluator_accumulate. intros ->. reflexivity. Qed.

Lemma accumulate_inv again ev ev1 :
  CocoEvaluator_accumulate again ev = inr ev1 ->
  ev_iou_types ev1 = ev_iou_types ev /\ accumulated ev1 = true /\
  summarized ev1 = summarized ev.
Proof.
  unfold CocoEvaluator_accumulate.
  destruct (accumulated ev) eqn:Ha.
  - destruct again; [discriminate |]. intros E. injection E as <-. auto.
  - intros E. injection E as <-.
    rewrite accumulated_record_call, summarized_record_call. cbn.
    rewrite orb_true_r, orb_false_r. auto.
Qed.

Lemma summarize_first ev :
  summarized ev = false ->
  CocoEvaluator_summarize ev = record_call CallSummarize ev.
Proof. unfold CocoEvaluator_summarize. intros ->. reflexivity. Qed.

Lemma summarize_again ev :
  summarized ev = true -> CocoEvaluator_summarize ev = ev.
Proof. unfold CocoEvaluator_summarize. intros ->. reflexivity. Qed.

Lemma summarize_facts ev :
  ev_iou_types (CocoEvaluator_summarize ev) = ev_iou_types ev /\
  summarized (CocoEvaluator_summarize ev) = true /\
  accumulated (CocoEvaluator_summarize ev) = accumulated ev.
Proof.
  unfold CocoEvaluator_summarize.
  destruct (summarized ev) eqn:Hs; [auto |].
  rewrite accumulated_record_call, summarized_record_call. cbn.
  rewrite orb_true_r, orb_false_r. auto.
Qed.

End EvaluatorFacts.

Lemma update_nth_twice {A : Type} (l : list A) i x y :
  update_nth i y (update_nth i x l) = update_nth i y l.
Proof.
  revert l. induction i as [| i IHi]; intros [| z l]; cbn; auto.
  f_equal. apply IHi.
Qed.

Lemma update_nth_same {A : Type} (l : list A) i x :
  nth_error l i = Some x -> update_nth i x l = l.
Proof.
  revert l. induction i as [| i IHi]; intros [| z l]; cbn;
    try discriminate.
  - intros E. injection E as ->. reflexivity.
  - intros E. f_equal. apply IHi. exact E.
Qed.

(** *** Test step *)

Section TestStep.
Context {scalar image detection : Type}.
Implicit Types (s : DetectionModel scalar image detection).

(** The test step, case by case. *)
Lemma test_step_eq s (images : list image) targets ids batch_idx :
  test_step (images, targets, ids) batch_idx s =
  match test_evaluator s with
  | None => Raise (AttributeError "test_evaluator") s
  | Some r =>
      match nth_error (heap s) r with
      | None => Raise (AttributeError "test_evaluator") s
      | Some ev =>
          match CocoEvaluator_update
                  (test_results (map unpack targets) (predict (model s) images))
                  ev with
          | inl e => Raise e s
          | inr ev' => Return [] (set_heap (update_nth r ev' (heap s)) s)
          end
      end
  end.
Proof.
  unfold test_step. run_eff.
  destruct (test_evaluator s) as [r |]; [| reflexivity].
  destruct (nth_error (heap s) r) as [ev |]; [| reflexivity].
  destruct (CocoEvaluator_update _ ev); reflexivity.
Qed.

Lemma unpack_id (t : Target) : unpack t = t.
Proof. destruct t; reflexivity. Qed.

Lemma map_unpack (ts : list Target) : map unpack ts = ts.
Proof.
  induction ts as [| t ts IH]; cbn; [reflexivity |].
  rewrite unpack_id, IH. reflexivity.
Qed.

Lemma zip_map_fst {A B : Type} (xs : list A) (ys : list B) :
  List.length ys = List.length xs -> map fst (zip xs ys) = xs.
Proof.
  revert ys. induction xs as [| x xs IH]; intros [| y ys]; cbn;
    try discriminate; try reflexivity.
  intros E. f_equal. apply IH. lia.
Qed.

Lemma zip_nth_error {A B : Type} (xs : list A) (ys : list B) i :
  nth_error (zip xs ys) i =
  match nth_error xs i, nth_error ys i with
  | Some x, Some y => Some (x, y)
  | _, _ => None
  end.
Proof.
  revert ys i. induction xs as [| x xs IH]; intros [| y ys] [| i]; cbn;
    try reflexivity.
  - destruct (nth_error xs i); reflexivity.
  - apply IH.
Qed.

(** With one output per target and pairwise distinct identifiers, the
    results are the identifiers paired with the outputs, position by
    position. *)
Lemma test_results_distinct (targets : list Target) (outputs : list detection) :
  List.length outputs = List.length targets ->
  NoDup (map image_id targets) ->
  test_results targets outputs = zip (map image_id targets) outputs.
Proof.
  intros Hlen Hnd. unfold test_results.
  assert (Hz : map (fun to : Target * detection => (image_id (fst to), snd to))
                   (zip targets outputs)
               = zip (map image_id targets) outputs).
  { clear Hnd. revert outputs Hlen.
    induction targets as [| t ts IH]; intros [| o os]; cbn;
      try discriminate; try reflexivity.
    intros E. f_equal. apply IH. lia. }
  rewrite Hz. apply dict_of_distinct.
  rewrite zip_map_fst; [exact Hnd |].
  rewrite length_map. exact Hlen.
Qed.

End TestStep.

Section TestStepOutcome.
Context {scalar image detection : Type}.
Implicit Types (s : DetectionModel scalar image detection).

(** A test step that returns has made one [update] call on the evaluator
    bound to [test_evaluator], with the results of the batch, and has
    touched nothing else. *)
Lemma test_step_return_inv s (batch : Batch image) batch_idx out s' :
  test_step batch batch_idx s = Return out s' ->
  out = [] /\
  exists r ev,
    test_evaluator s = Some r /\ nth_error (heap s) r = Some ev /\
    (forall k, In k (keys (test_results (map unpack (snd (fst batch)))
                             (predict (model s) (fst (fst batch))))) ->
               ~ In k (submitted_ids ev)) /\
    s' = set_heap
           (update_nth r
              (record_call
                 (CallUpdate (test_results (map unpack (snd (fst batch)))
                                (predict (model s) (fst (fst batch)))))
                 ev)
              (heap s)) s.
Proof.
  destruct batch as [[images targets] ids]. rewrite test_step_eq. cbn [fst snd].
  destruct (test_evaluator s) as [r |]; [| discriminate].
  destruct (nth_error (heap s) r) as [ev |] eqn:Hev; [| discriminate].
  destruct (CocoEvaluator_update _ ev) as [e | ev'] eqn:Hu; [discriminate |].
  intros E. injection E as <- <-. split; [reflexivity |].
  apply update_inv in Hu. destruct Hu as [-> Hfresh].
  exists r, ev. auto.
Qed.

(** The loss-mode call of the model plays no part in a test step. *)
Lemma test_step_ignores_call s (batch : Batch image) batch_idx f :
  test_step batch batch_idx (set_model (with_call f (model s)) s) =
  match test_step batch batch_idx s with
  | Return out s' => Return out (set_model (with_call f (model s')) s')
  | Raise e s' => Raise e (set_model (with_call f (model s')) s')
  end.
Proof.
  destruct batch as [[images targets] ids]. rewrite !test_step_eq. cbn.
  destruct (test_evaluator s) as [r |]; [| reflexivity].
  destruct (nth_error (heap s) r) as [ev |]; [| reflexivity].
  destruct (CocoEvaluator_update _ ev); reflexivity.
Qed.

End TestStepOutcome.

(** C6 (as the code has it). For every batch, a test step that returns,
    returns the empty mapping.  The outputs of the model's
    prediction-mode pass are not returned: they are keyed by the image
    identifier of the target at the same position and submitted, in one
    [update] call, to the evaluator bound to [test_evaluator]; with one
    output per image and pairwise distinct identifiers that is one entry
    per image in batch order.  No loss is computed: replacing the
    loss-mode call of the model changes neither what the step returns or
    raises nor the evaluator store. *)
Theorem test_step_submits_detections :
  forall (scalar image detection : Type)
         (s : DetectionModel scalar image detection)
         (batch : Batch image) (batch_idx : Z),
    (forall out s',
        test_step batch batch_idx s = Return out s' ->
        out = [] /\
        exists r ev,
          test_evaluator s = Some r /\ nth_error (heap s) r = Some ev /\
          test_evaluator s' = Some r /\
          nth_error (heap s') r =
            Some (record_call
                    (CallUpdate
                       (test_results (map unpack (snd (fst batch)))
                          (predict (model s) (fst (fst batch)))))
                    ev) /\
          model s' = model s)
    /\ (List.length (predict (model s) (fst (fst batch)))
          = List.length (snd (fst batch)) ->
        NoDup (map image_id (snd (fst batch))) ->
        test_results (map unpack (snd (fst batch)))
                     (predict (model s) (fst (fst batch)))
          = zip (map image_id (snd (fst batch)))
                (predict (model s) (fst (fst batch))))
    /\ (forall f,
          let o1 := test_step batch batch_idx (set_model (with_call f (model s)) s) in
          let o2 := test_step batch batch_idx s in
          returned o1 = returned o2 /\ raised o1 = raised o2 /\
          heap (final_state o1) = heap (final_state o2)).
Proof.
  intros scalar image detection s batch batch_idx. split; [| split].
  - intros out s' E. apply test_step_return_inv in E.
    destruct E as (-> & r & ev & Hr & Hev & _ & ->). split; [reflexivity |].
    exists r, ev. cbn. repeat split; try assumption.
    eapply nth_error_update_nth_eq. exact Hev.
  - intros Hlen Hnd. rewrite map_unpack.
    apply test_results_distinct; assumption.
  - intros f o1 o2. subst o1 o2. rewrite test_step_ignores_call.
    destruct (test_step batch batch_idx s); cbn; auto.
Qed.

Lemma test_step_submits_detections_witness :
  test_results (map unpack (snd (fst batch_78)))
               (predict (model demo_testing) (fst (fst batch_78)))
    = [(7, detect img7); (8, detect img8)]
  /\ (forall out s', test_step batch_78 0 demo_testing = Return out s' ->
                     out = []).
Proof.
  destruct (test_step_submits_detections Q Image Detection demo_testing
              batch_78 0) as (H1 & H2 & _).
  split.
  - rewrite H2.
    + reflexivity.
    + reflexivity.
    + cbn. repeat constructor; cbn; intuition discriminate.
  - intros out s' E. exact (proj1 (H1 out s' E)).
Defined.

(** C6, the claim as stated fails: on a batch of two images the test step
    returns the empty mapping, not one detection result per image. *)
Lemma test_step_returns_empty :
  List.length (fst (fst batch_78)) = 2%nat /\
  returned (test_step (scalar := Q) batch_78 0 demo_testing) = Some [] /\
  ~ (exists (out : list (string * Q)) s',
        test_step batch_78 0 demo_testing = Return out s' /\
        List.length out = List.length (fst (fst batch_78))).
Proof.
  split; [reflexivity |]. split; [reflexivity |].
  intros (out & s' & E & Hlen).
  apply test_step_return_inv in E. destruct E as [-> _]. discriminate Hlen.
Qed.

(** *** Duplicate image identifiers *)

(** C2 (as the code has it, with [update] as the specification describes
    it). In a test pass, a test step whose results carry an image
    identifier that an earlier [update] on the same evaluator already
    received raises [DuplicateImageError] for such an identifier and
    leaves the module and the evaluator as they were; when no identifier
    was submitted before, the step records one [update] with the results.
    Two occurrences of the same identifier within one batch never reach
    [update]: the results are a dictionary keyed by identifier, its keys
    are pairwise distinct, and each key holds the output paired with the
    last target that carries it. *)
Theorem test_step_duplicate_identifier :
  forall (scalar image detection : Type)
         (s : DetectionModel scalar image detection)
         (batch : Batch image) (batch_idx : Z) r ev,
    test_evaluator s = Some r ->
    nth_error (heap s) r = Some ev ->
    let pairs := map (fun to : Target * detection => (image_id (fst to), snd to))
                     (zip (map unpack (snd (fst batch)))
                          (predict (model s) (fst (fst batch)))) in
    let res := test_results (map unpack (snd (fst batch)))
                            (predict (model s) (fst (fst batch))) in
    ((exists k, In k (keys res) /\ In k (submitted_ids ev)) ->
     exists k, In k (keys res) /\ In k (submitted_ids ev) /\
               test_step batch batch_idx s = Raise (DuplicateImageError k) s)
    /\ ((forall k, In k (keys res) -> ~ In k (submitted_ids ev)) ->
        test_step batch batch_idx s =
        Return [] (set_heap
                     (update_nth r (record_call (CallUpdate res) ev) (heap s))
                     s))
    /\ NoDup (keys res)
    /\ (forall k, In k (keys res) <-> In k (map fst pairs))
    /\ (forall k, dict_get Z.eqb res k = dict_get Z.eqb (rev pairs) k).
Proof.
  intros scalar image detection s [[images targets] ids] batch_idx r ev Hr Hev
         pairs res.
  cbn [fst snd] in *.
  split; [| split; [| split; [| split]]].
  - intros (k & Hk & Hs).
    destruct (update_raises res ev k Hk Hs) as (k' & Hk' & Hs' & Hu).
    exists k'. split; [exact Hk' |]. split; [exact Hs' |].
    rewrite test_step_eq, Hr, Hev. fold res. rewrite Hu. reflexivity.
  - intros Hfresh. rewrite test_step_eq, Hr, Hev. fold res.
    rewrite (update_accepts res ev Hfresh). reflexivity.
  - apply dict_of_NoDup.
  - intro k. apply dict_of_keys.
  - intro k. apply dict_of_get.
Qed.

(** C2 on the second batch of a pass that repeats image 8 of the first. *)
Lemma test_step_duplicate_identifier_witness :
  exists k,
    test_step batch_8_again 1 demo_after_step
      = Raise (DuplicateImageError k) demo_after_step.
Proof.
  destruct (test_step_duplicate_identifier Q Image Detection demo_after_step
              batch_8_again 1 0%nat
              (match nth_error (heap demo_after_step) 0 with
               | Some ev => ev
               | None => CocoEvaluator_new {| ds_frame := []; ds_tfms := {| transforms := [] |} |} []
               end)
              eq_refl eq_refl) as (Hdup & _).
  destruct Hdup as (k & _ & _ & E).
  - exists 8. split; cbn; auto.
  - exists k. exact E.
Defined.

(** C2, the claim as stated fails: a batch whose two targets carry the
    identifier 7 is accepted by a new evaluator.  No error is raised, and
    the evaluator receives a single entry for 7, the output of the second
    image, which has silently replaced that of the first. *)
Lemma test_step_same_id_twice_accepted :
  map image_id (snd (fst batch_77)) = [7; 7] /\
  raised (test_step (scalar := Q) batch_77 0 demo_testing) = None /\
  map calls (heap (final_state (test_step (scalar := Q) batch_77 0 demo_testing)))
    = [[CallUpdate [(7, detect img8)]]].
Proof. repeat split; reflexivity. Qed.

(** *** Collation and the pairing by position *)

Lemma dict_get_zip_nth {V : Type} (ks : list Z) (vs : list V) i k v :
  NoDup ks -> nth_error ks i = Some k -> nth_error vs i = Some v ->
  dict_get Z.eqb (zip ks vs) k = Some v.
Proof.
  revert vs i. induction ks as [| k0 ks IH]; intros [| v0 vs] [| i] Hnd Hk Hv;
    cbn in *; try discriminate.
  - injection Hk as ->. injection Hv as ->. rewrite Z.eqb_refl. reflexivity.
  - inversion Hnd as [| ? ? Hnotin Hnd']; subst.
    destruct (Z.eqb_spec k k0) as [-> | Hne].
    + exfalso. apply Hnotin. eapply nth_error_In. exact Hk.
    + eapply IH; eassumption.
Qed.

Lemma collate_fn_lengths {image : Type} (samples : list (image * Target * Z)) :
  List.length (fst (fst (collate_fn samples))) = List.length samples /\
  List.length (snd (fst (collate_fn samples))) = List.length samples.
Proof. unfold collate_fn. cbn. rewrite !length_map. split; reflexivity. Qed.

(** C9. A collated batch has as many images as targets, one of each per
    sampled item, and at every position the image and the target of the
    item sampled at that position: nothing is dropped or reordered.  In
    the test step, when the model returns one output per image, the pair
    built at position [i] is the target of item [i] with the output at
    position [i], and, identifiers being pairwise distinct, the results
    submitted to the evaluator hold that output under the image
    identifier of that very item.  The step does submit them: with an
    evaluator bound that holds none of the identifiers of the batch, the
    test step on the collated batch returns, the one call it makes on
    the evaluator is [update] with the identifiers of the sampled items
    paired, in the order of the samples, with the outputs at the same
    positions, and under the identifier of item [i] these results hold
    the output at position [i]. *)
Theorem collate_fn_keeps_alignment :
  forall (scalar image detection : Type)
         (samples : list (image * Target * Z)),
    let images := fst (fst (collate_fn samples)) in
    let targets := snd (fst (collate_fn samples)) in
    List.length images = List.length targets /\
    List.length images = List.length samples /\
    (forall i, nth_error images i
               = option_map (fun x => fst (fst x)) (nth_error samples i)) /\
    (forall i, nth_error targets i
               = option_map (fun x => snd (fst x)) (nth_error samples i)) /\
    (forall (s : DetectionModel scalar image detection) batch_idx,
        List.length (predict (model s) images) = List.length images ->
        (forall i img t id,
            nth_error samples i = Some (img, t, id) ->
            exists o,
              nth_error (predict (model s) images) i = Some o /\
              nth_error (zip (map unpack targets) (predict (model s) images)) i
                = Some (t, o) /\
              (NoDup (map image_id targets) ->
               dict_get Z.eqb
                 (test_results (map unpack targets) (predict (model s) images))
                 (image_id t) = Some o)) /\
        (forall out s',
            test_step (collate_fn samples) batch_idx s = Return out s' ->
            exists r ev,
              test_evaluator s' = Some r /\
              nth_error (heap s') r = Some ev /\
              last (calls ev) CallAccumulate
                = CallUpdate (test_results (map unpack targets)
                                           (predict (model s) images))) /\
        (forall r ev,
            test_evaluator s = Some r ->
            nth_error (heap s) r = Some ev ->
            NoDup (map image_id targets) ->
            (forall k, In k (map image_id targets) ->
                       ~ In k (submitted_ids ev)) ->
            let res := zip (map image_id (map (fun x => snd (fst x)) samples))
                           (predict (model s)
                                    (map (fun x => fst (fst x)) samples)) in
            test_step (collate_fn samples) batch_idx s
              = Return [] (set_heap
                             (update_nth r (record_call (CallUpdate res) ev)
                                         (heap s)) s) /\
            (forall i img t id,
                nth_error samples i = Some (img, t, id) ->
                exists o,
                  nth_error (predict (model s)
                                     (map (fun x => fst (fst x)) samples)) i
                    = Some o /\
                  dict_get Z.eqb res (image_id t) = Some o))).
Proof.
  intros scalar image detection samples images targets.
  destruct (collate_fn_lengths samples) as [Hli Hlt].
  fold images in Hli. fold targets in Hlt.
  assert (Hni : forall i, nth_error images i
                  = option_map (fun x => fst (fst x)) (nth_error samples i)).
  { intro i. subst images. unfold collate_fn. cbn. apply nth_error_map. }
  assert (Hnt : forall i, nth_error targets i
                  = option_map (fun x => snd (fst x)) (nth_error samples i)).
  { intro i. subst targets. unfold collate_fn. cbn. apply nth_error_map. }
  split; [congruence |]. split; [exact Hli |].
  split; [exact Hni |]. split; [exact Hnt |].
  intros s batch_idx Hlen.
  assert (Hout : forall i img t id,
             nth_error samples i = Some (img, t, id) ->
             exists o, nth_error (predict (model s) images) i = Some o /\
                       nth_error targets i = Some t).
  { intros i img t id Hs.
    assert (Hi : (i < List.length (predict (model s) images))%nat).
    { rewrite Hlen, Hli. apply nth_error_Some. congruence. }
    destruct (nth_error (predict (model s) images) i) as [o |] eqn:Ho;
      [| apply nth_error_Some in Hi; congruence].
    exists o. split; [reflexivity |]. rewrite Hnt, Hs. reflexivity. }
  split; [| split].
  - intros i img t id Hs.
    destruct (Hout i img t id Hs) as (o & Ho & Ht).
    exists o. split; [exact Ho |]. split.
    + rewrite zip_nth_error, map_unpack, Ht, Ho. reflexivity.
    + intros Hnd. rewrite map_unpack.
      rewrite test_results_distinct by (try assumption; congruence).
      eapply dict_get_zip_nth; [exact Hnd | | exact Ho].
      rewrite nth_error_map, Ht. reflexivity.
  - intros out s' E. apply test_step_return_inv in E.
    destruct E as (_ & r & ev & Hr & Hev & _ & ->).
    exists r. eexists. cbn. split; [exact Hr |]. split.
    + eapply nth_error_update_nth_eq. exact Hev.
    + cbn. apply last_last.
  - intros r ev Hr Hev Hnd Hfresh res.
    assert (Hres : test_results (map unpack targets) (predict (model s) images)
                   = res).
    { rewrite map_unpack.
      apply test_results_distinct; [| exact Hnd].
      transitivity (List.length images); [exact Hlen |].
      rewrite Hli. symmetry. exact Hlt. }
    split.
    + change (collate_fn samples) with (images, targets, map snd samples).
      rewrite test_step_eq, Hr, Hev, Hres.
      rewrite update_accepts; [reflexivity |].
      intros k Hk. apply Hfresh.
      unfold keys, res in Hk. rewrite zip_map_fst in Hk; [exact Hk |].
      rewrite length_map.
      transitivity (List.length images); [exact Hlen |].
      rewrite Hli. symmetry. exact Hlt.
    + intros i img t id Hs.
      destruct (Hout i img t id Hs) as (o & Ho & Ht).
      exists o. split; [exact Ho |].
      eapply dict_get_zip_nth; [exact Hnd | | exact Ho].
      change (nth_error (map image_id targets) i = Some (image_id t)).
      rewrite nth_error_map, Ht. reflexivity.
Qed.

(** C9 at the first test batch: the test step returns, the evaluator has
    received the outputs for images 7 and 8 under the identifiers 7 and
    8, and the output for image 8 is the one found under identifier 8. *)
Lemma collate_fn_keeps_alignment_witness :
  exists o s',
    nth_error (predict (model demo_testing) [img7; img8]) 1 = Some o /\
    test_step (collate_fn samples_78) 0 demo_testing = Return [] s' /\
    option_map calls (nth_error (heap s') 0)
      = Some [CallUpdate [(7, detect img7); (8, detect img8)]] /\
    dict_get Z.eqb [(7, detect img7); (8, detect img8)] 8 = Some o.
Proof.
  destruct (collate_fn_keeps_alignment Q Image Detection samples_78)
    as (_ & _ & _ & _ & H).
  destruct (H demo_testing 0 eq_refl) as (_ & _ & Hstep).
  destruct (Hstep 0%nat
              (match nth_error (heap demo_testing) 0 with
               | Some ev => ev
               | None => CocoEvaluator_new
                           {| ds_frame := []; ds_tfms := {| transforms := [] |} |}
                           []
               end)
              eq_refl eq_refl) as (E & Hlook).
  - cbn. repeat constructor; cbn; intuition discriminate.
  - cbn. intros k _ [].
  - destruct (Hlook 1%nat img8 (target_of 8) 1 eq_refl) as (o & Ho & Hd).
    exists o. eexists. split; [exact Ho |]. split; [exact E |].
    split; [vm_compute; reflexivity | exact Hd].
Defined.

(** *** The evaluator over a test pass *)

Lemma bind_Return_inv {S A B : Type} (c : M S A) (k : A -> M S B) s b s' :
  bind c k s = Return b s' ->
  exists a s1, c s = Return a s1 /\ k a s1 = Return b s'.
Proof.
  unfold bind. destruct (c s) as [a s1 | e s1]; [| discriminate].
  intros E. exists a, s1. split; [reflexivity | exact E].
Qed.

Section TestPass.
Context {scalar image detection : Type}.
Variable ext : Externals scalar detection.
Implicit Types (s : DetectionModel scalar image detection).

(** Fetching the test loader binds [test_evaluator] to a new instance,
    appended to the store, on which no call has been made. *)
Lemma test_dataloader_inv s dl s' :
  test_dataloader s = Return dl s' ->
  s' = set_test_evaluator (List.length (heap s))
         (set_heap (heap s ++ [CocoEvaluator_new (dataset dl)
                                 [iou_types (hparams s)]]) s).
Proof.
  unfold test_dataloader. run_eff.
  destruct (test_df s) as [df |]; [| discriminate].
  destruct (tfms s) as [t |]; [| discriminate].
  destruct (getitem t "test") as [e | tf]; cbn; [discriminate |].
  destruct (DataLoader_new _ _ _ _) as [e | loader]; cbn; [discriminate |].
  intros E. injection E as <- <-. reflexivity.
Qed.

Lemma on_test_start_inv trainer s s' :
  on_test_start trainer s = Return tt s' ->
  exists dl s1,
    test_dataloader s = Return dl s1 /\
    s' = set_fancy_logger
           (fancy_logger s1 ++ [LogInferenceOn (dataset_len (dataset dl))]) s1.
Proof.
  unfold on_test_start. intros E.
  apply bind_Return_inv in E. destruct E as (dl & s1 & Hdl & E).
  exists dl, s1. split; [exact Hdl |].
  unfold info, modify in E. injection E as <-. reflexivity.
Qed.


(** The end of the test epoch on a bound evaluator, case by case. *)
Lemma test_epoch_end_eq outputs s r ev :
  test_evaluator s = Some r ->
  nth_error (heap s) r = Some ev ->
  let s0 := set_fancy_logger (fancy_logger s ++ [LogEvaluationResults]) s in
  test_epoch_end ext outputs s =
  match CocoEvaluator_accumulate (reaccumulate ext) ev with
  | inl e => Raise e s0
  | inr ev1 =>
      let ev' := CocoEvaluator_summarize ev1 in
      let s' := set_heap (update_nth r ev' (heap s)) s0 in
      if existsb (String.eqb "bbox") (ev_iou_types ev)
      then Return {| AP := stats0 ext ev';
                     ap_log := [("AP", stats0 ext ev')];
                     ap_progress_bar := [("AP", stats0 ext ev')] |} s'
      else Raise (KeyError "bbox") s'
  end.
Proof.
  intros Hr Hev s0. subst s0. unfold test_epoch_end. run_eff.
  unfold set_fancy_logger, set_heap. cbn.
  rewrite Hr. cbn. rewrite Hev. cbn.
  destruct (CocoEvaluator_accumulate (reaccumulate ext) ev) as [e | ev1] eqn:Ha;
    cbn; [reflexivity |].
  apply accumulate_inv in Ha. destruct Ha as (Hi & _ & _).
  repeat (first [ rewrite Hr
                | rewrite update_nth_twice
                | rewrite (nth_error_update_nth_eq _ _ _ _ Hev) ];
          cbn).
  destruct (summarize_facts ev1) as (Hi' & _ & _). rewrite Hi', Hi.
  destruct (existsb _ (ev_iou_types ev)); reflexivity.
Qed.


End TestPass.

Lemma update_calls_fresh {scalar image detection : Type}
    (m : nnModule scalar image detection) (bs : list (Batch image)) :
  existsb is_accumulate (update_calls m bs) = false /\
  existsb is_summarize (update_calls m bs) = false.
Proof.
  unfold update_calls. induction bs as [| b bs [IH1 IH2]]; cbn; auto.
Qed.

Section TestPassEvaluator.
Context {scalar image detection : Type}.
Variable ext : Externals scalar detection.
Implicit Types (s : DetectionModel scalar image detection).


End TestPassEvaluator.




(** *** Staging the data *)

Section Staging.
Context {scalar image detection : Type}.
Variable ext : Externals scalar detection.
Implicit Types (s : DetectionModel scalar image detection).

(** [prepare_data] raises the first error met by its library calls and
    nothing else. *)
Lemma prepare_data_raised s :
  raised (prepare_data ext s) = first_error (staging_calls ext (hparams s)).
Proof.
  unfold prepare_data, staging_calls. run_eff.
  destruct (get_tfms ext (hparams s)) as [e | t]; cbn; [reflexivity |].
  destruct (getitem t "train") as [e | augs]; cbn; [reflexivity |].
  destruct (read_csv ext (train_csv (hparams s))) as [e | trn]; cbn;
    [reflexivity |].
  destruct (getsize ext (train_csv (hparams s))) as [e | sz1]; cbn;
    [reflexivity |].
  destruct (read_csv ext (valid_csv (hparams s))) as [e | val]; cbn;
    [reflexivity |].
  destruct (getsize ext (valid_csv (hparams s))) as [e | sz2]; cbn;
    [reflexivity |].
  destruct (read_csv ext (test_csv (hparams s))) as [e | tst]; cbn;
    [reflexivity |].
  destruct (getsize ext (test_csv (hparams s))) as [e | sz3]; cbn;
    reflexivity.
Qed.

(** When it returns, the three splits are the tables that were read,
    whatever their number of rows. *)
Lemma prepare_data_returns s s' :
  prepare_data ext s = Return tt s' ->
  exists trn val tst,
    read_csv ext (train_csv (hparams s)) = inr trn /\
    read_csv ext (valid_csv (hparams s)) = inr val /\
    read_csv ext (test_csv (hparams s)) = inr tst /\
    trn_df s' = Some trn /\ val_df s' = Some val /\ test_df s' = Some tst.
Proof.
  unfold prepare_data. run_eff.
  destruct (get_tfms ext (hparams s)) as [e | t]; cbn; [discriminate |].
  destruct (getitem t "train") as [e | augs]; cbn; [discriminate |].
  destruct (read_csv ext (train_csv (hparams s))) as [e | trn]; cbn;
    [discriminate |].
  destruct (getsize ext (train_csv (hparams s))) as [e | sz1]; cbn;
    [discriminate |].
  destruct (read_csv ext (valid_csv (hparams s))) as [e | val]; cbn;
    [discriminate |].
  destruct (getsize ext (valid_csv (hparams s))) as [e | sz2]; cbn;
    [discriminate |].
  destruct (read_csv ext (test_csv (hparams s))) as [e | tst]; cbn;
    [discriminate |].
  destruct (getsize ext (test_csv (hparams s))) as [e | sz3]; cbn;
    [discriminate |].
  intros E. injection E as <-. exists trn, val, tst. cbn. auto 10.
Qed.

(** The test split is the last one assigned: it is still unassigned
    whenever the staging raises before the test source has been read. *)
Lemma prepare_data_unreadable s e :
  read_csv ext (train_csv (hparams s)) = inl e \/
  read_csv ext (valid_csv (hparams s)) = inl e \/
  read_csv ext (test_csv (hparams s)) = inl e ->
  exists e', raised (prepare_data ext s) = Some e' /\
             test_df (final_state (prepare_data ext s)) = test_df s.
Proof.
  intros Hfail. unfold prepare_data. run_eff.
  destruct (get_tfms ext (hparams s)) as [e0 | t]; cbn; [eauto |].
  destruct (getitem t "train") as [e0 | augs]; cbn; [eauto |].
  destruct (read_csv ext (train_csv (hparams s))) as [e0 | trn]; cbn;
    [eauto |].
  destruct (getsize ext (train_csv (hparams s))) as [e0 | sz1]; cbn;
    [eauto |].
  destruct (read_csv ext (valid_csv (hparams s))) as [e0 | val]; cbn;
    [eauto |].
  destruct (getsize ext (valid_csv (hparams s))) as [e0 | sz2]; cbn;
    [eauto |].
  destruct (read_csv ext (test_csv (hparams s))) as [e0 | tst]; cbn;
    [eauto |].
  destruct Hfail as [H | [H | H]]; discriminate H.
Qed.

End Staging.

(** C7 (as the code has it). The staging step fails whenever one of the
    three named record sources (train, validation, test) cannot be read,
    and then the test split has not been assigned.  The error is not a
    [ConfigurationError] of the module's own: what is raised is the first
    error met by the library calls that the step makes, in order (the
    transforms, the train, validation and test sources, each read and
    then sized).  An empty source is not an error: when the step returns,
    the three splits are the tables that were read, whatever their
    number of rows. *)
Theorem prepare_data_propagates_reader_errors :
  forall (scalar image detection : Type) (ext : Externals scalar detection)
         (s : DetectionModel scalar image detection),
    raised (prepare_data ext s) = first_error (staging_calls ext (hparams s))
    /\ (forall e,
          read_csv ext (train_csv (hparams s)) = inl e \/
          read_csv ext (valid_csv (hparams s)) = inl e \/
          read_csv ext (test_csv (hparams s)) = inl e ->
          exists e', raised (prepare_data ext s) = Some e' /\
                     test_df (final_state (prepare_data ext s)) = test_df s)
    /\ (forall s',
          prepare_data ext s = Return tt s' ->
          exists trn val tst,
            read_csv ext (train_csv (hparams s)) = inr trn /\
            read_csv ext (valid_csv (hparams s)) = inr val /\
            read_csv ext (test_csv (hparams s)) = inr tst /\
            trn_df s' = Some trn /\ val_df s' = Some val /\
            test_df s' = Some tst).
Proof.
  intros scalar image detection ext s. split; [| split].
  - apply prepare_data_raised.
  - intros e. apply prepare_data_unreadable.
  - intros s'. apply prepare_data_returns.
Qed.

(** C7 with a missing validation source: the reader's error comes out. *)
Lemma prepare_data_propagates_reader_errors_witness :
  raised (prepare_data demo_ext_no_valid demo_init) = Some (OSError "valid.csv")
  /\ test_df (final_state (prepare_data demo_ext_no_valid demo_init)) = None.
Proof.
  destruct (prepare_data_propagates_reader_errors Q Image Detection
              demo_ext_no_valid demo_init) as (Hfirst & Hfail & _).
  split.
  - rewrite Hfirst. reflexivity.
  - destruct (Hfail (OSError "valid.csv") (or_intror (or_introl eq_refl)))
      as (e' & _ & Ht).
    rewrite Ht. reflexivity.
Defined.

(** C7, the claim as stated fails twice: a test source with no rows is
    staged without any error, and a source that cannot be read makes the
    step fail with the reader's error, which is not
    [ConfigurationError]. *)
Lemma prepare_data_no_configuration_error :
  read_csv demo_ext_empty_test (test_csv (hparams demo_init)) = inr []
  /\ raised (prepare_data demo_ext_empty_test demo_init) = None
  /\ test_df (final_state (prepare_data demo_ext_empty_test demo_init))
       = Some []
  /\ read_csv demo_ext_no_valid (valid_csv (hparams demo_init))
       = inl (OSError "valid.csv")
  /\ raised (prepare_data demo_ext_no_valid demo_init)
       <> Some ConfigurationError.
Proof.
  repeat split; try reflexivity.
  intro E. vm_compute in E. discriminate E.
Qed.

(** *** The start-of-stage hooks *)

Section Hooks.
Context {scalar image detection : Type}.
Implicit Types (s : DetectionModel scalar image detection).

Lemma train_dataloader_inv s dl s' :
  train_dataloader s = Return dl s' ->
  s' = s /\
  exists ds, DataLoader_new ds (train_batch_size (hparams s)) (Some true)
                            (dataloader (hparams s)) = inr dl /\
             Some (ds_frame ds) = trn_df s.
Proof.
  unfold train_dataloader. run_eff.
  destruct (trn_df s) as [df |]; [| discriminate].
  destruct (tfms s) as [t |]; [| discriminate].
  destruct (getitem t "train") as [e | tf]; cbn; [discriminate |].
  destruct (DataLoader_new _ _ _ _) as [e | loader] eqn:Hn; cbn;
    [discriminate |].
  intros E. injection E as <- <-. split; [reflexivity |].
  eexists. split; [exact Hn | reflexivity].
Qed.

Lemma val_dataloader_inv s dl s' :
  val_dataloader s = Return dl s' ->
  s' = s /\
  exists ds, DataLoader_new ds (valid_batch_size (hparams s)) None
                            (dataloader (hparams s)) = inr dl /\
             Some (ds_frame ds) = val_df s.
Proof.
  unfold val_dataloader. run_eff.
  destruct (val_df s) as [df |]; [| discriminate].
  destruct (tfms s) as [t |]; [| discriminate].
  destruct (getitem t "valid") as [e | tf]; cbn; [discriminate |].
  destruct (DataLoader_new _ _ _ _) as [e | loader] eqn:Hn; cbn;
    [discriminate |].
  intros E. injection E as <- <-. split; [reflexivity |].
  eexists. split; [exact Hn | reflexivity].
Qed.

Lemma test_dataloader_loader s dl s' :
  test_dataloader s = Return dl s' ->
  exists ds, DataLoader_new ds (test_batch_size (hparams s)) None
                            (dataloader (hparams s)) = inr dl /\
             Some (ds_frame ds) = test_df s.
Proof.
  unfold test_dataloader. run_eff.
  destruct (test_df s) as [df |]; [| discriminate].
  destruct (tfms s) as [t |]; [| discriminate].
  destruct (getitem t "test") as [e | tf]; cbn; [discriminate |].
  destruct (DataLoader_new _ _ _ _) as [e | loader] eqn:Hn; cbn;
    [discriminate |].
  intros E. injection E as <- _.
  eexists. split; [exact Hn | reflexivity].
Qed.

(** The start-of-training hook only writes two log records. *)
Lemma on_train_start_only_logs trainer s s' :
  on_train_start trainer s = Return tt s' ->
  exists n,
    s' = set_fancy_logger
           (fancy_logger s ++ [LogTrainingOn n;
                               LogTrainingFrom (global_step trainer)]) s.
Proof.
  unfold on_train_start. intros E.
  apply bind_Return_inv in E. destruct E as (dl & s1 & Hdl & E).
  apply train_dataloader_inv in Hdl. destruct Hdl as [-> _].
  unfold info, bind, modify in E. injection E as <-.
  exists (dataset_len (dataset dl)). unfold set_fancy_logger. cbn.
  rewrite <- app_assoc. reflexivity.
Qed.

(** The start-of-test hook also constructs an evaluator and rebinds
    [test_evaluator] to it. *)
Lemma on_test_start_allocates trainer s s' :
  on_test_start trainer s = Return tt s' ->
  test_evaluator s' = Some (List.length (heap s)) /\
  nth_error (heap s) (List.length (heap s)) = None /\
  exists ev, heap s' = heap s ++ [ev] /\ calls ev = [].
Proof.
  intros E. apply on_test_start_inv in E. destruct E as (dl & s1 & Hdl & ->).
  apply test_dataloader_inv in Hdl. subst s1. cbn.
  split; [reflexivity |]. split; [apply nth_error_None; lia |].
  eexists. split; reflexivity.
Qed.

End Hooks.

(** C8, what the code does at the start of a test stage. When the hook
    fires on a module whose bound evaluator (instance 0) already holds
    the results of a batch, it returns with [test_evaluator] bound to a
    newly constructed instance 1 on which no call has been made: the
    accumulator seen by the following steps is not the one seen before
    the hook.  The same happens right after the trainer has fetched the
    test loader, where instance 0 is still empty.  The claim asks for
    hooks that change no orchestrator state. *)
Theorem on_test_start_replaces_evaluator :
  test_evaluator demo_after_step = Some 0%nat /\
  map calls (heap demo_after_step)
    = [[CallUpdate [(7, detect img7); (8, detect img8)]]] /\
  raised (on_test_start demo_trainer demo_after_step) = None /\
  test_evaluator (final_state (on_test_start demo_trainer demo_after_step))
    = Some 1%nat /\
  map calls (heap (final_state (on_test_start demo_trainer demo_after_step)))
    = [[CallUpdate [(7, detect img7); (8, detect img8)]]; []] /\
  test_evaluator demo_testing = Some 0%nat /\
  test_evaluator (final_state (on_test_start demo_trainer demo_testing))
    = Some 1%nat /\
  final_state (on_test_start demo_trainer demo_testing)
    <> set_fancy_logger
         (fancy_logger (final_state (on_test_start demo_trainer demo_testing)))
         demo_testing.
Proof.
  repeat split; try reflexivity.
  intro E. apply (f_equal test_evaluator) in E. vm_compute in E. discriminate E.
Qed.

(** *** Shuffling and batch order *)

Lemma DataLoader_new_inv ds bs shuffle_arg kw dl :
  DataLoader_new ds bs shuffle_arg kw = inr dl ->
  dataset dl = ds /\ batch_size dl = bs /\ options dl = kw /\
  shuffle dl = match shuffle_arg with
               | Some b => b
               | None => kw_flag kw "shuffle"
               end /\
  (kw_opt kw "batch_sampler" = None -> 0 < bs).
Proof.
  unfold DataLoader_new.
  destruct (kw_mem kw "dataset" || kw_mem kw "batch_size"
            || kw_mem kw "collate_fn"
            || is_some shuffle_arg && kw_mem kw "shuffle"); [discriminate |].
  destruct (kw_opt kw "batch_sampler") as [v |].
  - destruct (negb (bs =? 1) || _ || _ || _); [discriminate |].
    intros E. injection E as <-. cbn. repeat split; discriminate.
  - destruct (kw_opt kw "sampler") as [v |].
    + destruct (match shuffle_arg with Some b => b | None => _ end);
        [discriminate |].
      destruct (Z.leb_spec bs 0); [discriminate |].
      intros E. injection E as <-. cbn. repeat split; auto.
    + destruct (Z.leb_spec bs 0); [discriminate |].
      intros E. injection E as <-. cbn. repeat split; auto.
Qed.

Lemma firstn_add_skipn {A : Type} (n k : nat) (l : list A) :
  firstn (n + k) l = firstn n l ++ firstn k (skipn n l).
Proof.
  revert l. induction n as [| n IH]; intros [| x l]; cbn;
    try reflexivity.
  - rewrite firstn_nil. reflexivity.
  - f_equal. apply IH.
Qed.

(** Chunking keeps the order: the groups, one after the other, are a
    prefix of the list, and the whole list unless the incomplete last
    group is dropped. *)
Lemma chunks_concat (fuel n : nat) (drop_last : bool) (l : list nat) :
  (0 < n)%nat -> (List.length l <= fuel)%nat ->
  exists k,
    (k <= List.length l)%nat /\
    List.concat (chunks fuel n drop_last l) = firstn k l /\
    (drop_last = false -> k = List.length l).
Proof.
  intros Hn. revert l. induction fuel as [| fuel IH]; intros l Hl.
  - destruct l; [| cbn in Hl; lia]. exists 0%nat. cbn. auto.
  - destruct l as [| x l0].
    + exists 0%nat. cbn. auto.
    + cbn [chunks]. remember (x :: l0) as l eqn:El.
      destruct (drop_last && (List.length l <? n)%nat) eqn:Hd.
      * exists 0%nat. cbn. split; [lia |]. split; [reflexivity |].
        intros ->. discriminate Hd.
      * assert (Hlen : (List.length l >= 1)%nat) by (rewrite El; cbn; lia).
        destruct (IH (skipn n l)) as (k & Hk & Hc & Hall).
        { rewrite length_skipn. lia. }
        rewrite length_skipn in Hk.
        destruct (Nat.le_gt_cases n (List.length l)) as [Hle | Hgt].
        -- exists (n + k)%nat. split; [lia |]. split.
           ++ cbn [List.concat]. rewrite Hc. symmetry. apply firstn_add_skipn.
           ++ intros Hf. rewrite (Hall Hf), length_skipn. lia.
        -- exists (List.length l). split; [lia |]. split; [| reflexivity].
           cbn [List.concat]. rewrite Hc.
           rewrite (firstn_all2 (n := n)) by lia.
           rewrite skipn_all2 by lia. rewrite firstn_nil, app_nil_r.
           rewrite firstn_all. reflexivity.
Qed.

Lemma firstn_seq_prefix (k a n : nat) :
  (k <= n)%nat -> firstn k (seq a n) = seq a k.
Proof.
  revert a n. induction k as [| k IH]; intros a [| n] Hk; cbn;
    try reflexivity; try lia.
  f_equal. apply IH. lia.
Qed.

(** Without shuffling and without a sampler, a pass over a loader does
    not consult the random source, and enumerates the dataset indices
    from 0 upwards. *)
Lemma batches_sequential rng custom (dl : DataLoader) :
  shuffle dl = false ->
  kw_opt (options dl) "batch_sampler" = None ->
  kw_opt (options dl) "sampler" = None ->
  (0 < batch_size dl) ->
  batches rng custom dl =
    chunks (dataset_len (dataset dl)) (Z.to_nat (batch_size dl))
           (kw_flag (options dl) "drop_last")
           (seq 0 (dataset_len (dataset dl)))
  /\ exists k,
       (k <= dataset_len (dataset dl))%nat /\
       List.concat (batches rng custom dl) = seq 0 k /\
       (kw_flag (options dl) "drop_last" = false ->
        k = dataset_len (dataset dl)).
Proof.
  intros Hsh Hbs Hs Hpos. unfold batches. rewrite Hbs, Hs, Hsh.
  rewrite length_seq. split; [reflexivity |].
  destruct (chunks_concat (dataset_len (dataset dl))
              (Z.to_nat (batch_size dl))
              (kw_flag (options dl) "drop_last")
              (seq 0 (dataset_len (dataset dl))))
    as (k & Hk & Hc & Hall).
  - lia.
  - rewrite length_seq. lia.
  - rewrite length_seq in Hk, Hall. exists k. split; [exact Hk |].
    split; [| exact Hall].
    rewrite Hc. apply firstn_seq_prefix. exact Hk.
Qed.

Section Loaders.
Context {scalar image detection : Type}.
Implicit Types (s : DetectionModel scalar image detection).

(** The validation and the test loader are built by the same call. *)
Lemma eval_dataloader_new s dl s' :
  val_dataloader s = Return dl s' \/ test_dataloader s = Return dl s' ->
  exists ds bs, DataLoader_new ds bs None (dataloader (hparams s)) = inr dl.
Proof.
  intros [E | E].
  - apply val_dataloader_inv in E. destruct E as (_ & ds & Hn & _). eauto.
  - apply test_dataloader_loader in E. destruct E as (ds & Hn & _). eauto.
Qed.

End Loaders.

(** With [shuffle] among the forwarded options the training loader
    cannot be built: the argument would be bound twice. *)
Lemma train_dataloader_rejects_shuffle_option :
  raised (train_dataloader shuffle_prepared)
    = Some (TypeError "got multiple values for argument").
Proof. reflexivity. Qed.

(** C10 (as the code has it). The training loader is always constructed
    with shuffling enabled.  The validation and the test loader are given
    no shuffle argument of their own: their flag is the one that the
    configured data-loading options carry, false when the options have
    none.  So when the options ask neither for shuffling nor for a
    sampler, both loaders are constructed without shuffling, and every
    pass over them yields the same batches whatever the random source:
    the dataset indices from 0 upwards in dataset order, all of them
    unless [drop_last] is set. *)
Theorem eval_dataloaders_keep_order :
  forall (scalar image detection : Type)
         (s : DetectionModel scalar image detection),
    (forall dl s', train_dataloader s = Return dl s' -> shuffle dl = true)
    /\ (forall dl s',
           val_dataloader s = Return dl s' \/ test_dataloader s = Return dl s' ->
           shuffle dl = kw_flag (dataloader (hparams s)) "shuffle" /\
           options dl = dataloader (hparams s))
    /\ (kw_flag (dataloader (hparams s)) "shuffle" = false ->
        kw_opt (dataloader (hparams s)) "sampler" = None ->
        kw_opt (dataloader (hparams s)) "batch_sampler" = None ->
        forall dl s',
          val_dataloader s = Return dl s' \/ test_dataloader s = Return dl s' ->
          shuffle dl = false /\
          forall rng1 rng2 custom1 custom2,
            batches rng1 custom1 dl = batches rng2 custom2 dl /\
            exists k,
              (k <= dataset_len (dataset dl))%nat /\
              List.concat (batches rng1 custom1 dl) = seq 0 k /\
              (kw_flag (dataloader (hparams s)) "drop_last" = false ->
               k = dataset_len (dataset dl))).
Proof.
  intros scalar image detection s. split; [| split].
  - intros dl s' E. apply train_dataloader_inv in E.
    destruct E as (_ & ds & Hn & _). apply DataLoader_new_inv in Hn.
    destruct Hn as (_ & _ & _ & Hsh & _). exact Hsh.
  - intros dl s' E. apply eval_dataloader_new in E.
    destruct E as (ds & bs & Hn). apply DataLoader_new_inv in Hn.
    destruct Hn as (_ & _ & Ho & Hsh & _). auto.
  - intros Hflag Hsmp Hbsmp dl s' E. apply eval_dataloader_new in E.
    destruct E as (ds & bs & Hn). apply DataLoader_new_inv in Hn.
    destruct Hn as (_ & Hb & Ho & Hsh & Hpos).
    assert (Hsh' : shuffle dl = false) by congruence.
    split; [exact Hsh' |].
    intros rng1 rng2 custom1 custom2.
    assert (Hp : 0 < batch_size dl) by (rewrite Hb; auto).
    rewrite <- Ho in Hsmp, Hbsmp.
    destruct (batches_sequential rng1 custom1 dl Hsh' Hbsmp Hsmp Hp)
      as (E1 & k & Hk & Hc & Hall).
    destruct (batches_sequential rng2 custom2 dl Hsh' Hbsmp Hsmp Hp)
      as (E2 & _).
    split; [congruence |].
    exists k. rewrite <- Ho. auto.
Qed.

(** C10 on the validation loader of the staged module. *)
Lemma eval_dataloaders_keep_order_witness :
  shuffle demo_val_loader = false /\
  batches reversed no_custom demo_val_loader
    = batches in_order no_custom demo_val_loader.
Proof.
  assert (E : val_dataloader demo_prepared = Return demo_val_loader demo_prepared)
    by (vm_compute; reflexivity).
  destruct (eval_dataloaders_keep_order Q Image Detection demo_prepared)
    as (_ & _ & H).
  destruct (H eq_refl eq_refl eq_refl demo_val_loader demo_prepared
              (or_introl E)) as (Hsh & Hb).
  split; [exact Hsh |].
  exact (proj1 (Hb reversed in_order no_custom no_custom)).
Defined.

(** C10, the claim as stated fails: with [shuffle: true] among the
    data-loading options, the validation and the test loader are
    constructed with shuffling enabled, and a pass over the validation
    split follows the random source instead of the dataset order. *)
Lemma eval_dataloaders_shuffled_by_options :
  dataloader (hparams shuffle_prepared) = [("shuffle", PyBool true)] /\
  option_map shuffle (returned (val_dataloader shuffle_prepared)) = Some true /\
  option_map shuffle (returned (test_dataloader shuffle_prepared)) = Some true /\
  option_map (batches reversed no_custom)
             (returned (val_dataloader shuffle_prepared))
    = Some [[1; 0]%nat] /\
  option_map (batches in_order no_custom)
             (returned (val_dataloader shuffle_prepared))
    = Some [[0; 1]%nat].
Proof. repeat split; vm_compute; reflexivity. Qed.

(* ================================================================== *)
(** ** Further properties of the module *)
(* ================================================================== *)

(** *** [configure_optimizers] *)

(** X1. The three places where [configure_optimizers] can fail.  When
    the optimizer class cannot be loaded, or when it loads and its
    constructor raises on the trainable parameters (as it does on a
    network whose parameters are all frozen), the error is raised before
    [self.optimizer] is assigned and the module is left untouched.  When
    the optimizer has been constructed and the scheduler class does not
    load or its constructor raises, the error is raised after
    [self.optimizer] has been assigned: the module then holds the new
    optimizer over the trainable parameters, while the scheduler and the
    log are as before. *)
Theorem configure_optimizers_failure_state :
  forall (scalar image detection : Type) (ext : Externals scalar detection)
         (s : DetectionModel scalar image detection),
    let hp := hparams s in
    let trainable := filter requires_grad (parameters (model s)) in
    (forall e,
        load_obj ext (class_name (hp_optimizer hp)) = inl e ->
        configure_optimizers ext s = Raise e s)
    /\ (forall ocls e,
          load_obj ext (class_name (hp_optimizer hp)) = inr ocls ->
          optimizer_init ext ocls trainable (params (hp_optimizer hp))
            = Some e ->
          configure_optimizers ext s = Raise e s)
    /\ (forall ocls e,
          load_obj ext (class_name (hp_optimizer hp)) = inr ocls ->
          optimizer_init ext ocls trainable (params (hp_optimizer hp))
            = None ->
          let opt := {| optimizer_class := ocls;
                        param_groups := trainable;
                        optimizer_kwargs := params (hp_optimizer hp) |} in
          load_obj ext (sched_class_name (hp_scheduler hp)) = inl e \/
          (exists scls,
              load_obj ext (sched_class_name (hp_scheduler hp)) = inr scls /\
              scheduler_init ext scls opt (sched_params (hp_scheduler hp))
                = Some e) ->
          exists s',
            configure_optimizers ext s = Raise e s' /\
            optimizer s' = Some opt /\
            scheduler s' = scheduler s /\
            fancy_logger s' = fancy_logger s /\
            model s' = model s).
Proof.
  intros scalar image detection ext s hp trainable. subst hp trainable.
  split; [| split].
  - intros e Ho. unfold configure_optimizers. run_eff. rewrite Ho. reflexivity.
  - intros ocls e Ho Hi. unfold configure_optimizers. run_eff.
    rewrite Ho. cbn. rewrite Hi. reflexivity.
  - intros ocls e Ho Hi opt Hs. subst opt. unfold configure_optimizers.
    run_eff. rewrite Ho. cbn. rewrite Hi. cbn.
    destruct Hs as [Hs | (scls & Hs & Hc)].
    + rewrite Hs. cbn. eexists. split; [reflexivity |]. cbn. auto.
    + rewrite Hs. cbn. rewrite Hc. cbn.
      eexists. split; [reflexivity |]. cbn. auto.
Qed.

Lemma configure_optimizers_failure_state_witness :
  configure_optimizers demo_ext (DetectionModel_init frozen_model demo_hparams)
    = Raise (ValueError "optimizer got an empty parameter list")
            (DetectionModel_init frozen_model demo_hparams) /\
  optimizer (DetectionModel_init frozen_model demo_hparams) = None /\
  exists s',
    configure_optimizers demo_ext_only_sgd demo_init
      = Raise (ImportError "torch.optim.lr_scheduler.StepLR") s' /\
    option_map param_groups (optimizer s') = Some [w_head] /\
    scheduler s' = None.
Proof.
  split; [| split; [reflexivity |]].
  - destruct (configure_optimizers_failure_state Q Image Detection
                demo_ext (DetectionModel_init frozen_model demo_hparams))
      as (_ & H & _).
    exact (H "torch.optim.SGD"
             (ValueError "optimizer got an empty parameter list")
             eq_refl eq_refl).
  - destruct (configure_optimizers_failure_state Q Image Detection
                demo_ext_only_sgd demo_init) as (_ & _ & H).
    destruct (H "torch.optim.SGD"
                (ImportError "torch.optim.lr_scheduler.StepLR")
                eq_refl eq_refl (or_introl eq_refl))
      as (s' & E & Ho & Hs & _).
    exists s'. split; [exact E |].
    split; [rewrite Ho; reflexivity | exact Hs].
Defined.

(** X3. Whether it returns or raises, [configure_optimizers] never
    touches the model, the configuration, the staged splits and
    pipelines, or the evaluator and its store. *)
Theorem configure_optimizers_frame :
  forall (scalar image detection : Type) (ext : Externals scalar detection)
         (s : DetectionModel scalar image detection),
    let s' := final_state (configure_optimizers ext s) in
    model s' = model s /\ hparams s' = hparams s /\ tfms s' = tfms s /\
    trn_df s' = trn_df s /\ val_df s' = val_df s /\ test_df s' = test_df s /\
    test_evaluator s' = test_evaluator s /\ heap s' = heap s.
Proof.
  intros scalar image detection ext s. unfold configure_optimizers. run_eff.
  destruct (load_obj ext (class_name (hp_optimizer (hparams s))))
    as [e | ocls]; cbn; [repeat split |].
  destruct (optimizer_init ext ocls _ _) as [e |]; cbn; [repeat split |].
  destruct (load_obj ext (sched_class_name (hp_scheduler (hparams s))))
    as [e | scls]; cbn; [repeat split |].
  destruct (scheduler_init ext scls _ _) as [e |]; cbn; repeat split.
Qed.

(** *** [prepare_data] *)

(** Splits the staging on the outcome of the next library call. *)
Ltac staging_case e :=
  match goal with
  | |- context [match ?r with inl _ => _ | inr _ => _ end] =>
      let x := fresh "x" in
      let E := fresh "E" in
      destruct r as [e | x] eqn:E; cbn
  end.

(** X4. Whether it returns or raises, [prepare_data] never touches the
    model, the configuration, the optimizer and scheduler, or the
    evaluator and its store; it only assigns the pipelines and the three
    splits and writes to the log. *)
Theorem prepare_data_frame :
  forall (scalar image detection : Type) (ext : Externals scalar detection)
         (s : DetectionModel scalar image detection),
    let s' := final_state (prepare_data ext s) in
    model s' = model s /\ hparams s' = hparams s /\
    optimizer s' = optimizer s /\ scheduler s' = scheduler s /\
    test_evaluator s' = test_evaluator s /\ heap s' = heap s.
Proof.
  intros scalar image detection ext s. unfold prepare_data. run_eff.
  repeat (staging_case e; [repeat split |]).
  repeat split.
Qed.

(** The staging when every library call succeeds. *)
Lemma prepare_data_success {scalar image detection : Type}
    (ext : Externals scalar detection)
    (s : DetectionModel scalar image detection) t augs trn sz1 val sz2 tst sz3 :
  get_tfms ext (hparams s) = inr t ->
  getitem t "train" = inr augs ->
  read_csv ext (train_csv (hparams s)) = inr trn ->
  getsize ext (train_csv (hparams s)) = inr sz1 ->
  read_csv ext (valid_csv (hparams s)) = inr val ->
  getsize ext (valid_csv (hparams s)) = inr sz2 ->
  read_csv ext (test_csv (hparams s)) = inr tst ->
  getsize ext (test_csv (hparams s)) = inr sz3 ->
  prepare_data ext s =
  Return tt
    {| model := model s; hparams := hparams s;
       fancy_logger :=
         fancy_logger s ++
           [LogAugmentations (transforms augs);
            LogSerialized "train" (train_csv (hparams s)); LogDatasetSize sz1;
            LogSerialized "validation" (valid_csv (hparams s));
            LogDatasetSize sz2;
            LogSerialized "test" (test_csv (hparams s)); LogDatasetSize sz3];
       optimizer := optimizer s; scheduler := scheduler s; tfms := Some t;
       trn_df := Some trn; val_df := Some val; test_df := Some tst;
       test_evaluator := test_evaluator s; heap := heap s |}.
Proof.
  intros H1 H2 H3 H4 H5 H6 H7 H8. unfold prepare_data. run_eff.
  rewrite H1. cbn. rewrite H2. cbn. rewrite H3. cbn. rewrite H4. cbn.
  rewrite H5. cbn. rewrite H6. cbn. rewrite H7. cbn. rewrite H8. cbn.
  unfold modify. cbn. repeat rewrite <- app_assoc. reflexivity.
Qed.

(** A staging that returned went through every library call. *)
Lemma prepare_data_inv {scalar image detection : Type}
    (ext : Externals scalar detection)
    (s s1 : DetectionModel scalar image detection) :
  prepare_data ext s = Return tt s1 ->
  exists t augs trn sz1 val sz2 tst sz3,
    get_tfms ext (hparams s) = inr t /\
    getitem t "train" = inr augs /\
    read_csv ext (train_csv (hparams s)) = inr trn /\
    getsize ext (train_csv (hparams s)) = inr sz1 /\
    read_csv ext (valid_csv (hparams s)) = inr val /\
    getsize ext (valid_csv (hparams s)) = inr sz2 /\
    read_csv ext (test_csv (hparams s)) = inr tst /\
    getsize ext (test_csv (hparams s)) = inr sz3.
Proof.
  unfold prepare_data. run_eff.
  destruct (get_tfms ext (hparams s)) as [e | t] eqn:E1; cbn;
    [discriminate |].
  destruct (getitem t "train") as [e | augs] eqn:E2; cbn; [discriminate |].
  destruct (read_csv ext (train_csv (hparams s))) as [e | trn] eqn:E3; cbn;
    [discriminate |].
  destruct (getsize ext (train_csv (hparams s))) as [e | sz1] eqn:E4; cbn;
    [discriminate |].
  destruct (read_csv ext (valid_csv (hparams s))) as [e | val] eqn:E5; cbn;
    [discriminate |].
  destruct (getsize ext (valid_csv (hparams s))) as [e | sz2] eqn:E6; cbn;
    [discriminate |].
  destruct (read_csv ext (test_csv (hparams s))) as [e | tst] eqn:E7; cbn;
    [discriminate |].
  destruct (getsize ext (test_csv (hparams s))) as [e | sz3] eqn:E8; cbn;
    [discriminate |].
  intros _. exists t, augs, trn, sz1, val, sz2, tst, sz3. auto 10.
Qed.

(** X5. Staging is idempotent: after a staging that returned, staging
    again with the same sources returns and assigns the same pipelines
    and the same three splits; only the log grows, by the same seven
    records. *)
Theorem prepare_data_idempotent :
  forall (scalar image detection : Type) (ext : Externals scalar detection)
         (s s1 : DetectionModel scalar image detection),
    prepare_data ext s = Return tt s1 ->
    exists recs,
      List.length recs = 7%nat /\
      fancy_logger s1 = fancy_logger s ++ recs /\
      prepare_data ext s1
        = Return tt (set_fancy_logger (fancy_logger s1 ++ recs) s1).
Proof.
  intros scalar image detection ext s s1 E.
  destruct (prepare_data_inv ext s s1 E)
    as (t & augs & trn & sz1 & val & sz2 & tst & sz3
        & H1 & H2 & H3 & H4 & H5 & H6 & H7 & H8).
  rewrite (prepare_data_success ext s t augs trn sz1 val sz2 tst sz3
             H1 H2 H3 H4 H5 H6 H7 H8) in E.
  injection E as <-.
  exists [LogAugmentations (transforms augs);
          LogSerialized "train" (train_csv (hparams s)); LogDatasetSize sz1;
          LogSerialized "validation" (valid_csv (hparams s));
          LogDatasetSize sz2;
          LogSerialized "test" (test_csv (hparams s)); LogDatasetSize sz3].
  split; [reflexivity |]. split; [reflexivity |].
  erewrite prepare_data_success; cbn [hparams]; try eassumption.
  reflexivity.
Qed.

Lemma prepare_data_idempotent_witness :
  raised (prepare_data demo_ext demo_prepared) = None /\
  trn_df (final_state (prepare_data demo_ext demo_prepared))
    = trn_df demo_prepared /\
  test_df (final_state (prepare_data demo_ext demo_prepared))
    = test_df demo_prepared.
Proof.
  destruct (prepare_data_idempotent Q Image Detection demo_ext demo_init
              demo_prepared eq_refl) as (recs & _ & _ & E).
  rewrite E. repeat split.
Defined.

(** X6. A staging that fails on the validation source has already
    assigned the pipelines and the train split: the module is left with
    the train table in [trn_df] while [val_df] and [test_df] are as
    before, and the test source has not been read. *)
Theorem prepare_data_partial_on_failure :
  forall (scalar image detection : Type) (ext : Externals scalar detection)
         (s : DetectionModel scalar image detection) t augs trn sz e,
    get_tfms ext (hparams s) = inr t ->
    getitem t "train" = inr augs ->
    read_csv ext (train_csv (hparams s)) = inr trn ->
    getsize ext (train_csv (hparams s)) = inr sz ->
    read_csv ext (valid_csv (hparams s)) = inl e ->
    exists s',
      prepare_data ext s = Raise e s' /\
      tfms s' = Some t /\ trn_df s' = Some trn /\
      val_df s' = val_df s /\ test_df s' = test_df s /\
      fancy_logger s'
        = fancy_logger s ++ [LogAugmentations (transforms augs);
                             LogSerialized "train" (train_csv (hparams s));
                             LogDatasetSize sz].
Proof.
  intros scalar image detection ext s t augs trn sz e H1 H2 H3 H4 H5.
  unfold prepare_data. run_eff.
  rewrite H1. cbn. rewrite H2. cbn. rewrite H3. cbn. rewrite H4. cbn.
  rewrite H5. cbn. eexists. split; [reflexivity |]. cbn.
  repeat split. repeat rewrite <- app_assoc. reflexivity.
Qed.

Lemma prepare_data_partial_on_failure_witness :
  exists s',
    prepare_data demo_ext_no_valid demo_init
      = Raise (OSError "valid.csv") s' /\
    trn_df s' = Some [row "a.jpg" 1; row "b.jpg" 2] /\
    val_df s' = None /\ test_df s' = None.
Proof.
  destruct (prepare_data_partial_on_failure Q Image Detection
              demo_ext_no_valid demo_init demo_tfms
              {| transforms := ["HorizontalFlip"; "ToTensor"] |}
              [row "a.jpg" 1; row "b.jpg" 2] 128 (OSError "valid.csv")
              eq_refl eq_refl eq_refl eq_refl eq_refl)
    as (s' & E & _ & Ht & Hv & Hs & _).
  exists s'. auto.
Defined.

(** X7. The size of a source is taken only for the log, yet a failure to
    take it aborts the staging: when the train source is read and its
    size cannot be taken, the step raises that error with the train
    split assigned, and the validation and test sources are never
    assigned. *)
Theorem prepare_data_size_failure_aborts :
  forall (scalar image detection : Type) (ext : Externals scalar detection)
         (s : DetectionModel scalar image detection) t augs trn e,
    get_tfms ext (hparams s) = inr t ->
    getitem t "train" = inr augs ->
    read_csv ext (train_csv (hparams s)) = inr trn ->
    getsize ext (train_csv (hparams s)) = inl e ->
    exists s',
      prepare_data ext s = Raise e s' /\
      trn_df s' = Some trn /\
      val_df s' = val_df s /\ test_df s' = test_df s.
Proof.
  intros scalar image detection ext s t augs trn e H1 H2 H3 H4.
  unfold prepare_data. run_eff.
  rewrite H1. cbn. rewrite H2. cbn. rewrite H3. cbn. rewrite H4. cbn.
  eexists. split; [reflexivity |]. cbn. auto.
Qed.

Lemma prepare_data_size_failure_aborts_witness :
  exists s',
    prepare_data demo_ext_no_size demo_init = Raise (OSError "train.csv") s' /\
    option_map (@List.length Row) (trn_df s') = Some 4%nat /\
    val_df s' = None.
Proof.
  destruct (prepare_data_size_failure_aborts Q Image Detection
              demo_ext_no_size demo_init demo_tfms
              {| transforms := ["HorizontalFlip"; "ToTensor"] |}
              [row "a.jpg" 1; row "b.jpg" 2; row "c.jpg" 3; row "d.jpg" 4]
              (OSError "train.csv") eq_refl eq_refl eq_refl eq_refl)
    as (s' & E & Ht & Hv & _).
  exists s'. split; [exact E |]. split; [rewrite Ht; reflexivity | exact Hv].
Defined.

(** *** The three loaders *)

(** X8. Before the data are staged, every method that needs a split or
    the evaluator raises [AttributeError] for the attribute it misses and
    leaves the module as it was: the three loaders, the two hooks that
    call them, and the test step. *)
Theorem methods_before_staging :
  forall (scalar image detection : Type)
         (m : nnModule scalar image detection) (hp : HParams)
         (trainer : Trainer) (batch : Batch image) (batch_idx : Z),
    let s := DetectionModel_init m hp in
    train_dataloader s = Raise (AttributeError "trn_df") s /\
    val_dataloader s = Raise (AttributeError "val_df") s /\
    test_dataloader s = Raise (AttributeError "test_df") s /\
    on_train_start trainer s = Raise (AttributeError "trn_df") s /\
    on_test_start trainer s = Raise (AttributeError "test_df") s /\
    test_step batch batch_idx s = Raise (AttributeError "test_evaluator") s.
Proof.
  intros scalar image detection m hp trainer [[images targets] ids] batch_idx s.
  repeat split; reflexivity.
Qed.

Lemma DataLoader_new_errors ds bs shuffle_arg kw e :
  DataLoader_new ds bs shuffle_arg kw = inl e ->
  exists msg, e = TypeError msg \/ e = ValueError msg.
Proof.
  unfold DataLoader_new.
  destruct (kw_mem kw "dataset" || kw_mem kw "batch_size"
            || kw_mem kw "collate_fn"
            || is_some shuffle_arg && kw_mem kw "shuffle").
  - intros E. injection E as <-. eauto.
  - destruct (kw_opt kw "batch_sampler") as [v |].
    + destruct (negb (bs =? 1) || _ || _ || _); intros E;
        [injection E as <-; eauto | discriminate].
    + destruct (kw_opt kw "sampler") as [v |].
      * destruct (match shuffle_arg with Some b => b | None => _ end);
          [intros E; injection E as <-; eauto |].
        destruct (bs <=? 0); intros E; [injection E as <-; eauto | discriminate].
      * destruct (bs <=? 0); intros E; [injection E as <-; eauto | discriminate].
Qed.

Section StagedLoaders.
Context {scalar image detection : Type}.
Variable ext : Externals scalar detection.
Implicit Types (s : DetectionModel scalar image detection).

(** What a staging that returned has assigned. *)
Lemma prepare_data_assigned s s1 :
  prepare_data ext s = Return tt s1 ->
  exists t augs trn val tst,
    get_tfms ext (hparams s) = inr t /\
    getitem t "train" = inr augs /\
    read_csv ext (train_csv (hparams s)) = inr trn /\
    read_csv ext (valid_csv (hparams s)) = inr val /\
    read_csv ext (test_csv (hparams s)) = inr tst /\
    tfms s1 = Some t /\ trn_df s1 = Some trn /\ val_df s1 = Some val /\
    test_df s1 = Some tst /\ hparams s1 = hparams s /\
    test_evaluator s1 = test_evaluator s /\ heap s1 = heap s.
Proof.
  intros E.
  destruct (prepare_data_inv ext s s1 E)
    as (t & augs & trn & sz1 & val & sz2 & tst & sz3
        & H1 & H2 & H3 & H4 & H5 & H6 & H7 & H8).
  rewrite (prepare_data_success ext s t augs trn sz1 val sz2 tst sz3
             H1 H2 H3 H4 H5 H6 H7 H8) in E.
  injection E as <-.
  exists t, augs, trn, val, tst. cbn. auto 15.
Qed.

End StagedLoaders.

(** X9. After a staging that returned, the train loader cannot miss an
    attribute or a pipeline: it can only fail in the construction of the
    loader, with a [TypeError] or a [ValueError].  When it returns, the
    module is unchanged and the loader serves exactly the table read
    from the train source, with the train pipeline, the configured train
    batch size and options, and shuffling on. *)
Theorem train_dataloader_after_staging :
  forall (scalar image detection : Type) (ext : Externals scalar detection)
         (s s1 : DetectionModel scalar image detection),
    prepare_data ext s = Return tt s1 ->
    (forall dl s2,
        train_dataloader s1 = Return dl s2 ->
        s2 = s1 /\
        read_csv ext (train_csv (hparams s)) = inr (ds_frame (dataset dl)) /\
        Some (ds_tfms (dataset dl))
          = match get_tfms ext (hparams s) with
            | inr t => dict_get String.eqb t "train"
            | inl _ => None
            end /\
        batch_size dl = train_batch_size (hparams s) /\
        options dl = dataloader (hparams s) /\
        shuffle dl = true)
    /\ (forall e s2,
           train_dataloader s1 = Raise e s2 ->
           s2 = s1 /\ exists msg, e = TypeError msg \/ e = ValueError msg).
Proof.
  intros scalar image detection ext s s1 E.
  destruct (prepare_data_assigned ext s s1 E)
    as (t & augs & trn & val & tst & H1 & H2 & H3 & _ & _
        & Ht & Htrn & _ & _ & Hhp & _).
  assert (Hd : dict_get String.eqb t "train" = Some augs).
  { unfold getitem in H2. destruct (dict_get String.eqb t "train");
      [injection H2 as ->; reflexivity | discriminate]. }
  unfold train_dataloader. run_eff. rewrite Htrn, Ht. cbn. rewrite H2. cbn.
  rewrite Hhp.
  destruct (DataLoader_new _ _ _ _) as [e0 | dl0] eqn:Hn; cbn.
  - split; [intros dl s2 E2; discriminate |].
    intros e s2 E2. injection E2 as <- <-. split; [reflexivity |].
    eapply DataLoader_new_errors. exact Hn.
  - split; [| intros e s2 E2; discriminate].
    intros dl s2 E2. injection E2 as <- <-.
    apply DataLoader_new_inv in Hn.
    destruct Hn as (Hds & Hbs & Ho & Hsh & _).
    rewrite Hds, H1, H3, Hd. cbn. auto 10.
Qed.

Lemma train_dataloader_after_staging_witness :
  exists dl,
    train_dataloader demo_prepared = Return dl demo_prepared /\
    shuffle dl = true /\
    read_csv demo_ext "train.csv" = inr (ds_frame (dataset dl)).
Proof.
  destruct (train_dataloader_after_staging Q Image Detection demo_ext
              demo_init demo_prepared eq_refl) as [H _].
  destruct (train_dataloader demo_prepared) as [dl s2 | e s2] eqn:E;
    [| vm_compute in E; discriminate E].
  destruct (H dl s2 eq_refl) as (-> & Hr & _ & _ & _ & Hsh).
  exists dl. split; [reflexivity |]. split; [exact Hsh | exact Hr].
Defined.

(** X10. The staging checks the train pipeline only.  When the pipelines
    built from the configuration have no entry for the validation stage,
    the staging still returns, and the validation loader then raises
    [KeyError] for ["valid"]; likewise the test loader raises [KeyError]
    for ["test"], before any evaluator is constructed. *)
Theorem eval_dataloaders_missing_pipeline :
  forall (scalar image detection : Type) (ext : Externals scalar detection)
         (s s1 : DetectionModel scalar image detection) t,
    prepare_data ext s = Return tt s1 ->
    get_tfms ext (hparams s) = inr t ->
    (dict_get String.eqb t "valid" = None ->
     val_dataloader s1 = Raise (KeyError "valid") s1)
    /\ (dict_get String.eqb t "test" = None ->
        test_dataloader s1 = Raise (KeyError "test") s1).
Proof.
  intros scalar image detection ext s s1 t E Ht.
  destruct (prepare_data_assigned ext s s1 E)
    as (t' & augs & trn & val & tst & H1 & _ & _ & _ & _
        & Htf & _ & Hval & Htst & _).
  assert (t' = t) by congruence. subst t'.
  split; intros Hk.
  - unfold val_dataloader. run_eff. rewrite Hval, Htf. cbn.
    unfold getitem. rewrite Hk. reflexivity.
  - unfold test_dataloader. run_eff. rewrite Htst, Htf. cbn.
    unfold getitem. rewrite Hk. reflexivity.
Qed.

Lemma eval_dataloaders_missing_pipeline_witness :
  raised (prepare_data demo_ext_train_tfms demo_init) = None /\
  raised (val_dataloader
            (final_state (prepare_data demo_ext_train_tfms demo_init)))
    = Some (KeyError "valid") /\
  raised (test_dataloader
            (final_state (prepare_data demo_ext_train_tfms demo_init)))
    = Some (KeyError "test").
Proof.
  destruct (eval_dataloaders_missing_pipeline Q Image Detection
              demo_ext_train_tfms demo_init
              (final_state (prepare_data demo_ext_train_tfms demo_init))
              [("train", {| transforms := ["ToTensor"] |})]
              eq_refl eq_refl) as [Hv Ht].
  split; [reflexivity |].
  rewrite (Hv eq_refl), (Ht eq_refl). split; reflexivity.
Defined.

(** *** The test loader and the evaluator store *)

Section TestLoader.
Context {scalar image detection : Type}.
Implicit Types (s : DetectionModel scalar image detection).

Lemma test_dataloader_eq s df t tf dl :
  test_df s = Some df -> tfms s = Some t -> getitem t "test" = inr tf ->
  DataLoader_new {| ds_frame := df; ds_tfms := tf |}
                 (test_batch_size (hparams s)) None (dataloader (hparams s))
    = inr dl ->
  test_dataloader s =
  Return dl (set_test_evaluator (List.length (heap s))
               (set_heap (heap s ++ [CocoEvaluator_new (dataset dl)
                                       [iou_types (hparams s)]]) s)).
Proof.
  intros Hdf Ht Htf Hn. unfold test_dataloader. run_eff.
  rewrite Hdf, Ht. cbn. rewrite Htf. cbn. rewrite Hn. reflexivity.
Qed.

Lemma test_dataloader_facts s dl s' :
  test_dataloader s = Return dl s' ->
  exists df t tf,
    test_df s = Some df /\ tfms s = Some t /\ getitem t "test" = inr tf /\
    DataLoader_new {| ds_frame := df; ds_tfms := tf |}
                   (test_batch_size (hparams s)) None (dataloader (hparams s))
      = inr dl.
Proof.
  unfold test_dataloader. run_eff.
  destruct (test_df s) as [df |]; [| discriminate].
  destruct (tfms s) as [t |]; [| discriminate].
  destruct (getitem t "test") as [e | tf] eqn:Htf; cbn; [discriminate |].
  destruct (DataLoader_new _ _ _ _) as [e | loader] eqn:Hn; cbn;
    [discriminate |].
  intros E. injection E as <- _. exists df, t, tf. auto.
Qed.

End TestLoader.

(** X11. Every call of [test_dataloader] that returns constructs an
    evaluator: it appends to the store a new instance over the test
    split with the configured IoU type and no call made on it, and binds
    [test_evaluator] to it.  A second call returns the same loader and
    appends a second instance; the first stays in the store, unbound. *)
Theorem test_dataloader_allocates_each_call :
  forall (scalar image detection : Type)
         (s s1 : DetectionModel scalar image detection) dl,
    test_dataloader s = Return dl s1 ->
    let ev := CocoEvaluator_new (dataset dl) [iou_types (hparams s)] in
    heap s1 = heap s ++ [ev] /\
    test_evaluator s1 = Some (List.length (heap s)) /\
    Some (ds_frame (coco_gt ev)) = test_df s /\
    exists s2,
      test_dataloader s1 = Return dl s2 /\
      heap s2 = heap s ++ [ev; ev] /\
      test_evaluator s2 = Some (S (List.length (heap s))).
Proof.
  intros scalar image detection s s1 dl E ev.
  destruct (test_dataloader_facts s dl s1 E)
    as (df & t & tf & Hdf & Ht & Htf & Hn).
  rewrite (test_dataloader_eq s df t tf dl Hdf Ht Htf Hn) in E.
  injection E as <-. cbn [heap set_heap set_test_evaluator test_evaluator].
  split; [reflexivity |]. split; [reflexivity |].
  split.
  { apply DataLoader_new_inv in Hn. destruct Hn as (Hds & _).
    subst ev. cbn. rewrite Hds, Hdf. reflexivity. }
  eexists. split.
  - apply (test_dataloader_eq _ df t tf dl); assumption.
  - cbn. rewrite <- app_assoc, length_app. cbn.
    split; [reflexivity | f_equal; lia].
Qed.

Lemma test_dataloader_allocates_each_call_witness :
  List.length (heap demo_testing) = 1%nat /\
  exists s2,
    returned (test_dataloader demo_testing)
      = returned (test_dataloader demo_prepared) /\
    final_state (test_dataloader demo_testing) = s2 /\
    List.length (heap s2) = 2%nat /\ test_evaluator s2 = Some 1%nat.
Proof.
  assert (E : test_dataloader demo_prepared
              = Return (match returned (test_dataloader demo_prepared) with
                        | Some dl => dl
                        | None => demo_val_loader
                        end) demo_testing) by (vm_compute; reflexivity).
  destruct (test_dataloader_allocates_each_call Q Image Detection
              demo_prepared demo_testing _ E)
    as (Hh & _ & _ & s2 & E2 & Hh2 & Hr2).
  split; [rewrite Hh; reflexivity |].
  exists s2. rewrite E2. cbn. split; [reflexivity |].
  split; [reflexivity |]. split; [rewrite Hh2; reflexivity | exact Hr2].
Defined.

(** *** The results of a batch *)

Lemma dict_set_length {V : Type} (d : list (Z * V)) k v :
  (List.length (dict_set Z.eqb d k v) <= S (List.length d))%nat.
Proof.
  induction d as [| [k0 v0] d IH]; cbn; [lia |].
  destruct (k =? k0); cbn; lia.
Qed.

Lemma dict_of_length {V : Type} (pairs : list (Z * V)) :
  (List.length (dict_of Z.eqb pairs) <= List.length pairs)%nat.
Proof.
  unfold dict_of.
  assert (H : forall acc : list (Z * V),
             (List.length
                (fold_left (fun d kv => dict_set Z.eqb d (fst kv) (snd kv))
                           pairs acc)
              <= List.length acc + List.length pairs)%nat).
  { induction pairs as [| [k v] pairs IH]; cbn; intros acc; [lia |].
    specialize (IH (dict_set Z.eqb acc k v)).
    pose proof (dict_set_length acc k v). lia. }
  apply (H []).
Qed.

Lemma dict_get_In {V : Type} (l : list (Z * V)) k v :
  dict_get Z.eqb l k = Some v -> In (k, v) l.
Proof.
  induction l as [| [k0 v0] l IH]; cbn; [discriminate |].
  destruct (Z.eqb_spec k k0) as [-> | Hne].
  - intros E. injection E as ->. left. reflexivity.
  - intros E. right. apply IH. exact E.
Qed.

Lemma zip_length {A B : Type} (xs : list A) (ys : list B) :
  List.length (zip xs ys) = Nat.min (List.length xs) (List.length ys).
Proof.
  revert ys. induction xs as [| x xs IH]; intros [| y ys]; cbn; auto.
Qed.

Lemma zip_firstn {A B : Type} (xs : list A) (ys : list B) :
  map fst (zip xs ys) = firstn (List.length ys) xs /\
  map snd (zip xs ys) = firstn (List.length xs) ys.
Proof.
  revert ys. induction xs as [| x xs IH]; intros [| y ys]; cbn; auto.
  destruct (IH ys) as [H1 H2]. rewrite H1, H2. auto.
Qed.

(** X12. The results of a test step pair targets and outputs by position
    and stop at the shorter of the two: there are at most as many entries
    as targets and as outputs; the identifiers present are those of the
    targets that have an output at their position, so a target beyond the
    last output is left out without an error; and every value is an
    output that has a target at its position. *)
Theorem test_results_truncate :
  forall (detection : Type) (targets : list Target)
         (outputs : list detection),
    let res := test_results targets outputs in
    (List.length res
       <= Nat.min (List.length targets) (List.length outputs))%nat /\
    (forall k, In k (keys res) <->
               In k (map image_id (firstn (List.length outputs) targets))) /\
    (forall k v, dict_get Z.eqb res k = Some v ->
                 In v (firstn (List.length targets) outputs)).
Proof.
  intros detection targets outputs res. subst res. unfold test_results.
  set (pairs := map (fun to : Target * detection =>
                       (image_id (fst to), snd to)) (zip targets outputs)).
  destruct (zip_firstn targets outputs) as [Hf Hs].
  assert (Hk : map fst pairs
               = map image_id (firstn (List.length outputs) targets)).
  { subst pairs. rewrite map_map. cbn. rewrite <- Hf, map_map. reflexivity. }
  assert (Hv : map snd pairs = firstn (List.length targets) outputs).
  { subst pairs. rewrite map_map. cbn. exact Hs. }
  split; [| split].
  - pose proof (dict_of_length pairs) as Hl. subst pairs.
    rewrite length_map, zip_length in Hl. exact Hl.
  - intro k. rewrite dict_of_keys, Hk. tauto.
  - intros k v Hg. rewrite dict_of_get in Hg. apply dict_get_In in Hg.
    apply in_rev in Hg. rewrite <- Hv.
    change v with (snd (k, v)). apply in_map. exact Hg.
Qed.

Lemma test_results_truncate_witness :
  keys (test_results [target_of 7; target_of 8]
                     (predict first_only_model [img7; img8])) = [7] /\
  ~ In 8 (keys (test_results [target_of 7; target_of 8]
                             (predict first_only_model [img7; img8]))).
Proof.
  destruct (test_results_truncate Detection [target_of 7; target_of 8]
              (predict first_only_model [img7; img8])) as (_ & Hk & _).
  split; [reflexivity |].
  intro Hin. apply Hk in Hin. cbn in Hin. destruct Hin as [E | []].
  discriminate E.
Defined.

(** X13. A batch without targets, or on which the model returns no
    output, is not an error: the test step still calls [update], with an
    empty mapping, which the evaluator accepts whatever it holds. *)
Theorem test_step_empty_batch :
  forall (scalar image detection : Type)
         (s : DetectionModel scalar image detection)
         (batch : Batch image) (batch_idx : Z) r ev,
    test_evaluator s = Some r ->
    nth_error (heap s) r = Some ev ->
    snd (fst batch) = [] \/ predict (model s) (fst (fst batch)) = [] ->
    test_step batch batch_idx s =
    Return [] (set_heap (update_nth r (record_call (CallUpdate []) ev) (heap s))
                        s).
Proof.
  intros scalar image detection s [[images targets] ids] batch_idx r ev Hr Hev
         Hempty.
  cbn [fst snd] in Hempty. rewrite test_step_eq, Hr, Hev.
  assert (Hres : test_results (map unpack targets) (predict (model s) images)
                 = []).
  { destruct Hempty as [-> | ->]; [reflexivity |].
    unfold test_results. destruct (map unpack targets); reflexivity. }
  rewrite Hres. reflexivity.
Qed.

Lemma test_step_empty_batch_witness :
  map calls (heap (final_state
                     (test_step (scalar := Q) ([], [], []) 1 demo_after_step)))
    = [[CallUpdate [(7, detect img7); (8, detect img8)]; CallUpdate []]].
Proof.
  rewrite (test_step_empty_batch Q Image Detection demo_after_step
             ([], [], []) 1 0%nat
             (match nth_error (heap demo_after_step) 0 with
              | Some ev => ev
              | None => CocoEvaluator_new
                          {| ds_frame := []; ds_tfms := {| transforms := [] |} |}
                          []
              end)
             eq_refl eq_refl (or_introl eq_refl)).
  reflexivity.
Defined.

(** *** Completing a test pass *)

Lemma NoDup_app_disjoint {A : Type} (l1 l2 : list A) x :
  NoDup (l1 ++ l2) -> In x l2 -> ~ In x l1.
Proof.
  induction l1 as [| a l1 IH]; cbn; intros Hnd Hx2; [tauto |].
  inversion Hnd as [| ? ? Hnotin Hnd']; subst.
  intros [-> | Hx1].
  - apply Hnotin. apply in_or_app. right. exact Hx2.
  - exact (IH Hnd' Hx2 Hx1).
Qed.

Section TestStepsComplete.
Context {scalar image detection : Type}.
Implicit Types (s : DetectionModel scalar image detection).

(** The identifiers that the batches of a pass submit. *)
Let pass_ids (m : nnModule scalar image detection) (bs : list (Batch image))
  : list Z := flat_map (fun b => keys (batch_results m b)) bs.

Lemma test_steps_return (bs : list (Batch image)) batch_idx s r ev :
  test_evaluator s = Some r ->
  nth_error (heap s) r = Some ev ->
  NoDup (submitted_ids ev ++ pass_ids (model s) bs) ->
  exists s' ev',
    test_steps bs batch_idx s = Return tt s' /\
    test_evaluator s' = Some r /\
    nth_error (heap s') r = Some ev' /\
    calls ev' = calls ev ++ update_calls (model s) bs /\
    submitted_ids ev' = submitted_ids ev ++ pass_ids (model s) bs /\
    ev_iou_types ev' = ev_iou_types ev.
Proof.
  revert batch_idx s ev.
  induction bs as [| b bs IH]; intros batch_idx s ev Hr Hev Hnd.
  - exists s, ev. cbn. rewrite !app_nil_r. auto 10.
  - cbn [test_steps]. unfold bind.
    destruct b as [[images targets] ids]. rewrite test_step_eq, Hr, Hev.
    set (res := test_results (map unpack targets) (predict (model s) images)).
    assert (Hfresh : forall k, In k (keys res) -> ~ In k (submitted_ids ev)).
    { intros k Hk. eapply NoDup_app_disjoint; [exact Hnd |].
      unfold pass_ids. cbn. apply in_or_app. left. exact Hk. }
    rewrite (update_accepts res ev Hfresh).
    set (ev1 := record_call (CallUpdate res) ev).
    set (s1 := set_heap (update_nth r ev1 (heap s)) s).
    destruct (IH (batch_idx + 1) s1 ev1) as (s' & ev' & E & Hr' & Hev' & Hc & Hs & Hi).
    + exact Hr.
    + subst s1. cbn. eapply nth_error_update_nth_eq. exact Hev.
    + subst s1 ev1. cbn [model set_heap].
      rewrite submitted_ids_record_update, <- app_assoc. exact Hnd.
    + exists s', ev'. split; [exact E |]. split; [exact Hr' |].
      split; [exact Hev' |]. subst s1 ev1. cbn [model set_heap] in *.
      rewrite submitted_ids_record_update in Hs.
      split; [rewrite Hc; cbn; rewrite <- app_assoc; reflexivity |].
      split; [rewrite Hs, <- app_assoc; reflexivity | exact Hi].
Qed.

End TestStepsComplete.

(** X14. The test steps of a pass all return when no image identifier is
    submitted twice: with an evaluator bound, if the identifiers it
    already holds and those of the results of the batches are pairwise
    distinct, the steps run to the end, and the evaluator then holds the
    identifiers of before followed by those of the batches in order. *)
Theorem test_steps_complete :
  forall (scalar image detection : Type)
         (s : DetectionModel scalar image detection)
         (bs : list (Batch image)) (batch_idx : Z) r ev,
    test_evaluator s = Some r ->
    nth_error (heap s) r = Some ev ->
    NoDup (submitted_ids ev
             ++ flat_map (fun b => keys (batch_results (model s) b)) bs) ->
    exists s' ev',
      test_steps bs batch_idx s = Return tt s' /\
      nth_error (heap s') r = Some ev' /\
      submitted_ids ev'
        = submitted_ids ev
            ++ flat_map (fun b => keys (batch_results (model s) b)) bs.
Proof.
  intros scalar image detection s bs batch_idx r ev Hr Hev Hnd.
  destruct (test_steps_return bs batch_idx s r ev Hr Hev Hnd)
    as (s' & ev' & E & _ & Hev' & _ & Hs & _).
  exists s', ev'. auto.
Qed.

Lemma test_steps_complete_witness :
  exists s',
    test_steps (scalar := Q) [batch_78; batch_9] 0 demo_testing = Return tt s' /\
    map submitted_ids (heap s') = [[7; 8; 9]].
Proof.
  destruct (test_steps_complete Q Image Detection demo_testing
              [batch_78; batch_9] 0 0%nat
              (match nth_error (heap demo_testing) 0 with
               | Some ev => ev
               | None => CocoEvaluator_new
                           {| ds_frame := []; ds_tfms := {| transforms := [] |} |}
                           []
               end)
              eq_refl eq_refl)
    as (s' & ev' & E & _ & _).
  - cbn. repeat constructor; cbn; intuition discriminate.
  - exists s'. split; [exact E |].
    assert (E' : test_steps (scalar := Q) [batch_78; batch_9] 0 demo_testing
                 = Return tt (final_state
                                (test_steps (scalar := Q) [batch_78; batch_9] 0
                                            demo_testing)))
      by (vm_compute; reflexivity).
    rewrite E' in E. injection E as <-. vm_compute. reflexivity.
Defined.

(** X15. The end of the test epoch reads the metric of the ["bbox"]
    evaluation whatever IoU type is configured.  On an evaluator that
    was not built for ["bbox"] it never returns: it raises after the log
    record has been written.  When the evaluator has not been finalized
    before, the error is [KeyError], raised after [accumulate] and
    [summarize] have been called on the evaluator. *)
Theorem test_epoch_end_needs_bbox :
  forall (scalar image detection : Type) (ext : Externals scalar detection)
         (s : DetectionModel scalar image detection) outputs r ev,
    test_evaluator s = Some r ->
    nth_error (heap s) r = Some ev ->
    existsb (String.eqb "bbox") (ev_iou_types ev) = false ->
    exists e s',
      test_epoch_end ext outputs s = Raise e s' /\
      fancy_logger s' = fancy_logger s ++ [LogEvaluationResults] /\
      (accumulated ev = false -> summarized ev = false ->
       e = KeyError "bbox" /\
       option_map calls (nth_error (heap s') r)
         = Some (calls ev ++ [CallAccumulate; CallSummarize])).
Proof.
  intros scalar image detection ext s outputs r ev Hr Hev Hb.
  rewrite (test_epoch_end_eq ext outputs s r ev Hr Hev). cbv zeta.
  rewrite Hb.
  destruct (accumulated ev) eqn:Ha.
  - rewrite (accumulate_again _ _ Ha).
    destruct (reaccumulate ext) as [e |].
    + eexists. eexists. split; [reflexivity |]. cbn.
      split; [reflexivity | discriminate].
    + eexists. eexists. split; [reflexivity |]. cbn.
      split; [reflexivity | discriminate].
  - rewrite (accumulate_first _ _ Ha).
    eexists. eexists. split; [reflexivity |]. cbn. split; [reflexivity |].
    intros _ Hs. split; [reflexivity |].
    rewrite (nth_error_update_nth_eq _ _ _ _ Hev). cbn.
    rewrite summarize_first
      by (rewrite summarized_record_call, Hs; reflexivity).
    cbn. rewrite <- app_assoc. reflexivity.
Qed.

Lemma test_epoch_end_needs_bbox_witness :
  raised (test_epoch_end demo_ext [] (final_state (test_dataloader segm_prepared)))
    = Some (KeyError "bbox").
Proof.
  destruct (test_epoch_end_needs_bbox Q Image Detection demo_ext
              (final_state (test_dataloader segm_prepared)) [] 0%nat
              (match nth_error
                       (heap (final_state (test_dataloader segm_prepared))) 0
               with
               | Some ev => ev
               | None => CocoEvaluator_new
                           {| ds_frame := []; ds_tfms := {| transforms := [] |} |}
                           []
               end)
              eq_refl eq_refl eq_refl) as (e & s' & E & _ & H).
  destruct (H eq_refl eq_refl) as [-> _].
  rewrite E. reflexivity.
Defined.

(** X16. The end of the test epoch has no guard of its own against a
    second call.  Called again on the module that a first call left, it
    writes its log record again and calls [accumulate] on the evaluator
    that the first call finalized; what happens then is the evaluator's
    decision.  If it refuses a second [accumulate], its error is raised;
    if it takes the call as a no-op, the method returns the same output
    again.  In both cases the evaluator is as the first call left it:
    nothing is accumulated twice. *)
Theorem test_epoch_end_not_guarded :
  forall (scalar image detection : Type) (ext : Externals scalar detection)
         (s s1 : DetectionModel scalar image detection) outputs out r ev,
    test_evaluator s = Some r ->
    nth_error (heap s) r = Some ev ->
    test_epoch_end ext outputs s = Return out s1 ->
    let s2 := set_fancy_logger (fancy_logger s1 ++ [LogEvaluationResults]) s1 in
    test_epoch_end ext outputs s1
      = match reaccumulate ext with
        | Some e => Raise e s2
        | None => Return out s2
        end /\
    exists ev1,
      nth_error (heap s1) r = Some ev1 /\
      accumulated ev1 = true /\ summarized ev1 = true /\
      nth_error (heap s2) r = Some ev1.
Proof.
  intros scalar image detection ext s s1 outputs out r ev Hr Hev E s2.
  rewrite (test_epoch_end_eq ext outputs s r ev Hr Hev) in E.
  destruct (CocoEvaluator_accumulate (reaccumulate ext) ev) as [e | eva] eqn:Ha;
    [discriminate |].
  cbv zeta in E.
  destruct (existsb (String.eqb "bbox") (ev_iou_types ev)) eqn:Hb;
    [| discriminate].
  apply accumulate_inv in Ha. destruct Ha as (Hi & Hacc & _).
  destruct (summarize_facts eva) as (Hi' & Hsum' & Hacc').
  set (ev1 := CocoEvaluator_summarize eva) in *.
  assert (Hev1 : nth_error (update_nth r ev1 (heap s)) r = Some ev1)
    by (eapply nth_error_update_nth_eq; exact Hev).
  assert (Hacc1 : accumulated ev1 = true) by congruence.
  injection E as <- <-.
  split.
  - rewrite (test_epoch_end_eq ext outputs _ r ev1); [| exact Hr | exact Hev1].
    rewrite (accumulate_again _ _ Hacc1).
    destruct (reaccumulate ext) as [e |]; [reflexivity |].
    cbv zeta. rewrite (summarize_again _ Hsum'), Hi', Hi, Hb.
    cbn [heap set_heap set_fancy_logger].
    rewrite (update_nth_same _ _ _ Hev1). reflexivity.
  - exists ev1. subst s2. cbn [heap set_heap set_fancy_logger]. auto.
Qed.

Lemma test_epoch_end_not_guarded_witness :
  returned (test_epoch_end demo_ext []
              (final_state (test_epoch_end demo_ext [] demo_after_step)))
    = returned (test_epoch_end demo_ext [] demo_after_step) /\
  raised (test_epoch_end strict_ext []
            (final_state (test_epoch_end strict_ext [] demo_after_step)))
    = Some (ValueError "already accumulated") /\
  option_map calls
    (nth_error
       (heap (final_state
                (test_epoch_end strict_ext []
                   (final_state (test_epoch_end strict_ext [] demo_after_step)))))
       0)
    = Some [CallUpdate [(7, detect img7); (8, detect img8)];
            CallAccumulate; CallSummarize].
Proof.
  set (ev := match nth_error (heap demo_after_step) 0 with
             | Some ev => ev
             | None => CocoEvaluator_new
                         {| ds_frame := []; ds_tfms := {| transforms := [] |} |}
                         []
             end).
  set (out := {| AP := 0%Q; ap_log := [("AP", 0%Q)];
                 ap_progress_bar := [("AP", 0%Q)] |}).
  assert (E : test_epoch_end demo_ext [] demo_after_step
              = Return out
                  (final_state (test_epoch_end demo_ext [] demo_after_step)))
    by (vm_compute; reflexivity).
  assert (E' : test_epoch_end strict_ext [] demo_after_step
               = Return out
                   (final_state (test_epoch_end strict_ext [] demo_after_step)))
    by (vm_compute; reflexivity).
  split; [| split].
  - destruct (test_epoch_end_not_guarded Q Image Detection demo_ext
                demo_after_step
                (final_state (test_epoch_end demo_ext [] demo_after_step))
                [] out 0%nat ev eq_refl eq_refl E) as (E2 & _).
    rewrite E2, E. reflexivity.
  - destruct (test_epoch_end_not_guarded Q Image Detection strict_ext
                demo_after_step
                (final_state (test_epoch_end strict_ext [] demo_after_step))
                [] out 0%nat ev eq_refl eq_refl E') as (E2 & _).
    rewrite E2. reflexivity.
  - vm_compute. reflexivity.
Defined.

(** X17. A test pass completes.  On a module whose test split and
    pipelines are staged, with data-loading options from which the test
    loader can be built, the IoU type ["bbox"], and batches whose results
    carry pairwise distinct image identifiers, the pass returns, and its
    headline metric is the one read from the evaluator it finalized. *)
Theorem test_pass_returns :
  forall (scalar image detection : Type) (ext : Externals scalar detection)
         (trainer : Trainer) (bs : list (Batch image))
         (s : DetectionModel scalar image detection) df t tf dl,
    test_df s = Some df -> tfms s = Some t -> getitem t "test" = inr tf ->
    DataLoader_new {| ds_frame := df; ds_tfms := tf |}
                   (test_batch_size (hparams s)) None (dataloader (hparams s))
      = inr dl ->
    iou_types (hparams s) = "bbox" ->
    NoDup (flat_map (fun b => keys (batch_results (model s) b)) bs) ->
    exists out s' ev,
      test_pass ext trainer bs s = Return out s' /\
      nth_error (heap s') (S (List.length (heap s))) = Some ev /\
      AP out = stats0 ext ev.
Proof.
  intros scalar image detection ext trainer bs s df t tf dl
         Hdf Ht Htf Hn Hiou Hnd.
  unfold test_pass, on_test_start. unfold bind at 1.
  rewrite (test_dataloader_eq s df t tf dl Hdf Ht Htf Hn).
  set (ev0 := CocoEvaluator_new (dataset dl) [iou_types (hparams s)]).
  set (s1 := set_test_evaluator (List.length (heap s))
               (set_heap (heap s ++ [ev0]) s)).
  unfold bind at 1. unfold bind at 1.
  rewrite (test_dataloader_eq s1 df t tf dl Hdf Ht Htf Hn).
  unfold info, modify.
  set (s2 := set_fancy_logger _ _).
  assert (Hr2 : test_evaluator s2 = Some (S (List.length (heap s)))).
  { subst s2 s1. unfold set_fancy_logger, set_test_evaluator, set_heap. cbn.
    rewrite length_app. cbn. f_equal. lia. }
  assert (Hev2 : nth_error (heap s2) (S (List.length (heap s))) = Some ev0).
  { subst s2 s1. unfold set_fancy_logger, set_test_evaluator, set_heap.
    cbn [heap]. rewrite nth_error_app2; rewrite length_app; cbn [List.length];
      [| lia].
    replace (S (List.length (heap s)) - (List.length (heap s) + 1))%nat
      with 0%nat by lia. reflexivity. }
  destruct (test_steps_return bs 0 s2 _ ev0 Hr2 Hev2)
    as (s3 & ev3 & E3 & Hr3 & Hev3 & Hc3 & _ & Hi3).
  { subst s2 s1. unfold set_fancy_logger, set_test_evaluator, set_heap. cbn.
    exact Hnd. }
  assert (Ha3 : accumulated ev3 = false).
  { unfold accumulated. rewrite Hc3. subst ev0. cbn [calls CocoEvaluator_new].
    apply update_calls_fresh. }
  unfold bind at 1. rewrite E3.
  rewrite (test_epoch_end_eq ext [] s3 _ ev3 Hr3 Hev3).
  rewrite (accumulate_first _ _ Ha3). cbv zeta.
  rewrite Hi3. subst ev0. cbn [ev_iou_types CocoEvaluator_new].
  rewrite Hiou. cbn [existsb].
  replace (String.eqb "bbox" "bbox") with true by reflexivity. cbn [orb].
  eexists. eexists. eexists. split; [reflexivity |].
  cbn [heap set_heap set_fancy_logger AP]. split; [| reflexivity].
  eapply nth_error_update_nth_eq. exact Hev3.
Qed.

Lemma test_pass_returns_witness :
  exists out s',
    test_pass demo_ext demo_trainer [batch_78; batch_9] demo_prepared
      = Return out s'.
Proof.
  destruct (test_pass_returns Q Image Detection demo_ext demo_trainer
              [batch_78; batch_9] demo_prepared
              [row "g.jpg" 7; row "h.jpg" 8] demo_tfms
              {| transforms := ["ToTensor"] |}
              {| dataset := {| ds_frame := [row "g.jpg" 7; row "h.jpg" 8];
                               ds_tfms := {| transforms := ["ToTensor"] |} |};
                 batch_size := 2; shuffle := false;
                 options := dataloader demo_hparams |}
              eq_refl eq_refl eq_refl eq_refl eq_refl)
    as (out & s' & ev & E & _).
  - cbn. repeat constructor; cbn; intuition discriminate.
  - exists out, s'. exact E.
Defined.

(** *** More on the hooks *)

(** X18. A start-of-training hook that returns has changed nothing but
    the log, to which it has appended two records: the number of rows of
    the train split and the global step of the trainer. *)
Theorem on_train_start_logs_size_and_step :
  forall (scalar image detection : Type)
         (s s' : DetectionModel scalar image detection) (trainer : Trainer),
    on_train_start trainer s = Return tt s' ->
    exists trn,
      trn_df s = Some trn /\
      s' = set_fancy_logger
             (fancy_logger s ++ [LogTrainingOn (List.length trn);
                                 LogTrainingFrom (global_step trainer)]) s.
Proof.
  intros scalar image detection s s' trainer E. unfold on_train_start in E.
  apply bind_Return_inv in E. destruct E as (dl & s1 & Hdl & E).
  apply train_dataloader_inv in Hdl. destruct Hdl as (-> & ds & Hn & Hdf).
  apply DataLoader_new_inv in Hn. destruct Hn as (Hds & _).
  unfold info, bind, modify in E. injection E as <-.
  exists (ds_frame ds). split; [symmetry; exact Hdf |].
  unfold set_fancy_logger, dataset_len. cbn. rewrite Hds, <- app_assoc.
  reflexivity.
Qed.

Lemma on_train_start_logs_size_and_step_witness :
  fancy_logger (final_state (on_train_start demo_trainer demo_prepared))
    = fancy_logger demo_prepared ++ [LogTrainingOn 4; LogTrainingFrom 0].
Proof.
  destruct (on_train_start_logs_size_and_step Q Image Detection demo_prepared
              (final_state (on_train_start demo_trainer demo_prepared))
              demo_trainer eq_refl) as (trn & Ht & E).
  rewrite E. cbn [fancy_logger set_fancy_logger].
  assert (Hl : List.length trn = 4%nat).
  { vm_compute in Ht. injection Ht as <-. reflexivity. }
  rewrite Hl. reflexivity.
Defined.

(** X19. A start-of-test hook that returns has appended to the log the
    number of rows of the test split, and has left the model, the
    configuration, the optimizer, the scheduler and the staged splits as
    they were (what it changes besides the log is the evaluator
    binding). *)
Theorem on_test_start_logs_size :
  forall (scalar image detection : Type)
         (s s' : DetectionModel scalar image detection) (trainer : Trainer),
    on_test_start trainer s = Return tt s' ->
    exists tst,
      test_df s = Some tst /\
      fancy_logger s' = fancy_logger s ++ [LogInferenceOn (List.length tst)] /\
      model s' = model s /\ hparams s' = hparams s /\
      optimizer s' = optimizer s /\ scheduler s' = scheduler s /\
      tfms s' = tfms s /\ trn_df s' = trn_df s /\ val_df s' = val_df s /\
      test_df s' = test_df s.
Proof.
  intros scalar image detection s s' trainer E.
  apply on_test_start_inv in E. destruct E as (dl & s1 & Hdl & ->).
  destruct (test_dataloader_facts s dl s1 Hdl)
    as (df & t & tf & Hdf & _ & _ & Hn).
  apply test_dataloader_inv in Hdl. subst s1.
  apply DataLoader_new_inv in Hn. destruct Hn as (Hds & _).
  exists df. split; [exact Hdf |]. cbn. unfold dataset_len. rewrite Hds. cbn.
  auto 12.
Qed.

Lemma on_test_start_logs_size_witness :
  fancy_logger (final_state (on_test_start demo_trainer demo_prepared))
    = fancy_logger demo_prepared ++ [LogInferenceOn 2].
Proof.
  destruct (on_test_start_logs_size Q Image Detection demo_prepared
              (final_state (on_test_start demo_trainer demo_prepared))
              demo_trainer eq_refl) as (tst & Ht & E & _).
  rewrite E.
  assert (Hl : List.length tst = 2%nat).
  { vm_compute in Ht. injection Ht as <-. reflexivity. }
  rewrite Hl. reflexivity.
Defined.

(** X20. The hooks can fail: whatever makes the loader they call raise
    makes the hook raise the same error, with nothing logged and the
    module unchanged. *)
Theorem hooks_propagate_loader_errors :
  forall (scalar image detection : Type)
         (s s1 : DetectionModel scalar image detection) (trainer : Trainer) e,
    (train_dataloader s = Raise e s1 ->
     s1 = s /\ on_train_start trainer s = Raise e s)
    /\ (test_dataloader s = Raise e s1 ->
        s1 = s /\ on_test_start trainer s = Raise e s).
Proof.
  intros scalar image detection s s1 trainer e. split; intros E.
  - assert (Hs : s1 = s).
    { revert E. unfold train_dataloader. run_eff.
      destruct (trn_df s); [| intros E; injection E as _ <-; reflexivity].
      destruct (tfms s); [| intros E; injection E as _ <-; reflexivity].
      destruct (getitem _ "train"); cbn;
        [intros E; injection E as _ <-; reflexivity |].
      destruct (DataLoader_new _ _ _ _); cbn; intros E;
        [injection E as _ <-; reflexivity | discriminate]. }
    subst s1. split; [reflexivity |].
    unfold on_train_start, bind. rewrite E. reflexivity.
  - assert (Hs : s1 = s).
    { revert E. unfold test_dataloader. run_eff.
      destruct (test_df s); [| intros E; injection E as _ <-; reflexivity].
      destruct (tfms s); [| intros E; injection E as _ <-; reflexivity].
      destruct (getitem _ "test"); cbn;
        [intros E; injection E as _ <-; reflexivity |].
      destruct (DataLoader_new _ _ _ _); cbn; intros E;
        [injection E as _ <-; reflexivity | discriminate]. }
    subst s1. split; [reflexivity |].
    unfold on_test_start, bind. rewrite E. reflexivity.
Qed.

Lemma hooks_propagate_loader_errors_witness :
  on_train_start demo_trainer shuffle_prepared
    = Raise (TypeError "got multiple values for argument") shuffle_prepared.
Proof.
  destruct (hooks_propagate_loader_errors Q Image Detection shuffle_prepared
              shuffle_prepared demo_trainer
              (TypeError "got multiple values for argument")) as [H _].
  destruct H as [_ E]; [vm_compute; reflexivity | exact E].
Defined.

(** *** Options that clash with the arguments of a loader *)

Lemma DataLoader_new_no_clash ds bs shuffle_arg kw dl :
  DataLoader_new ds bs shuffle_arg kw = inr dl ->
  kw_mem kw "dataset" = false /\ kw_mem kw "batch_size" = false /\
  kw_mem kw "collate_fn" = false /\
  (is_some shuffle_arg = true -> kw_mem kw "shuffle" = false).
Proof.
  unfold DataLoader_new.
  destruct (kw_mem kw "dataset"); [discriminate |].
  destruct (kw_mem kw "batch_size"); [discriminate |].
  destruct (kw_mem kw "collate_fn"); [discriminate |].
  destruct (is_some shuffle_arg); cbn.
  - destruct (kw_mem kw "shuffle"); [discriminate | auto].
  - intros _. repeat split. discriminate.
Qed.

(** X21. The data-loading options are forwarded as keyword arguments next
    to the arguments that the module passes itself.  Options that name
    [dataset], [batch_size] or [collate_fn] make every loader fail, and
    options that name [shuffle] make the train loader fail: none of them
    can return. *)
Theorem dataloader_options_clash :
  forall (scalar image detection : Type)
         (s s' : DetectionModel scalar image detection) dl,
    (kw_mem (dataloader (hparams s)) "dataset" = true \/
     kw_mem (dataloader (hparams s)) "batch_size" = true \/
     kw_mem (dataloader (hparams s)) "collate_fn" = true ->
     train_dataloader s <> Return dl s' /\
     val_dataloader s <> Return dl s' /\
     test_dataloader s <> Return dl s')
    /\ (kw_mem (dataloader (hparams s)) "shuffle" = true ->
        train_dataloader s <> Return dl s').
Proof.
  intros scalar image detection s s' dl. split.
  - intros Hk. repeat split; intros E.
    + apply train_dataloader_inv in E. destruct E as (_ & ds & Hn & _).
      apply DataLoader_new_no_clash in Hn. destruct Hn as (H1 & H2 & H3 & _).
      destruct Hk as [H | [H | H]]; congruence.
    + apply val_dataloader_inv in E. destruct E as (_ & ds & Hn & _).
      apply DataLoader_new_no_clash in Hn. destruct Hn as (H1 & H2 & H3 & _).
      destruct Hk as [H | [H | H]]; congruence.
    + apply test_dataloader_loader in E. destruct E as (ds & Hn & _).
      apply DataLoader_new_no_clash in Hn. destruct Hn as (H1 & H2 & H3 & _).
      destruct Hk as [H | [H | H]]; congruence.
  - intros Hk E. apply train_dataloader_inv in E.
    destruct E as (_ & ds & Hn & _).
    apply DataLoader_new_no_clash in Hn. destruct Hn as (_ & _ & _ & H4).
    rewrite (H4 eq_refl) in Hk. discriminate.
Qed.

Lemma dataloader_options_clash_witness :
  ~ exists dl s', train_dataloader shuffle_prepared = Return dl s'.
Proof.
  intros (dl & s' & E).
  destruct (dataloader_options_clash Q Image Detection shuffle_prepared s' dl)
    as [_ H].
  exact (H eq_refl E).
Defined.

(** *** The total loss as a sum *)

Lemma fold_Qplus_compat (l : list Q) (a b : Q) :
  (a == b)%Q -> (fold_left Qplus l a == fold_left Qplus l b)%Q.
Proof.
  revert a b. induction l as [| x l IH]; cbn; intros a b Hab; [exact Hab |].
  apply IH. rewrite Hab. reflexivity.
Qed.

Lemma fold_Qplus_perm (l l' : list Q) :
  Permutation l l' ->
  forall a, (fold_left Qplus l a == fold_left Qplus l' a)%Q.
Proof.
  induction 1 as [| x l l' _ IH | x y l | l l' l'' _ IH1 _ IH2]; intros a; cbn.
  - reflexivity.
  - apply IH.
  - apply fold_Qplus_compat. ring.
  - rewrite IH1. apply IH2.
Qed.

Lemma fold_Qplus_nonneg (l : list Q) (a : Q) :
  (0 <= a)%Q -> (forall x, In x l -> (0 <= x)%Q) ->
  (0 <= fold_left Qplus l a)%Q.
Proof.
  revert a. induction l as [| x l IH]; cbn; intros a Ha Hl; [exact Ha |].
  apply IH.
  - replace 0%Q with (0 + 0)%Q by reflexivity.
    apply Qplus_le_compat; [exact Ha | apply Hl; left; reflexivity].
  - intros y Hy. apply Hl. right. exact Hy.
Qed.

(** X22. Over exact arithmetic the total loss of a train step does not
    depend on the order in which the model lists the components: two
    steps whose loss dictionaries hold the same entries in any order
    report equal totals.  The total of non-negative components is
    non-negative, and the total of an empty dictionary is zero.  Over
    binary64 numbers the order can matter. *)
Theorem training_step_loss_order :
  forall (image detection : Type)
         (s1 s2 : DetectionModel Q image detection)
         (b1 b2 : Batch image) (i1 i2 : Z) out1 out2 r1 r2,
    training_step b1 i1 s1 = Return out1 r1 ->
    training_step b2 i2 s2 = Return out2 r2 ->
    (Permutation (log out1) (log out2) -> (loss out1 == loss out2)%Q)
    /\ ((forall kv, In kv (log out1) -> (0 <= snd kv)%Q) ->
        (0 <= loss out1)%Q)
    /\ (log out1 = [] -> loss out1 = 0%Q)
    /\ py_sum [0.1%float; 0.2%float; 0.3%float]
         <> py_sum [0.3%float; 0.2%float; 0.1%float].
Proof.
  intros image detection s1 s2 [[im1 t1] d1] [[im2 t2] d2] i1 i2 out1 out2
         r1 r2 E1 E2.
  rewrite training_step_eq in E1, E2.
  injection E1 as <- _. injection E2 as <- _. cbn [log loss].
  split; [| split; [| split]].
  - intros Hp. unfold py_sum. cbn [sadd szero Scalar_Q].
    apply fold_Qplus_perm. unfold values. apply Permutation_map. exact Hp.
  - intros Hpos. unfold py_sum. cbn [sadd szero Scalar_Q].
    apply fold_Qplus_nonneg; [apply Qle_refl |].
    intros x Hx. unfold values in Hx. apply in_map_iff in Hx.
    destruct Hx as (kv & <- & Hkv). apply Hpos. exact Hkv.
  - intros ->. reflexivity.
  - intro H.
    assert (Hb : PrimFloat.eqb (py_sum [0.1%float; 0.2%float; 0.3%float])
                               (py_sum [0.3%float; 0.2%float; 0.1%float])
                 = true).
    { rewrite H. vm_compute. reflexivity. }
    vm_compute in Hb. discriminate Hb.
Qed.

Lemma training_step_loss_order_witness :
  exists out1 out2,
    training_step batch_78 0 demo_init = Return out1 demo_init /\
    training_step batch_78 0 (set_model stub_model_swapped demo_init)
      = Return out2 (set_model stub_model_swapped demo_init) /\
    keys (log out1) = ["cls"; "reg"] /\ keys (log out2) = ["reg"; "cls"] /\
    (loss out1 == loss out2)%Q.
Proof.
  unfold batch_78. rewrite !training_step_eq.
  eexists. eexists. split; [reflexivity |]. split; [reflexivity |].
  split; [reflexivity |]. split; [reflexivity |].
  destruct (training_step_loss_order Image Detection demo_init
              (set_model stub_model_swapped demo_init)
              ([img7; img8], [target_of 7; target_of 8], [0; 1])
              ([img7; img8], [target_of 7; target_of 8], [0; 1])
              0 0 _ _ _ _ (training_step_eq _ _ _ _ _)
              (training_step_eq _ _ _ _ _)) as (Hp & _).
  apply Hp. apply perm_swap.
Defined.

(** *** [initialize_trainer] *)

Lemma kw_mem_In (kw : kwargs) (k : string) :
  kw_mem kw k = true <-> In k (keys kw).
Proof.
  unfold kw_mem, dict_mem, keys.
  induction kw as [| [k0 v0] kw IH]; cbn.
  - split; [discriminate | tauto].
  - destruct (String.eqb_spec k k0) as [-> | Hne].
    + split; auto.
    + rewrite IH. split; [auto | intros [E | H]; [congruence | exact H]].
Qed.

Lemma existsb_eqb_In (l : list string) (k : string) :
  existsb (String.eqb k) l = true <-> In k l.
Proof.
  rewrite existsb_exists. split.
  - intros (x & Hx & E). apply String.eqb_eq in E. subst x. exact Hx.
  - intros H. exists k. split; [exact H | apply String.eqb_refl].
Qed.

(** The merge succeeds exactly when no name is bound twice. *)
Lemma merge_kwargs_spec (explicit : list string) (kw1 kw2 : kwargs) :
  (forall k, In k (keys kw1) -> ~ In k explicit /\ ~ In k (keys kw2)) /\
  (forall k, In k (keys kw2) -> ~ In k explicit)
  <-> merge_kwargs explicit kw1 kw2 = inr (kw1 ++ kw2).
Proof.
  unfold merge_kwargs.
  destruct (existsb (fun k => existsb (String.eqb k) explicit || kw_mem kw2 k)
                    (keys kw1)) eqn:E1; cbn.
  - split; [| discriminate]. intros [H1 _]. exfalso.
    apply existsb_exists in E1. destruct E1 as (k & Hk & Hc).
    destruct (H1 k Hk) as [Ha Hb].
    apply orb_true_iff in Hc. destruct Hc as [Hc | Hc].
    + apply Ha. apply existsb_eqb_In. exact Hc.
    + apply Hb. apply kw_mem_In. exact Hc.
  - destruct (existsb (fun k => existsb (String.eqb k) explicit) (keys kw2))
      eqn:E2.
    + split; [| discriminate]. intros [_ H2]. exfalso.
      apply existsb_exists in E2. destruct E2 as (k & Hk & Hc).
      apply (H2 k Hk). apply existsb_eqb_In. exact Hc.
    + split; [reflexivity |]. intros _. split.
      * intros k Hk.
        assert (Hf : existsb (String.eqb k) explicit || kw_mem kw2 k = false).
        { destruct (existsb (String.eqb k) explicit || kw_mem kw2 k) eqn:Hx;
            [| reflexivity].
          assert (existsb (fun k => existsb (String.eqb k) explicit
                                    || kw_mem kw2 k) (keys kw1) = true)
            by (apply existsb_exists; eauto).
          congruence. }
        apply orb_false_iff in Hf. destruct Hf as [Ha Hb]. split.
        -- intro Hin. apply existsb_eqb_In in Hin. congruence.
        -- intro Hin. apply kw_mem_In in Hin. congruence.
      * intros k Hk Hin.
        assert (existsb (fun k => existsb (String.eqb k) explicit) (keys kw2)
                = true).
        { apply existsb_exists. exists k. split; [exact Hk |].
          apply existsb_eqb_In. exact Hin. }
        congruence.
Qed.

Lemma merge_kwargs_cases (explicit : list string) (kw1 kw2 : kwargs) :
  merge_kwargs explicit kw1 kw2 = inr (kw1 ++ kw2) \/
  merge_kwargs explicit kw1 kw2
    = inl (TypeError "got multiple values for keyword argument").
Proof.
  unfold merge_kwargs. destruct (_ || _); auto.
Qed.

(** The function, case by case on the outcome of each library call, in
    the order in which the calls are made. *)
Lemma initialize_trainer_eq {FS : Type} (lib : TrainerLib FS)
    trainer_conf kw (fs : FS) :
  initialize_trainer lib trainer_conf kw fs =
  match EarlyStopping_init lib (early_stopping_params trainer_conf) with
  | Some e => Raise e fs
  | None =>
  match os_makedirs lib (filepath (model_checkpoint_params trainer_conf)) fs
  with
  | inl e => Raise e fs
  | inr fs1 =>
  match ModelCheckpoint_init lib
          (filepath (model_checkpoint_params trainer_conf))
          (checkpoint_kwargs (model_checkpoint_params trainer_conf))
  with
  | Some e => Raise e fs1
  | None =>
  match LearningRateLogger_init lib (learning_rate_monitor_params trainer_conf)
  with
  | Some e => Raise e fs1
  | None =>
  match logger_load_obj lib (logger_class_name (logger_conf trainer_conf)) with
  | inl e => Raise e fs1
  | inr cls =>
  match logger_init lib cls (logger_params (logger_conf trainer_conf)) with
  | Some e => Raise e fs1
  | None =>
  match merge_kwargs trainer_keywords (flags trainer_conf) kw with
  | inl e => Raise e fs1
  | inr all_flags =>
      let call :=
        {| trainer_logger :=
             [ {| experiment_logger_class := cls;
                  experiment_logger_kwargs :=
                    logger_params (logger_conf trainer_conf) |} ];
           checkpoint_callback :=
             {| checkpoint_filepath :=
                  filepath (model_checkpoint_params trainer_conf);
                model_checkpoint_kwargs :=
                  checkpoint_kwargs (model_checkpoint_params trainer_conf) |};
           early_stop_callback :=
             {| early_stopping_kwargs := early_stopping_params trainer_conf |};
           callbacks :=
             [LearningRateLogger (learning_rate_monitor_params trainer_conf);
              LogCallback];
           trainer_flags := all_flags |} in
      match Trainer_init lib call with
      | Some e => Raise e fs1
      | None => Return call fs1
      end
  end end end end end end end.
Proof.
  unfold initialize_trainer, bind, check, on_fs, lift, ret, raise.
  destruct (EarlyStopping_init lib _); [reflexivity |].
  destruct (os_makedirs lib _ fs); [reflexivity |].
  destruct (ModelCheckpoint_init lib _ _); [reflexivity |].
  destruct (LearningRateLogger_init lib _); [reflexivity |].
  destruct (logger_load_obj lib _); [reflexivity |].
  destruct (logger_init lib _ _); [reflexivity |].
  destruct (merge_kwargs _ _ _); [reflexivity |]. cbv zeta.
  destruct (Trainer_init lib _); reflexivity.
Qed.


(** X23. What [initialize_trainer] hands to [pl.Trainer] when it returns.
    The [callbacks] argument is the learning-rate logger followed by
    [LogCallback], nothing else (the callbacks that the library adds to
    the trainer it builds are its own).  The [logger] argument is a list
    of exactly one experiment logger, of the class that was loaded; the
    checkpoint and early-stopping callbacks are built from the configured
    parameters; the flags are the configured flags followed by the extra
    keyword arguments, none of which repeats a configured flag or names
    an argument that the function passes itself.  The call returned only
    because every constructor accepted its arguments, the trainer's
    included, and the file system is the one that [os.makedirs] left. *)
Theorem initialize_trainer_result :
  forall (FS : Type) (lib : TrainerLib FS) trainer_conf kw (fs fs' : FS) call,
    initialize_trainer lib trainer_conf kw fs = Return call fs' ->
    callbacks call
      = [LearningRateLogger (learning_rate_monitor_params trainer_conf);
         LogCallback] /\
    (exists cls,
        logger_load_obj lib (logger_class_name (logger_conf trainer_conf))
          = inr cls /\
        logger_init lib cls (logger_params (logger_conf trainer_conf)) = None /\
        trainer_logger call
          = [ {| experiment_logger_class := cls;
                 experiment_logger_kwargs :=
                   logger_params (logger_conf trainer_conf) |} ]) /\
    checkpoint_callback call
      = {| checkpoint_filepath :=
             filepath (model_checkpoint_params trainer_conf);
           model_checkpoint_kwargs :=
             checkpoint_kwargs (model_checkpoint_params trainer_conf) |} /\
    early_stop_callback call
      = {| early_stopping_kwargs := early_stopping_params trainer_conf |} /\
    EarlyStopping_init lib (early_stopping_params trainer_conf) = None /\
    os_makedirs lib (filepath (model_checkpoint_params trainer_conf)) fs
      = inr fs' /\
    trainer_flags call = flags trainer_conf ++ kw /\
    (forall k, In k (keys (flags trainer_conf)) ->
               ~ In k trainer_keywords /\ ~ In k (keys kw)) /\
    (forall k, In k (keys kw) -> ~ In k trainer_keywords) /\
    Trainer_init lib call = None.
Proof.
  intros FS lib trainer_conf kw fs fs' call.
  rewrite initialize_trainer_eq.
  destruct (EarlyStopping_init lib _) as [e |] eqn:He; [discriminate |].
  destruct (os_makedirs lib _ fs) as [e | fs1] eqn:Hd; [discriminate |].
  destruct (ModelCheckpoint_init lib _ _) as [e |]; [discriminate |].
  destruct (LearningRateLogger_init lib _) as [e |]; [discriminate |].
  destruct (logger_load_obj lib _) as [e | cls] eqn:Hl; [discriminate |].
  destruct (logger_init lib _ _) as [e |] eqn:Hli; [discriminate |].
  destruct (merge_kwargs_cases trainer_keywords (flags trainer_conf) kw)
    as [Hm | Hm]; rewrite Hm; [| discriminate].
  cbv zeta.
  destruct (Trainer_init lib _) as [e |] eqn:Ht; [discriminate |].
  intros E. injection E as <- <-. cbn.
  apply merge_kwargs_spec in Hm. destruct Hm as [H1 H2].
  split; [reflexivity |]. split; [eauto |].
  auto 10.
Qed.

Lemma initialize_trainer_result_witness :
  exists call fs',
    initialize_trainer demo_lib cpu_trainer_conf
                       [("fast_dev_run", PyBool true)] ["logs"]
      = Return call fs' /\
    callbacks call
      = [LearningRateLogger [("logging_interval", PyStr "step")]; LogCallback] /\
    trainer_flags call
      = [("max_epochs", PyInt 30); ("fast_dev_run", PyBool true)] /\
    fs' = ["logs"; "checkpoints"].
Proof.
  eexists. eexists. split; [cbv; reflexivity |].
  destruct (initialize_trainer_result (list string) demo_lib cpu_trainer_conf
              [("fast_dev_run", PyBool true)] ["logs"] _ _ eq_refl)
    as (Hc & _ & _ & _ & _ & _ & Hf & _).
  split; [exact Hc |]. split; [exact Hf | reflexivity].
Defined.



(** X26. An argument of the trainer that is bound twice makes
    [initialize_trainer] fail: when a configured flag is repeated by an
    extra keyword argument, or a flag or an extra argument names the
    logger, the checkpoint callback, the early-stopping callback or the
    callbacks, the function never returns.  When every step before the
    call of the trainer succeeds, the error is the [TypeError] of that
    call, and the checkpoint directory has been made all the same. *)
Theorem initialize_trainer_keyword_clash :
  forall (FS : Type) (lib : TrainerLib FS) trainer_conf kw (fs : FS),
    (exists k, In k (keys (flags trainer_conf)) /\
               (In k (keys kw) \/ In k trainer_keywords)) \/
    (exists k, In k (keys kw) /\ In k trainer_keywords) ->
    (forall call fs',
        initialize_trainer lib trainer_conf kw fs <> Return call fs')
    /\ (forall fs1 cls,
          EarlyStopping_init lib (early_stopping_params trainer_conf) = None ->
          os_makedirs lib (filepath (model_checkpoint_params trainer_conf)) fs
            = inr fs1 ->
          ModelCheckpoint_init lib
            (filepath (model_checkpoint_params trainer_conf))
            (checkpoint_kwargs (model_checkpoint_params trainer_conf)) = None ->
          LearningRateLogger_init lib
            (learning_rate_monitor_params trainer_conf) = None ->
          logger_load_obj lib (logger_class_name (logger_conf trainer_conf))
            = inr cls ->
          logger_init lib cls (logger_params (logger_conf trainer_conf))
            = None ->
          initialize_trainer lib trainer_conf kw fs
            = Raise (TypeError "got multiple values for keyword argument") fs1).
Proof.
  intros FS lib trainer_conf kw fs Hclash.
  assert (Hm : merge_kwargs trainer_keywords (flags trainer_conf) kw
               = inl (TypeError "got multiple values for keyword argument")).
  { destruct (merge_kwargs_cases trainer_keywords (flags trainer_conf) kw)
      as [Hm | Hm]; [| exact Hm].
    exfalso. apply merge_kwargs_spec in Hm. destruct Hm as [H1 H2].
    destruct Hclash as [(k & Hk & [Hkw | Hex]) | (k & Hk & Hex)].
    - exact (proj2 (H1 k Hk) Hkw).
    - exact (proj1 (H1 k Hk) Hex).
    - exact (H2 k Hk Hex). }
  split.
  - intros call fs'. rewrite initialize_trainer_eq, Hm.
    destruct (EarlyStopping_init lib _); [discriminate |].
    destruct (os_makedirs lib _ fs); [discriminate |].
    destruct (ModelCheckpoint_init lib _ _); [discriminate |].
    destruct (LearningRateLogger_init lib _); [discriminate |].
    destruct (logger_load_obj lib _); [discriminate |].
    destruct (logger_init lib _ _); discriminate.
  - intros fs1 cls He Hd Hc Hlr Hl Hli.
    rewrite initialize_trainer_eq, He, Hd, Hc, Hlr, Hl, Hli, Hm. reflexivity.
Qed.

Lemma initialize_trainer_keyword_clash_witness :
  initialize_trainer demo_lib cpu_trainer_conf clashing_kwargs []
    = Raise (TypeError "got multiple values for keyword argument")
            ["checkpoints"].
Proof.
  destruct (initialize_trainer_keyword_clash (list string) demo_lib
              cpu_trainer_conf clashing_kwargs [])
    as [_ H].
  - left. exists "max_epochs". split; cbn; auto.
  - exact (H ["checkpoints"] "pytorch_lightning.loggers.TensorBoardLogger"
             eq_refl eq_refl eq_refl eq_refl eq_refl eq_refl).
Defined.
